(** * prplOS patch-management monitors: sampling, timing logs and reports

    A shallow embedding of the two monitor scripts,
    [prplos-monitoring-dashboard.py] (class [PatchMonitorDashboard], module
    [Dashboard] below) and [prplos-monitoring-simple.py] (class
    [SimplePatchMonitor], module [Simple] below), followed by the properties
    of their sampling / aggregation / report pipeline.

    Conventions of the embedding:
    - a Python [float] is the rational number it denotes ([Q]); arithmetic is
      exact and results are kept in lowest terms with [Qred], so equal values
      are equal terms.  Rounding, infinities and nan are outside that model:
      where the order of floats decides the outcome (the best method of the
      summary and of the report) the dashboard is embedded again over
      binary64 values, in module [Doubles];
    - a Python exception is a [Raise] result; [try/except] is a [match] on it;
    - an insertion-ordered [dict] whose iteration order is observable is an
      association list with unique keys ([dict_set] updates in place or
      appends); the file system is a finite map from paths to contents;
    - the wall clock and the outcome of the shell commands are inputs. *)

From Stdlib Require Import ZArith QArith Qreduction Ascii String DecimalString Lia.
From Stdlib Require Import Floats.
From stdpp Require Import gmap strings list.

Local Open Scope list_scope.

(** ** Exceptions *)

Inductive exn : Set :=
  | ValueError
  | TypeError
  | IndexError
  | KeyError
  | ZeroDivisionError
  | OSError
  | CalledProcessError.

Inductive result (A : Type) : Type :=
  | Ok (a : A)
  | Raise (e : exn).

Arguments Ok {A} a.
Arguments Raise {A} e.

Definition bind {A B : Type} (m : result A) (k : A -> result B) : result B :=
  match m with
  | Ok a => k a
  | Raise e => Raise e
  end.

Notation "'let*' x ':=' m 'in' k" := (bind m (fun x => k))
  (at level 10, x name, m at level 100, k at level 200).

Definition is_ok {A : Type} (m : result A) : bool :=
  match m with Ok _ => true | Raise _ => false end.

(** ** Python built-ins on strings *)

Module Py.

(** [c in s] for a one-character [c]. *)
Fixpoint contains (c : ascii) (s : string) : bool :=
  match s with
  | EmptyString => false
  | String a s' => if Ascii.eqb a c then true else contains c s'
  end.

(** [s.split(c)] for a one-character separator: never empty, one more field
    than there are separators. *)
Fixpoint split (c : ascii) (s : string) : list string :=
  match s with
  | EmptyString => [EmptyString]
  | String a s' =>
      if Ascii.eqb a c then EmptyString :: split c s'
      else match split c s' with
           | f :: fs => String a f :: fs
           | [] => [String a EmptyString]
           end
  end.

(** [l[i]] for [i >= 0]. *)
Definition getitem {A : Type} (l : list A) (i : nat) : result A :=
  match l !! i with
  | Some x => Ok x
  | None => Raise IndexError
  end.

(** [l[-n:]]: the last [n] elements (all of [l] when it is shorter). *)
Definition lastn {A : Type} (n : nat) (l : list A) : list A :=
  drop (length l - n) l.

(** ASCII white space as [str.isspace] sees it. *)
Definition is_space (a : ascii) : bool :=
  let n := nat_of_ascii a in
  ((9 <=? n) && (n <=? 13)) || ((28 <=? n) && (n <=? 32)).

Fixpoint lstrip (s : string) : string :=
  match s with
  | EmptyString => EmptyString
  | String a s' => if is_space a then lstrip s' else s
  end.

Fixpoint rstrip (s : string) : string :=
  match s with
  | EmptyString => EmptyString
  | String a s' =>
      match rstrip s' with
      | EmptyString => if is_space a then EmptyString else String a EmptyString
      | r => String a r
      end
  end.

(** [s.strip()] *)
Definition strip (s : string) : string := rstrip (lstrip s).

(** Truth value of a string: non-empty. *)
Definition truthy (s : string) : bool :=
  match s with EmptyString => false | String _ _ => true end.

(** *** [float(s)]

    The decimal literals of Python's grammar for [float]:
    [[sign] (digitpart ["." [digitpart]] | "." digitpart) [("e"|"E") [sign] digitpart]]
    where a digitpart is a run of digits that may hold single underscores
    between digits, surrounded by optional white space.  The value is the
    exact rational; the spellings of infinity and nan denote no rational and
    are rejected like every other text. *)

Definition digit_of (a : ascii) : option Z :=
  let n := nat_of_ascii a in
  if (48 <=? n) && (n <=? 57) then Some (Z.of_nat (n - 48)) else None.

(** Digits after a first digit; returns the value, the number of digits read
    and the rest of the text. *)
Fixpoint digitpart_rest (acc : Z) (n : nat) (s : string) : Z * nat * string :=
  match s with
  | EmptyString => (acc, n, s)
  | String a s' =>
      match digit_of a with
      | Some d => digitpart_rest (10 * acc + d) (S n) s'
      | None =>
          if Ascii.eqb a "_" then
            match s' with
            | String b s'' =>
                match digit_of b with
                | Some d => digitpart_rest (10 * acc + d) (S n) s''
                | None => (acc, n, s)
                end
            | EmptyString => (acc, n, s)
            end
          else (acc, n, s)
      end
  end.

Definition digitpart (s : string) : option (Z * nat * string) :=
  match s with
  | String a s' =>
      match digit_of a with
      | Some d => Some (digitpart_rest d 1 s')
      | None => None
      end
  | EmptyString => None
  end.

(** An optional sign: [true] for "-". *)
Definition sign (s : string) : bool * string :=
  match s with
  | String a s' =>
      if Ascii.eqb a "-" then (true, s')
      else if Ascii.eqb a "+" then (false, s')
      else (false, s)
  | EmptyString => (false, s)
  end.

(** The mantissa [[digitpart] "." digitpart | digitpart ["."]]: its digits read
    as one integer and the number of digits after the point. *)
Definition mantissa (s : string) : option (Z * nat * string) :=
  match digitpart s with
  | Some (i, _, String "." r) =>
      match digitpart r with
      | Some (f, k, r') => Some (i * 10 ^ Z.of_nat k + f, k, r')%Z
      | None => Some (i, 0, r)
      end
  | Some (i, _, r) => Some (i, 0, r)
  | None =>
      match s with
      | String "." r =>
          match digitpart r with
          | Some (f, k, r') => Some (f, k, r')
          | None => None
          end
      | _ => None
      end
  end.

(** The exponent [[("e"|"E") [sign] digitpart]]; no exponent is 0. *)
Definition exponent (s : string) : option (Z * string) :=
  match s with
  | String a r =>
      if Ascii.eqb a "e" || Ascii.eqb a "E" then
        let '(neg, r1) := sign r in
        match digitpart r1 with
        | Some (e, _, r2) => Some (if neg then (- e)%Z else e, r2)
        | None => None
        end
      else Some (0%Z, s)
  | EmptyString => Some (0%Z, s)
  end.

Definition float (s : string) : result Q :=
  let '(neg, r0) := sign (strip s) in
  match mantissa r0 with
  | Some (m, k, r1) =>
      match exponent r1 with
      | Some (e, EmptyString) =>
          let v := (inject_Z m * 10 ^ (e - Z.of_nat k))%Q in
          Ok (Qred (if neg then - v else v))
      | _ => Raise ValueError
      end
  | None => Raise ValueError
  end.

(** *** Ordering and reductions on numbers *)

(** [x < y] on floats. *)
Definition lt (x y : Q) : bool := negb (Qle_bool y x).

(** [min(items, key=key)]: the first item whose key no later item beats;
    [ValueError] on an empty sequence, and an exception of [key] escapes. *)
Fixpoint min_from {A : Type} (key : A -> result Q) (best : A) (bestv : Q)
    (l : list A) : result A :=
  match l with
  | [] => Ok best
  | x :: l' =>
      let* v := key x in
      if lt v bestv then min_from key x v l' else min_from key best bestv l'
  end.

Definition min_by {A : Type} (key : A -> result Q) (l : list A) : result A :=
  match l with
  | [] => Raise ValueError
  | x :: l' => let* v := key x in min_from key x v l'
  end.

(** [min(l)] and [max(l)] on a list of floats. *)
Definition min (l : list Q) : result Q := min_by Ok l.

Fixpoint max_from (best : Q) (l : list Q) : Q :=
  match l with
  | [] => best
  | x :: l' => if lt best x then max_from x l' else max_from best l'
  end.

Definition max (l : list Q) : result Q :=
  match l with
  | [] => Raise ValueError
  | x :: l' => Ok (max_from x l')
  end.

(** [sum(l)], starting from 0. *)
Definition sum (l : list Q) : Q := fold_left Qplus l 0%Q.

(** [x / n] for a float [x] and a length [n]. *)
Definition div (x : Q) (n : nat) : result Q :=
  match n with
  | O => Raise ZeroDivisionError
  | S _ => Ok (Qred (x / inject_Z (Z.of_nat n)))
  end.

End Py.

(** ** numpy reductions *)

Module Np.

(** The arithmetic mean of a non-empty list. *)
Definition mean_of (l : list Q) : Q :=
  Qred (Py.sum l / inject_Z (Z.of_nat (length l))).

(** [np.mean(l)].  On an empty input numpy answers nan with a warning; nan is
    outside the model, and every call site goes on to [np.max] of the same
    list, which raises [ValueError] there. *)
Definition mean (l : list Q) : result Q :=
  match l with
  | [] => Raise ValueError
  | _ :: _ => Ok (mean_of l)
  end.

(** [np.min(l)] and [np.max(l)]: [ValueError] on a zero-size input. *)
Definition min (l : list Q) : result Q := Py.min l.
Definition max (l : list Q) : result Q := Py.max l.

End Np.

(** ** Dates and times *)

Record datetime : Set := {
  year : N;
  month : N;
  day : N;
  hour : N;
  minute : N;
  second : N;
  microsecond : N
}.

(** What [datetime.now()] can return. *)
Definition valid_datetime (t : datetime) : Prop :=
  (1000 <= year t < 10000 /\ 1 <= month t <= 12 /\ 1 <= day t <= 31 /\
   hour t < 24 /\ minute t < 60 /\ second t < 60 /\ microsecond t < 1000000)%N.

Definition digit (d : N) : ascii := ascii_of_N (48 + d).

(** The last [w] decimal digits of [n], zero padded (format [%0wd]). *)
Fixpoint zfill (w : nat) (n : N) : string :=
  match w with
  | O => EmptyString
  | S w' => zfill w' (n / 10) +:+ String (digit (n mod 10)) EmptyString
  end.

(** [t.strftime('%Y%m%d_%H%M%S')] *)
Definition strftime_compact (t : datetime) : string :=
  zfill 4 (year t) +:+ zfill 2 (month t) +:+ zfill 2 (day t) +:+ "_" +:+
  zfill 2 (hour t) +:+ zfill 2 (minute t) +:+ zfill 2 (second t).

(** [t.strftime('%Y-%m-%d %H:%M:%S')] *)
Definition strftime_human (t : datetime) : string :=
  zfill 4 (year t) +:+ "-" +:+ zfill 2 (month t) +:+ "-" +:+ zfill 2 (day t) +:+
  " " +:+ zfill 2 (hour t) +:+ ":" +:+ zfill 2 (minute t) +:+ ":" +:+
  zfill 2 (second t).

(** [t.isoformat()]: the microseconds are printed unless they are zero. *)
Definition isoformat (t : datetime) : string :=
  zfill 4 (year t) +:+ "-" +:+ zfill 2 (month t) +:+ "-" +:+ zfill 2 (day t) +:+
  "T" +:+ zfill 2 (hour t) +:+ ":" +:+ zfill 2 (minute t) +:+ ":" +:+
  zfill 2 (second t) +:+
  match microsecond t with
  | N0 => EmptyString
  | Npos _ => "." +:+ zfill 6 (microsecond t)
  end.

(** The date-time to second precision: what the file names are stamped with. *)
Definition to_second (t : datetime) : datetime :=
  {| year := year t; month := month t; day := day t; hour := hour t;
     minute := minute t; second := second t; microsecond := 0 |}.

(** ** Dictionaries and JSON-like values *)

(** An insertion-ordered [dict] with string keys. *)
Abbreviation dict V := (list (string * V)).

Fixpoint dict_get {V : Type} (k : string) (d : dict V) : option V :=
  match d with
  | [] => None
  | (k', v) :: d' => if String.eqb k' k then Some v else dict_get k d'
  end.

(** [d[k] = v]: an existing key keeps its place, a new key goes last. *)
Fixpoint dict_set {V : Type} (k : string) (v : V) (d : dict V) : dict V :=
  match d with
  | [] => [(k, v)]
  | (k', v') :: d' =>
      if String.eqb k' k then (k, v) :: d' else (k', v') :: dict_set k v d'
  end.

Definition keys {V : Type} (d : dict V) : list string := map fst d.

(** Truth value of a container: non-empty. *)
Definition nonempty {A : Type} (l : list A) : bool :=
  match l with [] => false | _ :: _ => true end.

(** The values a report is made of, as [json.dump] receives them. *)
#[warnings="-register-all"] Inductive pyval : Type :=
  | PInt (z : Z)
  | PFloat (q : Q)
  | PStr (s : string)
  | PList (l : list pyval)
  | PDict (d : list (string * pyval)).

(** [v[k]] *)
Definition py_getitem (v : pyval) (k : string) : result pyval :=
  match v with
  | PDict d =>
      match dict_get k d with
      | Some x => Ok x
      | None => Raise KeyError
      end
  | _ => Raise TypeError
  end.

(** A value used as a number in a comparison or a float format. *)
Definition as_float (v : pyval) : result Q :=
  match v with
  | PFloat q => Ok q
  | PInt z => Ok (inject_Z z)
  | _ => Raise TypeError
  end.

(** [f"{x:.2f}"]: two decimals, round half to even, sign first. *)
Definition round_half_even (q : Q) : Z :=
  let a := Z.abs (Qnum q) in
  let b := Zpos (Qden q) in
  let f := (a / b)%Z in
  let r := (a mod b)%Z in
  match (2 * r ?= b)%Z with
  | Lt => f
  | Gt => (f + 1)%Z
  | Eq => if Z.even f then f else (f + 1)%Z
  end.

Definition fmt2 (q : Q) : string :=
  let n := round_half_even (q * 100) in
  (if (Qnum q <? 0)%Z then "-" else "") +:+
  NilZero.string_of_uint (N.to_uint (Z.to_N (n / 100))) +:+ "." +:+
  zfill 2 (Z.to_N (n mod 100)).

(** [f"{x:.1f}"]: one decimal. *)
Definition fmt1 (q : Q) : string :=
  let n := round_half_even (q * 10) in
  (if (Qnum q <? 0)%Z then "-" else "") +:+
  NilZero.string_of_uint (N.to_uint (Z.to_N (n / 10))) +:+ "." +:+
  zfill 1 (Z.to_N (n mod 10)).

(** [str(n)] for a length. *)
Definition str_of_nat (n : nat) : string := NilZero.string_of_uint (Nat.to_uint n).

Fixpoint spaces (n : nat) : string :=
  match n with
  | O => EmptyString
  | S n' => String " " (spaces n')
  end.

(** [f"{s:8s}"]: left-justified in 8 columns, never cut. *)
Definition ljust8 (s : string) : string := s +:+ spaces (8 - String.length s).

(** The line feed that opens some of the summary lines. *)
Definition nl : string := String (ascii_of_nat 10) EmptyString.

(** ** Files *)

(** A timing log on disk: [open] or a read may fail, or the file has lines. *)
Inductive logfile : Type :=
  | Unreadable
  | Lines (ls : list string).

(** The report files written so far, and which paths [open(path, 'w')]
    accepts. *)
Record disk : Type := {
  files : gmap string pyval;
  writable : string -> bool
}.

(** [with open(path, 'w') as f: json.dump(v, f, indent=2)]: mode ['w']
    truncates, so an existing file is replaced. *)
Definition write_json (path : string) (v : pyval) (d : disk) : result disk :=
  if writable d path then
    Ok {| files := <[path := v]> (files d); writable := writable d |}
  else Raise OSError.

(** ** Timing log reader, common to both monitors *)

(** [[float(line.strip()) for line in f if line.strip()]]: blank lines are
    skipped, the first line that is no float raises. *)
Fixpoint read_times (lines : list string) : result (list Q) :=
  match lines with
  | [] => Ok []
  | line :: rest =>
      if Py.truthy (Py.strip line) then
        let* x := Py.float (Py.strip line) in
        let* xs := read_times rest in
        Ok (x :: xs)
      else read_times rest
  end.

(** [with open(path, 'r') as f: times = [...]] *)
Definition read_log (f : logfile) : result (list Q) :=
  match f with
  | Unreadable => Raise OSError
  | Lines ls => read_times ls
  end.

(** ** The per-method loop of the reports, common to both monitors *)

(** [for method, times in series.items(): if times:
    report['patch_performance'][method] = {...}], where [summary] builds the
    entry. *)
Fixpoint performance_from (summary : list Q -> result pyval)
    (items : dict (list Q)) (perf : dict pyval) : result (dict pyval) :=
  match items with
  | [] => Ok perf
  | (method, times) :: rest =>
      if nonempty times then
        let* entry := summary times in
        performance_from summary rest (dict_set method entry perf)
      else performance_from summary rest perf
  end.

(** The keys shared by one sample and by the stored windows: [D] is what is
    kept under ['timestamp'], [T] what is kept under the four metric keys. *)
Record metrics (D T : Type) : Type := {
  timestamp : D;
  cpu_usage : T;
  memory_usage : T;
  disk_io : T;
  network_io : T
}.

Arguments timestamp {D T} _.
Arguments cpu_usage {D T} _.
Arguments memory_usage {D T} _.
Arguments disk_io {D T} _.
Arguments network_io {D T} _.

(** What the four shell pipelines of a sampling tick produce: the text on
    standard output, or the exception of the call. *)
Record shell : Type := {
  cpu_cmd : result string;
  mem_cmd : result string;
  disk_cmd : result string;
  net_cmd : result string
}.

(** One cell of the [elapsed_time] column of [benchmark_summary.csv] as the
    data frame holds it. *)
Inductive cell : Type :=
  | CStr (s : string)
  | CFloat (q : Q).

(** ** The dashboard monitor ([PatchMonitorDashboard]) *)

Module Dashboard.

Abbreviation sample := (metrics datetime Q).
Abbreviation windows := (metrics (list datetime) (list Q)).

(** What travels on [data_queue]. *)
Inductive message : Type :=
  | System (s : sample)
  | Timing (d : dict (list Q)).

Record self : Type := {
  results_dir : string;
  data_queue : list message;
  system_metrics : windows;
  patch_metrics : dict (list Q)
}.

(** [__init__] *)
Definition init (dir : string) : self :=
  {| results_dir := dir;
     data_queue := [];
     system_metrics := {| timestamp := []; cpu_usage := []; memory_usage := [];
                          disk_io := []; network_io := [] |};
     patch_metrics := [] |}.

(** [float(subprocess.check_output(cmd, shell=True).decode().strip())] *)
Definition read_metric (out : result string) : result Q :=
  let* text := out in Py.float (Py.strip text).

(** [collect_system_metrics]: the disk and network readings have a [try] of
    their own, the CPU and memory readings only the outer one. *)
Definition collect_system_metrics (sh : shell) (now : datetime) : option sample :=
  match
    (let* cpu := read_metric (cpu_cmd sh) in
     let* memory := read_metric (mem_cmd sh) in
     let disk := match read_metric (disk_cmd sh) with
                 | Ok v => v
                 | Raise _ => 0%Q
                 end in
     let network := match read_metric (net_cmd sh) with
                    | Ok v => v
                    | Raise _ => 0%Q
                    end in
     Ok {| timestamp := now; cpu_usage := cpu; memory_usage := memory;
           disk_io := disk; network_io := network |})
  with
  | Ok s => Some s
  | Raise _ => None
  end.

Definition timing_files (dir : string) : dict string :=
  [ ("quilt", dir +:+ "/patch_timing_quilt.log");
    ("git", dir +:+ "/patch_timing_git.log");
    ("script", dir +:+ "/patch_timing_script.log") ].

(** [parse_timing_logs]: a method gets an entry only when its file exists and
    the whole file was read. *)
Definition parse_timing_logs (dir : string) (logs : gmap string logfile)
    : dict (list Q) :=
  fold_left
    (fun timing_data '(method, filepath) =>
       match logs !! filepath with
       | Some f =>
           match read_log f with
           | Ok times => dict_set method times timing_data
           | Raise _ => timing_data
           end
       | None => timing_data
       end)
    (timing_files dir) [].

(** [self.data_queue.put(...)] for the messages [msgs], in order. *)
Definition put (msgs : list message) (s : self) : self :=
  {| results_dir := results_dir s;
     data_queue := data_queue s ++ msgs;
     system_metrics := system_metrics s;
     patch_metrics := patch_metrics s |}.

(** The two halves of a round of [monitor_thread]: what each puts on the
    queue ([if metrics:] and [if timing_data:] guard the puts). *)
Definition system_messages (sh : shell) (now : datetime) : list message :=
  match collect_system_metrics sh now with
  | Some m => [System m]
  | None => []
  end.

Definition timing_messages (dir : string) (logs : gmap string logfile)
    : list message :=
  let timing_data := parse_timing_logs dir logs in
  if nonempty timing_data then [Timing timing_data] else [].

Definition monitor_round (s : self) (sh : shell) (now : datetime)
    (logs : gmap string logfile) : self :=
  put (timing_messages (results_dir s) logs) (put (system_messages sh now) s).

(** [if len(l) > 100: l = l[-100:]] *)
Definition keep_last_100 {A : Type} (l : list A) : list A :=
  if 100 <? length l then Py.lastn 100 l else l.

(** The body of the queue loop of [update_plots] for one message. *)
Definition process (s : self) (msg : message) : self :=
  match msg with
  | System data =>
      let m := system_metrics s in
      {| results_dir := results_dir s;
         data_queue := data_queue s;
         system_metrics :=
           {| timestamp := keep_last_100 (timestamp m ++ [timestamp data]);
              cpu_usage := keep_last_100 (cpu_usage m ++ [cpu_usage data]);
              memory_usage := keep_last_100 (memory_usage m ++ [memory_usage data]);
              disk_io := keep_last_100 (disk_io m ++ [disk_io data]);
              network_io := keep_last_100 (network_io m ++ [network_io data]) |};
         patch_metrics := patch_metrics s |}
  | Timing data =>
      {| results_dir := results_dir s;
         data_queue := data_queue s;
         system_metrics := system_metrics s;
         patch_metrics :=
           fold_left (fun pm '(method, times) => dict_set method times pm)
                     data (patch_metrics s) |}
  end.

(** The queue loop of [update_plots]: every queued message, oldest first. *)
Definition update_plots (s : self) : self :=
  fold_left process (data_queue s)
    {| results_dir := results_dir s;
       data_queue := [];
       system_metrics := system_metrics s;
       patch_metrics := patch_metrics s |}.

(** The [aggfunc] of the pivot table in [update_plots], applied to the
    [elapsed_time] cells [x] of one (package, method) group. *)
Definition aggfunc (x : list cell) : result Q :=
  let* first := Py.getitem x 0 in
  match first with
  | CStr s =>
      if Py.contains ":" s then
        let* field := Py.getitem (Py.split ":" s) 1 in Py.float field
      else Py.float s
  | CFloat _ => Raise TypeError
  end.

(** [avg_times = {m: np.mean(t) for m, t in self.patch_metrics.items() if t}] *)
Fixpoint avg_times_from (items : dict (list Q)) (acc : dict Q) : result (dict Q) :=
  match items with
  | [] => Ok acc
  | (m, t) :: rest =>
      if nonempty t then
        let* a := Np.mean t in avg_times_from rest (dict_set m a acc)
      else avg_times_from rest acc
  end.

(** The "Best method" lines of [update_summary]: the method named on the
    summary, if any. [avg_times.get] answers [None] for a missing key, which
    does not compare with a float. *)
Definition best_method (s : self) : result (option string) :=
  if nonempty (patch_metrics s) then
    let* avg_times := avg_times_from (patch_metrics s) [] in
    if nonempty avg_times then
      let* best :=
        Py.min_by (fun m => match dict_get m avg_times with
                            | Some a => Ok a
                            | None => Raise TypeError
                            end)
                  (keys avg_times) in
      Ok (Some best)
    else Ok None
  else Ok None.

Section Reporting.

(** [np.std], the population standard deviation: the square root of a
    rational is no rational in general, so its value is taken as given. *)
Variable np_std : list Q -> Q.

(** [{'average': ..., 'max': ..., 'min': ...}] of a window. *)
Definition window_summary (l : list Q) : result pyval :=
  let* average := Np.mean l in
  let* mx := Np.max l in
  let* mn := Np.min l in
  Ok (PDict [("average", PFloat average); ("max", PFloat mx); ("min", PFloat mn)]).

Definition system_metrics_summary (s : self) : result pyval :=
  if nonempty (cpu_usage (system_metrics s)) then
    let* cpu := window_summary (cpu_usage (system_metrics s)) in
    let* memory := window_summary (memory_usage (system_metrics s)) in
    Ok (PDict [("cpu", cpu); ("memory", memory)])
  else Ok (PDict []).

(** The entry of one method in ['patch_performance']. *)
Definition method_summary (times : list Q) : result pyval :=
  let* average := Np.mean times in
  let* mn := Np.min times in
  let* mx := Np.max times in
  Ok (PDict [("average", PFloat average); ("min", PFloat mn); ("max", PFloat mx);
             ("std_dev", PFloat (np_std times));
             ("samples", PInt (Z.of_nat (length times)))]).

Definition patch_performance (s : self) : result (dict pyval) :=
  performance_from method_summary (patch_metrics s) [].

(** [lambda x: x[1]['average']] *)
Definition average_of_item (x : string * pyval) : result Q :=
  let* a := py_getitem (snd x) "average" in as_float a.

Definition recommendations (perf : dict pyval) : result (list pyval) :=
  if nonempty perf then
    let* best := Py.min_by average_of_item perf in
    let best_method := fst best in
    let* entry := py_getitem (PDict perf) best_method in
    let* a := py_getitem entry "average" in
    let* avg := as_float a in
    Ok [PStr ("Use " +:+ best_method +:+ " method for optimal performance (avg: "
              +:+ fmt2 avg +:+ "s)")]
  else Ok [].

(** The report that [export_report] builds before it opens the file. *)
Definition build_report (s : self) (now : datetime) : result pyval :=
  let* summary := system_metrics_summary s in
  let* perf := patch_performance s in
  let* recs := recommendations perf in
  Ok (PDict [("timestamp", PStr (isoformat now));
             ("system_metrics_summary", summary);
             ("patch_performance", PDict perf);
             ("recommendations", PList recs)]).

Definition default_filename (s : self) (now : datetime) : string :=
  results_dir s +:+ "/analysis_report_" +:+ strftime_compact now +:+ ".json".

(** [export_report(filename)]: the clock is read once for the file name (when
    none is given) and once for the report's time stamp. *)
Definition export_report (s : self) (filename : option string)
    (now_name now_stamp : datetime) (d : disk) : result (pyval * disk) :=
  let filename := match filename with
                  | Some f => f
                  | None => default_filename s now_name
                  end in
  let* report := build_report s now_stamp in
  let* d' := write_json filename report d in
  Ok (report, d').

End Reporting.

(** What happens to a dashboard while it runs: the monitor thread samples the
    system or re-reads the logs and queues the result, and the animation
    timer calls [update_plots]; the two interleave in any order. *)
Inductive event : Type :=
  | Sampled (sh : shell) (now : datetime)
  | LogsRead (logs : gmap string logfile)
  | Frame.

Definition step (s : self) (ev : event) : self :=
  match ev with
  | Sampled sh now => put (system_messages sh now) s
  | LogsRead logs => put (timing_messages (results_dir s) logs) s
  | Frame => update_plots s
  end.

Definition run (dir : string) (evs : list event) : self :=
  fold_left step evs (init dir).

(** What an event puts on the queue of a dashboard whose directory is
    [dir]. *)
Definition queued (dir : string) (ev : event) : list message :=
  match ev with
  | Sampled sh now => system_messages sh now
  | LogsRead logs => timing_messages dir logs
  | Frame => []
  end.

(** [update_summary], the "System metrics summary" block. *)
Definition system_lines (s : self) : result (list string) :=
  if nonempty (cpu_usage (system_metrics s)) then
    let* cpu_avg := Np.mean (cpu_usage (system_metrics s)) in
    let* cpu_max := Np.max (cpu_usage (system_metrics s)) in
    let* mem_avg := Np.mean (memory_usage (system_metrics s)) in
    let* mem_max := Np.max (memory_usage (system_metrics s)) in
    Ok [nl +:+ "System Metrics (last 100 samples):";
        "  CPU Usage:    Avg: " +:+ fmt1 cpu_avg +:+ "% Max: " +:+ fmt1 cpu_max +:+ "%";
        "  Memory Usage: Avg: " +:+ fmt1 mem_avg +:+ "% Max: " +:+ fmt1 mem_max +:+ "%"]
  else Ok [].

(** The line of one method in the "Patch timing summary" block. *)
Definition method_line (method : string) (times : list Q) : result string :=
  let* avg := Np.mean times in
  let* mn := Np.min times in
  let* mx := Np.max times in
  Ok ("  " +:+ ljust8 method +:+ ": Avg: " +:+ fmt2 avg +:+ "s Min: " +:+ fmt2 mn
      +:+ "s Max: " +:+ fmt2 mx +:+ "s (n=" +:+ str_of_nat (length times) +:+ ")").

Fixpoint method_lines (items : dict (list Q)) : result (list string) :=
  match items with
  | [] => Ok []
  | (method, times) :: rest =>
      if nonempty times then
        let* line := method_line method times in
        let* lines := method_lines rest in
        Ok (line :: lines)
      else method_lines rest
  end.

(** [update_summary], the "Patch timing summary" block, best method
    included. *)
Definition patch_lines (s : self) : result (list string) :=
  if nonempty (patch_metrics s) then
    let* lines := method_lines (patch_metrics s) in
    let* best := best_method s in
    Ok ([nl +:+ "Patch Application Performance:"] ++ lines ++
        match best with
        | Some b => [nl +:+ "Best performing method: " +:+ b]
        | None => []
        end)
  else Ok [].

(** The lines [update_summary] gathers before the block on the benchmark
    data frame. *)
Definition summary_lines (s : self) (now : datetime) : result (list string) :=
  let* system := system_lines s in
  let* patch := patch_lines s in
  Ok (["=== prplOS Patch Management Summary ===" +:+ nl;
       "Dashboard Update: " +:+ strftime_human now +:+ nl] ++ system ++ patch).

End Dashboard.

(** ** The simple monitor ([SimplePatchMonitor]) *)

Module Simple.

(** [self.data] *)
Record store : Type := {
  timestamps : list string;
  cpu_usage : list Q;
  memory_usage : list Q;
  patch_times : dict (list Q);
  compile_times : dict (list Q)
}.

Record self : Type := {
  results_dir : string;
  data : store
}.

(** [__init__] *)
Definition init (dir : string) : self :=
  {| results_dir := dir;
     data := {| timestamps := []; cpu_usage := []; memory_usage := [];
                patch_times := []; compile_times := [] |} |}.

(** [float(result.stdout.strip()) if result.stdout.strip() else 0.0] *)
Definition read_metric (out : result string) : result Q :=
  let* stdout := out in
  if Py.truthy (Py.strip stdout) then Py.float (Py.strip stdout) else Ok 0%Q.

(** [collect_system_metrics]: CPU and memory only; the three lists grow
    together, or not at all when an exception reaches the handler. *)
Definition collect_system_metrics (s : self) (sh : shell) (now : datetime)
    : self * bool :=
  match
    (let* cpu := read_metric (cpu_cmd sh) in
     let* memory := read_metric (mem_cmd sh) in
     Ok (cpu, memory))
  with
  | Ok (cpu, memory) =>
      ({| results_dir := results_dir s;
          data := {| timestamps := timestamps (data s) ++ [strftime_human now];
                     cpu_usage := cpu_usage (data s) ++ [cpu];
                     memory_usage := memory_usage (data s) ++ [memory];
                     patch_times := patch_times (data s);
                     compile_times := compile_times (data s) |} |}, true)
  | Raise _ => (s, false)
  end.

Definition methods : list string := ["quilt"; "git"; "script"].

Definition log_file (dir method : string) : string :=
  dir +:+ "/../patch_timing_" +:+ method +:+ ".log".

(** The body of the loop of [parse_timing_logs] for one method. *)
Definition parse_method (dir : string) (logs : gmap string logfile)
    (pt : dict (list Q)) (method : string) : dict (list Q) :=
  match logs !! log_file dir method with
  | Some f =>
      match read_log f with
      | Ok times => if nonempty times then dict_set method times pt else pt
      | Raise _ => pt
      end
  | None => pt
  end.

Definition parse_timing_logs (s : self) (logs : gmap string logfile) : self :=
  {| results_dir := results_dir s;
     data := {| timestamps := timestamps (data s);
                cpu_usage := cpu_usage (data s);
                memory_usage := memory_usage (data s);
                patch_times :=
                  fold_left (parse_method (results_dir s) logs) methods
                            (patch_times (data s));
                compile_times := compile_times (data s) |} |}.

(** [sum(l) / len(l) if l else 0] *)
Definition average_or_zero (l : list Q) : result pyval :=
  if nonempty l then
    let* a := Py.div (Py.sum l) (length l) in Ok (PFloat a)
  else Ok (PInt 0).

(** The entry of one method in ['patch_performance']. *)
Definition method_summary (times : list Q) : result pyval :=
  let* average := Py.div (Py.sum times) (length times) in
  let* mn := Py.min times in
  let* mx := Py.max times in
  Ok (PDict [("average", PFloat average); ("min", PFloat mn); ("max", PFloat mx);
             ("count", PInt (Z.of_nat (length times)))]).

Definition patch_performance (s : self) : result (dict pyval) :=
  performance_from method_summary (patch_times (data s)) [].

(** The report that [save_report] builds before it opens the file. *)
Definition build_report (s : self) (now : datetime) : result pyval :=
  let* cpu_average := average_or_zero (cpu_usage (data s)) in
  let* memory_average := average_or_zero (memory_usage (data s)) in
  let* perf := patch_performance s in
  Ok (PDict [("timestamp", PStr (isoformat now));
             ("system_metrics",
              PDict [("samples", PInt (Z.of_nat (length (timestamps (data s)))));
                     ("cpu_average", cpu_average);
                     ("memory_average", memory_average)]);
             ("patch_performance", PDict perf)]).

Definition report_file (s : self) (now : datetime) : string :=
  results_dir s +:+ "/monitor_report_" +:+ strftime_compact now +:+ ".json".

(** [save_report]: the clock is read once for the report's time stamp and
    once for the file name; the path written is returned. *)
Definition save_report (s : self) (now_stamp now_name : datetime) (d : disk)
    : result (string * disk) :=
  let* report := build_report s now_stamp in
  let* d' := write_json (report_file s now_name) report d in
  Ok (report_file s now_name, d').

(** One turn of the loop of [run_interactive]: [collect_system_metrics],
    then [display_metrics], which re-reads the timing logs before it prints. *)
Definition iteration (s : self) (tick : shell * datetime * gmap string logfile)
    : self :=
  let '(sh, now, logs) := tick in
  parse_timing_logs (fst (collect_system_metrics s sh now)) logs.



End Simple.

(** ** Vocabulary of the properties *)

(** [s.count(c)] *)
Fixpoint count_char (c : ascii) (s : string) : nat :=
  match s with
  | EmptyString => 0
  | String a s' => (if Ascii.eqb a c then 1 else 0) + count_char c s'
  end.

(** The text before the first [c], and the text after it. *)
Fixpoint before (c : ascii) (s : string) : string :=
  match s with
  | EmptyString => EmptyString
  | String a s' => if Ascii.eqb a c then EmptyString else String a (before c s')
  end.

Fixpoint after (c : ascii) (s : string) : string :=
  match s with
  | EmptyString => EmptyString
  | String a s' => if Ascii.eqb a c then s' else after c s'
  end.

(** The text after the last [c] of a string that holds one. *)
Fixpoint after_last (c : ascii) (s : string) : string :=
  match s with
  | EmptyString => EmptyString
  | String a s' =>
      if Py.contains c s' then after_last c s'
      else if Ascii.eqb a c then s' else s
  end.

(** A log has a line that is not blank and is no float. *)
Definition malformed_line (line : string) : bool :=
  Py.truthy (Py.strip line) && negb (is_ok (Py.float (Py.strip line))).

Definition has_malformed_line (ls : list string) : bool :=
  existsb malformed_line ls.

(** A log has nothing but blank lines (or no line at all). *)
Definition all_blank (ls : list string) : bool :=
  forallb (fun line => negb (Py.truthy (Py.strip line))) ls.

(** A reading, or the sentinel 0.0 when it failed. *)
Definition or_zero (r : result Q) : Q :=
  match r with
  | Ok v => v
  | Raise _ => 0%Q
  end.

(** The methods with at least one sample and their means, in the iteration
    order of the dict. *)
Definition method_means (pm : dict (list Q)) : dict Q :=
  omap (fun '(m, t) => if nonempty t then Some (m, Np.mean_of t) else None) pm.

(** The methods of a ['patch_performance'] mapping and their averages. *)
Definition performance_means (perf : dict pyval) : dict Q :=
  omap (fun '(m, entry) => match py_getitem entry "average" with
                           | Ok (PFloat a) => Some (m, a)
                           | _ => None
                           end) perf.

(** An entry that has its average first, as both monitors build it. *)
Definition entry_of (a : Q) (entry : pyval) : Prop :=
  exists others, entry = PDict (("average"%string, PFloat a) :: others).

Definition has_average (x : string * pyval) : Prop := exists a, entry_of a (snd x).

(** [m] is the first entry of [means] among those of least mean: every entry
    before it has a greater mean, none after it has a smaller one. *)
Definition first_least (means : dict Q) (m : string) (a : Q) : Prop :=
  exists pre post,
    means = pre ++ (m, a) :: post /\
    Forall (fun x => (a < snd x)%Q) pre /\
    Forall (fun x => (a <= snd x)%Q) post.

(** The text of the recommendation for [method] with average [avg]. *)
Definition recommendation (method : string) (avg : Q) : pyval :=
  PStr ("Use " +:+ method +:+ " method for optimal performance (avg: "
        +:+ fmt2 avg +:+ "s)").

(** The CPU and memory windows hold the same number of points. *)
Definition windows_aligned (w : Dashboard.windows) : Prop :=
  length (cpu_usage w) = length (memory_usage w).

(** The average of an item of a ['patch_performance'] mapping, 0 when it has
    none. *)
Definition item_average (x : string * pyval) : Q :=
  match Dashboard.average_of_item x with
  | Ok a => a
  | Raise _ => 0%Q
  end.

(** The five windows hold at most 100 points each. *)
Definition windows_bounded (w : Dashboard.windows) : Prop :=
  length (timestamp w) <= 100 /\ length (cpu_usage w) <= 100 /\
  length (memory_usage w) <= 100 /\ length (disk_io w) <= 100 /\
  length (network_io w) <= 100.

(** The samples among the messages taken off the queue, oldest first. *)
Definition samples_of (msgs : list Dashboard.message) : list Dashboard.sample :=
  omap (fun msg => match msg with
                   | Dashboard.System data => Some data
                   | Dashboard.Timing _ => None
                   end) msgs.

(** The series a full read of the log at [path] gives, if there is one. *)
Definition log_series (logs : gmap string logfile) (path : string)
    : option (list Q) :=
  match logs !! path with
  | Some f =>
      match read_log f with
      | Ok times => Some times
      | Raise _ => None
      end
  | None => None
  end.

(** The samples a run collected, oldest first. *)
Definition collected (evs : list Dashboard.event) : list Dashboard.sample :=
  omap (fun ev => match ev with
                  | Dashboard.Sampled sh now => Dashboard.collect_system_metrics sh now
                  | _ => None
                  end) evs.

(** The CPU and memory readings of a turn of the simple monitor, when both
    succeed. *)
Definition simple_reading (sh : shell) : option (Q * Q) :=
  match Simple.read_metric (cpu_cmd sh), Simple.read_metric (mem_cmd sh) with
  | Ok cpu, Ok memory => Some (cpu, memory)
  | _, _ => None
  end.

(** A line that [read_times] skips. *)
Definition blank (line : string) : bool := negb (Py.truthy (Py.strip line)).


(** The series the simple monitor takes from the log at [path]: one read in
    full and not empty. *)
Definition fresh_series (logs : gmap string logfile) (path : string)
    : option (list Q) :=
  match log_series logs path with
  | Some (x :: times) => Some (x :: times)
  | _ => None
  end.

(** ** The dashboard over IEEE doubles

    The part of [PatchMonitorDashboard] that orders floats (the "Best
    performing method" of [update_summary] and the recommendation of
    [export_report]) is embedded a second time, with every float the
    binary64 value Python holds.  Comparisons follow IEEE 754: a nan compares
    false with everything, and a computed mean is a rounded one.  The model
    starts from the messages that the queue loop of [update_plots] takes:
    [float] of a log line accepts ['nan'] and ['inf'], so a stored series can
    hold any double.  The summation order and the rounding of numpy's
    reductions are numpy's own: their values are parameters. *)

Module Doubles.

(** [x < y] on two floats: false as soon as one of them is nan. *)
Definition lt (x y : float) : bool := (x <? y)%float.

(** [min(items, key=key)]: the scan keeps its candidate unless the key of
    the next item is less than the candidate's; [ValueError] on an empty
    sequence. *)
Fixpoint min_from {A : Type} (key : A -> result float) (best : A) (bestv : float)
    (l : list A) : result A :=
  match l with
  | [] => Ok best
  | x :: l' =>
      let* v := key x in
      if lt v bestv then min_from key x v l' else min_from key best bestv l'
  end.

Definition min_by {A : Type} (key : A -> result float) (l : list A) : result A :=
  match l with
  | [] => Raise ValueError
  | x :: l' => let* v := key x in min_from key x v l'
  end.

(** [f"{x:.2f}"]: the exact value of the double, rounded half to even to two
    decimals; ['nan'], ['inf'] and ['-inf'] for the special values. *)
Definition fmt2 (x : float) : string :=
  match Prim2SF x with
  | S754_nan => "nan"
  | S754_infinity s => if s then "-inf" else "inf"
  | S754_zero s => if s then "-0.00" else "0.00"
  | S754_finite s m e =>
      let v := if s then Zneg m else Zpos m in
      fmt2 (if (0 <=? e)%Z then inject_Z (v * 2 ^ e)
            else Qmake v (2 ^ Z.to_pos (- e))%positive)
  end.

(** The values of a report, as [json.dump] receives them. *)
#[warnings="-register-all"] Inductive pyval : Type :=
  | PInt (z : Z)
  | PFloat (x : float)
  | PStr (s : string)
  | PList (l : list pyval)
  | PDict (d : list (string * pyval)).

(** The report files written so far, and which paths [open(path, 'w')]
    accepts: it raises for a path whose directory does not exist. *)
Record disk : Type := {
  files : gmap string pyval;
  writable : string -> bool
}.

(** [with open(path, 'w') as f: json.dump(v, f, indent=2)]; nan and the
    infinities are written too ([allow_nan] is on by default). *)
Definition write_json (path : string) (v : pyval) (d : disk) : result disk :=
  if writable d path then
    Ok {| files := <[path := v]> (files d); writable := writable d |}
  else Raise OSError.

Abbreviation sample := (metrics datetime float).
Abbreviation windows := (metrics (list datetime) (list float)).

(** What travels on [data_queue]. *)
Inductive message : Type :=
  | System (s : sample)
  | Timing (d : dict (list float)).

(** The attributes the queue loop and the reports use. *)
Record self : Type := {
  results_dir : string;
  system_metrics : windows;
  patch_metrics : dict (list float)
}.

(** [__init__]: nothing is created on disk. *)
Definition init (dir : string) : self :=
  {| results_dir := dir;
     system_metrics := {| timestamp := []; cpu_usage := []; memory_usage := [];
                          disk_io := []; network_io := [] |};
     patch_metrics := [] |}.

(** The body of the queue loop of [update_plots] for one message. *)
Definition process (s : self) (msg : message) : self :=
  match msg with
  | System data =>
      let m := system_metrics s in
      {| results_dir := results_dir s;
         system_metrics :=
           {| timestamp := Dashboard.keep_last_100 (timestamp m ++ [timestamp data]);
              cpu_usage := Dashboard.keep_last_100 (cpu_usage m ++ [cpu_usage data]);
              memory_usage :=
                Dashboard.keep_last_100 (memory_usage m ++ [memory_usage data]);
              disk_io := Dashboard.keep_last_100 (disk_io m ++ [disk_io data]);
              network_io :=
                Dashboard.keep_last_100 (network_io m ++ [network_io data]) |};
         patch_metrics := patch_metrics s |}
  | Timing data =>
      {| results_dir := results_dir s;
         system_metrics := system_metrics s;
         patch_metrics :=
           fold_left (fun pm '(method, times) => dict_set method times pm)
                     data (patch_metrics s) |}
  end.

(** The dashboard after its calls of [update_plots] have taken the messages
    [msgs] off the queue, oldest first. *)
Definition run (dir : string) (msgs : list message) : self :=
  fold_left process msgs (init dir).

(** The entry of one method in ['patch_performance']: a dict literal with
    these five keys, in this order. *)
Record entry : Type := {
  average : float;
  min : float;
  max : float;
  std_dev : float;
  samples : nat
}.

Definition entry_json (e : entry) : pyval :=
  PDict [("average"%string, PFloat (average e)); ("min"%string, PFloat (min e));
         ("max"%string, PFloat (max e)); ("std_dev"%string, PFloat (std_dev e));
         ("samples"%string, PInt (Z.of_nat (samples e)))].

(** The text of the recommendation for [method] with average [avg]. *)
Definition recommendation (method : string) (avg : float) : string :=
  "Use " +:+ method +:+ " method for optimal performance (avg: "
  +:+ fmt2 avg +:+ "s)".

(** [report['recommendations']] after the "Generate recommendations" block:
    [min] over the items by ['average'], then the entry of the method it
    names is looked up again for the text. *)
Definition recommendations (perf : dict entry) : result (list string) :=
  if nonempty perf then
    let* best := min_by (fun x => Ok (average (snd x))) perf in
    let best_method := fst best in
    match dict_get best_method perf with
    | Some e => Ok [recommendation best_method (average e)]
    | None => Raise KeyError
    end
  else Ok [].

Section Numpy.

(** What [np.mean], [np.min], [np.max] and [np.std] compute on a list of
    doubles.  [np.mean] and [np.std] answer nan (with a warning) on an empty
    input; [np.min] and [np.max] raise there, see below. *)
Variable mean_of min_of max_of std_of : list float -> float.

(** [np.min(l)] and [np.max(l)]: [ValueError] on a zero-size input. *)
Definition np_min (l : list float) : result float :=
  match l with
  | [] => Raise ValueError
  | _ :: _ => Ok (min_of l)
  end.

Definition np_max (l : list float) : result float :=
  match l with
  | [] => Raise ValueError
  | _ :: _ => Ok (max_of l)
  end.

(** [avg_times = {m: np.mean(t) for m, t in self.patch_metrics.items() if t}] *)
Fixpoint avg_times_from (items : dict (list float)) (acc : dict float) : dict float :=
  match items with
  | [] => acc
  | (m, t) :: rest =>
      if nonempty t then avg_times_from rest (dict_set m (mean_of t) acc)
      else avg_times_from rest acc
  end.

(** The "Best method" lines of [update_summary]: the method named on the
    summary, if any.  [avg_times.get] answers [None] for a missing key, which
    does not compare with a float. *)
Definition best_method (s : self) : result (option string) :=
  if nonempty (patch_metrics s) then
    let avg_times := avg_times_from (patch_metrics s) [] in
    if nonempty avg_times then
      let* best :=
        min_by (fun m => match dict_get m avg_times with
                         | Some a => Ok a
                         | None => Raise TypeError
                         end)
               (keys avg_times) in
      Ok (Some best)
    else Ok None
  else Ok None.

(** [{'average': ..., 'max': ..., 'min': ...}] of a window. *)
Definition window_summary (l : list float) : result pyval :=
  let average := mean_of l in
  let* mx := np_max l in
  let* mn := np_min l in
  Ok (PDict [("average"%string, PFloat average); ("max"%string, PFloat mx);
             ("min"%string, PFloat mn)]).

Definition system_metrics_summary (s : self) : result pyval :=
  if nonempty (cpu_usage (system_metrics s)) then
    let* cpu := window_summary (cpu_usage (system_metrics s)) in
    let* memory := window_summary (memory_usage (system_metrics s)) in
    Ok (PDict [("cpu"%string, cpu); ("memory"%string, memory)])
  else Ok (PDict []).

Definition method_summary (times : list float) : result entry :=
  let average := mean_of times in
  let* mn := np_min times in
  let* mx := np_max times in
  Ok {| average := average; min := mn; max := mx; std_dev := std_of times;
        samples := length times |}.

(** [for method, times in self.patch_metrics.items(): if times:
    report['patch_performance'][method] = {...}] *)
Fixpoint performance_from (items : dict (list float)) (perf : dict entry)
    : result (dict entry) :=
  match items with
  | [] => Ok perf
  | (method, times) :: rest =>
      if nonempty times then
        let* e := method_summary times in
        performance_from rest (dict_set method e perf)
      else performance_from rest perf
  end.

Definition patch_performance (s : self) : result (dict entry) :=
  performance_from (patch_metrics s) [].

(** The report that [export_report] builds before it opens the file. *)
Definition build_report (s : self) (now : datetime) : result pyval :=
  let* summary := system_metrics_summary s in
  let* perf := patch_performance s in
  let* recs := recommendations perf in
  Ok (PDict [("timestamp"%string, PStr (isoformat now));
             ("system_metrics_summary"%string, summary);
             ("patch_performance"%string,
              PDict (map (fun x => (fst x, entry_json (snd x))) perf));
             ("recommendations"%string, PList (map PStr recs))]).

Definition default_filename (s : self) (now : datetime) : string :=
  results_dir s +:+ "/analysis_report_" +:+ strftime_compact now +:+ ".json".

(** [export_report(filename)]: the clock is read once for the file name (when
    none is given) and once for the report's time stamp; the file is opened
    after the report is built. *)
Definition export_report (s : self) (filename : option string)
    (now_name now_stamp : datetime) (d : disk) : result (pyval * disk) :=
  let filename := match filename with
                  | Some f => f
                  | None => default_filename s now_name
                  end in
  let* report := build_report s now_stamp in
  let* d' := write_json filename report d in
  Ok (report, d').

(** The methods with at least one sample and their computed means, in the
    iteration order of the dict. *)
Definition method_means (pm : dict (list float)) : dict float :=
  omap (fun '(m, t) => if nonempty t then Some (m, mean_of t) else None) pm.

(** The entry of a non-empty series. *)
Definition entry_of (times : list float) : entry :=
  {| average := mean_of times; min := min_of times; max := max_of times;
     std_dev := std_of times; samples := length times |}.

Definition entries_of (pm : dict (list float)) : dict entry :=
  omap (fun '(m, t) => if nonempty t then Some (m, entry_of t) else None) pm.

End Numpy.

(** The methods of a ['patch_performance'] mapping and their averages. *)
Definition performance_means (perf : dict entry) : dict float :=
  map (fun x => (fst x, average (snd x))) perf.

(** [m] is the first entry of [means] among those of least mean: every entry
    before it has a greater mean, every entry after it a mean at least as
    great. *)
Definition first_least (means : dict float) (m : string) (a : float) : Prop :=
  exists pre post,
    means = pre ++ (m, a) :: post /\
    Forall (fun x => (a <? snd x)%float = true) pre /\
    Forall (fun x => (a <=? snd x)%float = true) post.

(** What holds of the entry [min] ends on, nan or not: no later entry is
    less than it, and it is less than every earlier entry that is no nan. *)
Definition first_unbeaten (means : dict float) (m : string) (a : float) : Prop :=
  exists pre post,
    means = pre ++ (m, a) :: post /\
    Forall (fun x => is_nan (snd x) = false -> (a <? snd x)%float = true) pre /\
    Forall (fun x => (snd x <? a)%float = false) post.

Definition no_nan (means : dict float) : Prop :=
  Forall (fun x => is_nan (snd x) = false) means.

(** The CPU and memory windows hold the same number of points. *)
Definition windows_aligned (w : windows) : Prop :=
  length (cpu_usage w) = length (memory_usage w).

(** Reductions for the examples: the sum from left to right over the length,
    the least and the greatest sample, and the root of the mean squared
    deviation.  On a series of one sample they are that sample, that sample,
    that sample and zero (nan for a nan sample), as with numpy. *)
Definition of_nat (n : nat) : float := of_uint63 (Uint63.of_Z (Z.of_nat n)).

Definition mean_seq (l : list float) : float :=
  (fold_left PrimFloat.add l 0 / of_nat (length l))%float.

Definition min_seq (l : list float) : float :=
  fold_left (fun b x => if (x <? b)%float then x else b) (tl l) (hd nan l).

Definition max_seq (l : list float) : float :=
  fold_left (fun b x => if (b <? x)%float then x else b) (tl l) (hd nan l).

Definition std_seq (l : list float) : float :=
  let m := mean_seq l in
  PrimFloat.sqrt (mean_seq (map (fun x => ((x - m) * (x - m))%float) l)).

End Doubles.

(** * Properties *)

(** ** Dictionaries *)

Section Dict.
Context {V : Type}.
Implicit Types d : dict V.

Lemma dict_get_set_eq k v d : dict_get k (dict_set k v d) = Some v.
Proof.
  induction d as [|[k' v'] d IH]; simpl.
  - now rewrite String.eqb_refl.
  - destruct (String.eqb k' k) eqn:E; simpl.
    + now rewrite String.eqb_refl.
    + now rewrite E.
Qed.

Lemma dict_get_set_ne k k' v d : k <> k' -> dict_get k (dict_set k' v d) = dict_get k d.
Proof.
  intros Hne. induction d as [|[k0 v0] d IH]; simpl.
  - destruct (String.eqb k' k) eqn:E; [|reflexivity].
    apply String.eqb_eq in E. congruence.
  - destruct (String.eqb k0 k') eqn:E; simpl.
    + apply String.eqb_eq in E. subst k0.
      destruct (String.eqb k' k) eqn:E'; [|reflexivity].
      apply String.eqb_eq in E'. congruence.
    + now rewrite IH.
Qed.

Lemma dict_get_set k k' v d :
  dict_get k (dict_set k' v d) = if String.eqb k' k then Some v else dict_get k d.
Proof.
  destruct (String.eqb k' k) eqn:E.
  - apply String.eqb_eq in E. subst. apply dict_get_set_eq.
  - apply String.eqb_neq in E. apply dict_get_set_ne. congruence.
Qed.

Lemma dict_get_None k d : dict_get k d = None <-> ~ In k (keys d).
Proof.
  induction d as [|[k' v'] d IH]; simpl.
  - tauto.
  - destruct (String.eqb k' k) eqn:E.
    + apply String.eqb_eq in E. split; [discriminate | tauto].
    + apply String.eqb_neq in E. rewrite IH. tauto.
Qed.

Lemma dict_get_In k v d : dict_get k d = Some v -> In (k, v) d.
Proof.
  induction d as [|[k' v'] d IH]; simpl; [discriminate|].
  destruct (String.eqb k' k) eqn:E.
  - apply String.eqb_eq in E. intros [= ->]. left. now subst.
  - intros H. right. now apply IH.
Qed.

(** A key that is new goes last, the other entries stay. *)
Lemma dict_set_fresh k v d : ~ In k (keys d) -> dict_set k v d = d ++ [(k, v)].
Proof.
  induction d as [|[k' v'] d IH]; simpl; [reflexivity|].
  intros Hn. destruct (String.eqb k' k) eqn:E.
  - apply String.eqb_eq in E. tauto.
  - rewrite IH; tauto.
Qed.

End Dict.

(** ** Timing logs *)

Lemma float_raises_ValueError s e : Py.float s = Raise e -> e = ValueError.
Proof.
  unfold Py.float.
  destruct (Py.sign (Py.strip s)) as [neg r0].
  destruct (Py.mantissa r0) as [[[m k] r1]|]; [|congruence].
  destruct (Py.exponent r1) as [[ex [|c r2]]|]; congruence.
Qed.

Lemma read_times_malformed ls :
  has_malformed_line ls = true -> read_times ls = Raise ValueError.
Proof.
  induction ls as [|line ls IH]; simpl; [discriminate|].
  unfold malformed_line at 1.
  destruct (Py.truthy (Py.strip line)) eqn:Ht; simpl.
  - destruct (Py.float (Py.strip line)) as [x|e] eqn:Hf; simpl.
    + intros H. now rewrite (IH H).
    + intros _. now rewrite (float_raises_ValueError _ _ Hf).
  - exact IH.
Qed.

Lemma read_times_blank ls : all_blank ls = true -> read_times ls = Ok [].
Proof.
  induction ls as [|line ls IH]; simpl; [reflexivity|].
  destruct (Py.truthy (Py.strip line)); simpl; [discriminate | exact IH].
Qed.

(** What [Simple.parse_timing_logs] can do to the series of a method: leave it
    as it was, or store a non-empty series that was just read in full. *)
Lemma simple_parse_fold dir (logs : gmap string logfile) ms pt m :
  let pt' := fold_left (Simple.parse_method dir logs) ms pt in
  dict_get m pt' = dict_get m pt \/
  exists f times,
    In m ms /\ logs !! Simple.log_file dir m = Some f /\
    read_log f = Ok times /\ times <> [] /\ dict_get m pt' = Some times.
Proof.
  revert pt. induction ms as [|m' ms IH]; intros pt; simpl; [now left|].
  destruct (IH (Simple.parse_method dir logs pt m')) as [Heq|(f & times & Hin & Hf & Hr & Hne & Hget)].
  - simpl in Heq. rewrite Heq. unfold Simple.parse_method.
    destruct (logs !! Simple.log_file dir m') as [f|] eqn:Hf; [|now left].
    destruct (read_log f) as [times|e] eqn:Hr; [|now left].
    destruct times as [|x times]; simpl; [now left|].
    rewrite dict_get_set. destruct (String.eqb m' m) eqn:E; [|now left].
    apply String.eqb_eq in E. subst m'.
    right. exists f, (x :: times). repeat split; auto; try discriminate.
  - right. exists f, times. repeat split; auto.
Qed.

(** The same for [Dashboard.parse_timing_logs], whose result starts empty:
    an entry is a series that was just read in full from a file of the method. *)
Lemma dashboard_parse_fold (logs : gmap string logfile) (fl : dict string) acc m :
  let td := fold_left
    (fun timing_data '(method, filepath) =>
       match logs !! filepath with
       | Some f =>
           match read_log f with
           | Ok times => dict_set method times timing_data
           | Raise _ => timing_data
           end
       | None => timing_data
       end) fl acc in
  dict_get m td = dict_get m acc \/
  exists path f times,
    In (m, path) fl /\ logs !! path = Some f /\ read_log f = Ok times /\
    dict_get m td = Some times.
Proof.
  revert acc. induction fl as [|[m' p'] fl IH]; intros acc; simpl; [now left|].
  match goal with |- context [fold_left ?F fl ?A] => destruct (IH A) as [Heq|(path & f & times & Hin & Hf & Hr & Hget)] end.
  - simpl in Heq. rewrite Heq.
    destruct (logs !! p') as [f|] eqn:Hf; [|now left].
    destruct (read_log f) as [times|e] eqn:Hr; [|now left].
    rewrite dict_get_set. destruct (String.eqb m' m) eqn:E; [|now left].
    apply String.eqb_eq in E. subst m'.
    right. exists p', f, times. repeat split; auto.
  - right. exists path, f, times. repeat split; auto.
Qed.

Lemma timing_files_functional dir m p p' :
  In (m, p) (Dashboard.timing_files dir) ->
  In (m, p') (Dashboard.timing_files dir) -> p = p'.
Proof.
  unfold Dashboard.timing_files. simpl.
  intros [H|[H|[H|[]]]] [H'|[H'|[H'|[]]]]; congruence.
Qed.

(** Taking a [Timing] message that has no entry for [m] leaves the stored
    series of [m] alone. *)
Lemma process_timing_other (data : dict (list Q)) pm m :
  dict_get m data = None ->
  dict_get m (fold_left (fun pm '(method, times) => dict_set method times pm) data pm)
  = dict_get m pm.
Proof.
  revert pm. induction data as [|[k t] data IH]; intros pm; simpl; [reflexivity|].
  destruct (String.eqb k m) eqn:E; [discriminate|].
  intros H. rewrite (IH _ H). apply dict_get_set_ne.
  apply String.eqb_neq in E. congruence.
Qed.

(** C3. A timing log with a line that is not blank and is no float (after
    any number of good lines) makes the read of that file raise inside the
    reader, where it is caught: the dashboard's [parse_timing_logs] returns a
    mapping without that method, and taking what the reader queued leaves the
    stored series of the method as it was; the simple monitor's
    [parse_timing_logs] leaves its stored series as it was.  None of the
    durations read before the bad line is stored. *)
Theorem malformed_log_keeps_stale_series (m : string) (ls : list string) :
  has_malformed_line ls = true ->
  read_log (Lines ls) = Raise ValueError /\
  (forall (s : Dashboard.self) (logs : gmap string logfile) path,
     In (m, path) (Dashboard.timing_files (Dashboard.results_dir s)) ->
     logs !! path = Some (Lines ls) ->
     dict_get m (Dashboard.parse_timing_logs (Dashboard.results_dir s) logs) = None /\
     dict_get m (Dashboard.patch_metrics
                   (fold_left Dashboard.process
                      (Dashboard.timing_messages (Dashboard.results_dir s) logs) s))
     = dict_get m (Dashboard.patch_metrics s)) /\
  (forall (s : Simple.self) (logs : gmap string logfile),
     logs !! Simple.log_file (Simple.results_dir s) m = Some (Lines ls) ->
     dict_get m (Simple.patch_times (Simple.data (Simple.parse_timing_logs s logs)))
     = dict_get m (Simple.patch_times (Simple.data s))).
Proof.
  intros Hbad.
  pose proof (read_times_malformed ls Hbad) as Hraise.
  split; [exact Hraise|]. split.
  - intros s logs path Hin Hlog.
    assert (Hnone : dict_get m (Dashboard.parse_timing_logs (Dashboard.results_dir s) logs) = None).
    { unfold Dashboard.parse_timing_logs.
      destruct (dashboard_parse_fold logs (Dashboard.timing_files (Dashboard.results_dir s)) [] m)
        as [Heq|(p' & f & times & Hin' & Hf & Hr & _)]; [exact Heq|].
      rewrite (timing_files_functional _ _ _ _ Hin' Hin) in Hf.
      rewrite Hlog in Hf. injection Hf as <-. simpl in Hr. congruence. }
    split; [exact Hnone|].
    unfold Dashboard.timing_messages.
    destruct (nonempty _); simpl; [|reflexivity].
    now apply process_timing_other.
  - intros s logs Hlog. simpl.
    destruct (simple_parse_fold (Simple.results_dir s) logs Simple.methods
                (Simple.patch_times (Simple.data s)) m)
      as [Heq|(f & times & _ & Hf & Hr & _)]; [exact Heq|].
    rewrite Hlog in Hf. injection Hf as <-. simpl in Hr. congruence.
Qed.

Lemma malformed_log_keeps_stale_series_witness :
  let ls := ["1.5"; "2.5"; "oops"]%string in
  let dlogs : gmap string logfile := <["/r/patch_timing_git.log"%string := Lines ls]> ∅ in
  let slogs : gmap string logfile := <["/r/../patch_timing_git.log"%string := Lines ls]> ∅ in
  let ds := {| Dashboard.results_dir := "/r";
               Dashboard.data_queue := [];
               Dashboard.system_metrics := Dashboard.system_metrics (Dashboard.init "/r");
               Dashboard.patch_metrics := [("git"%string, [7%Q])] |} in
  let ss := {| Simple.results_dir := "/r";
               Simple.data :=
                 {| Simple.timestamps := []; Simple.cpu_usage := [];
                    Simple.memory_usage := [];
                    Simple.patch_times := [("git"%string, [7%Q])];
                    Simple.compile_times := [] |} |} in
  read_log (Lines ls) = Raise ValueError /\
  dict_get "git" (Dashboard.parse_timing_logs "/r" dlogs) = None /\
  dict_get "git" (Dashboard.patch_metrics
                    (fold_left Dashboard.process (Dashboard.timing_messages "/r" dlogs) ds))
  = Some [7%Q] /\
  dict_get "git" (Simple.patch_times (Simple.data (Simple.parse_timing_logs ss slogs)))
  = Some [7%Q].
Proof.
  intros ls dlogs slogs ds ss.
  assert (Hbad : has_malformed_line ls = true) by reflexivity.
  destruct (malformed_log_keeps_stale_series "git" ls Hbad) as (H1 & H2 & H3).
  split; [exact H1|].
  destruct (H2 ds dlogs "/r/patch_timing_git.log"%string) as [H4 H5].
  - simpl. tauto.
  - reflexivity.
  - split; [exact H4|]. split; [exact H5|].
    apply (H3 ss slogs). reflexivity.
Defined.

(** C10. In the simple monitor [parse_timing_logs] changes the stored series
    of a method only by storing a non-empty series it has just read in full
    from the log of that method.  So it never stores an empty series, and the
    series stays as it was when the log is missing, cannot be read, or has
    nothing but blank lines. *)
Theorem simple_parse_never_stores_empty :
  forall (s : Simple.self) (logs : gmap string logfile) (m : string),
    let path := Simple.log_file (Simple.results_dir s) m in
    let old := dict_get m (Simple.patch_times (Simple.data s)) in
    let new := dict_get m (Simple.patch_times (Simple.data (Simple.parse_timing_logs s logs))) in
    (new = old \/
     exists f times,
       In m Simple.methods /\ logs !! path = Some f /\
       read_log f = Ok times /\ times <> [] /\ new = Some times) /\
    (new = Some [] -> old = Some []) /\
    (logs !! path = None -> new = old) /\
    (logs !! path = Some Unreadable -> new = old) /\
    (forall ls, logs !! path = Some (Lines ls) -> all_blank ls = true -> new = old).
Proof.
  intros s logs m path old new.
  assert (H : new = old \/
     exists f times,
       In m Simple.methods /\ logs !! path = Some f /\
       read_log f = Ok times /\ times <> [] /\ new = Some times).
  { apply (simple_parse_fold (Simple.results_dir s) logs Simple.methods
             (Simple.patch_times (Simple.data s)) m). }
  split; [exact H|].
  repeat split.
  - intros Hnew. destruct H as [<-|(f & times & _ & _ & _ & Hne & Hget)]; [exact Hnew|].
    rewrite Hget in Hnew. congruence.
  - intros Hlog. destruct H as [H|(f & times & _ & Hf & _)]; [exact H|]. congruence.
  - intros Hlog. destruct H as [H|(f & times & _ & Hf & Hr & _)]; [exact H|].
    rewrite Hlog in Hf. injection Hf as <-. discriminate.
  - intros ls Hlog Hblank. destruct H as [H|(f & times & _ & Hf & Hr & Hne & _)]; [exact H|].
    rewrite Hlog in Hf. injection Hf as <-. simpl in Hr.
    rewrite (read_times_blank ls Hblank) in Hr. congruence.
Qed.

(** ** The [elapsed_time] cells *)

Section Fields.
Variable c : ascii.

Lemma split_without s : Py.contains c s = false -> Py.split c s = [s].
Proof.
  induction s as [|a s IH]; simpl; [reflexivity|].
  destruct (Ascii.eqb a c); [discriminate|].
  intros H. now rewrite (IH H).
Qed.

Lemma split_with s :
  Py.contains c s = true -> Py.split c s = before c s :: Py.split c (after c s).
Proof.
  induction s as [|a s IH]; simpl; [discriminate|].
  destruct (Ascii.eqb a c); [reflexivity|].
  intros H. now rewrite (IH H).
Qed.

Lemma count_char_zero s : count_char c s = 0 -> Py.contains c s = false.
Proof.
  induction s as [|a s IH]; simpl; [reflexivity|].
  destruct (Ascii.eqb a c); simpl; [discriminate | exact IH].
Qed.

Lemma count_char_one s :
  count_char c s = 1 ->
  Py.contains c s = true /\ Py.contains c (after c s) = false /\
  after_last c s = after c s.
Proof.
  induction s as [|a s IH]; simpl; [discriminate|].
  destruct (Ascii.eqb a c); simpl.
  - intros [= H]. apply count_char_zero in H. rewrite H. auto.
  - intros H. destruct (IH H) as (H1 & H2 & H3). rewrite H1. auto.
Qed.

Lemma before_without s : Py.contains c s = false -> before c s = s.
Proof.
  induction s as [|a s IH]; simpl; [reflexivity|].
  destruct (Ascii.eqb a c); [discriminate|].
  intros H. now rewrite (IH H).
Qed.

(** The second field of [split] is what stands between the first separator
    and the next one (or the end). *)
Lemma split_second_field s :
  Py.contains c s = true ->
  Py.getitem (Py.split c s) 1 = Ok (before c (after c s)).
Proof.
  intros H. rewrite (split_with s H). unfold Py.getitem. simpl.
  destruct (Py.contains c (after c s)) eqn:E.
  - now rewrite (split_with _ E).
  - now rewrite (split_without _ E), (before_without _ E).
Qed.

End Fields.

(** C1 (as amended). For an [elapsed_time] value that is a string with a
    colon, the pivot's extraction parses the second colon-separated field:
    the text between the first colon and the next one, or the end of the
    string.  With exactly one colon this is the text after the last colon,
    and for "method:4.5" the result is 4.5. *)
Theorem elapsed_time_second_field (s : string) (rest : list cell) :
  Py.contains ":" s = true ->
  Dashboard.aggfunc (CStr s :: rest) = Py.float (before ":" (after ":" s)) /\
  (count_char ":" s = 1 ->
   Dashboard.aggfunc (CStr s :: rest) = Py.float (after_last ":" s)) /\
  Dashboard.aggfunc [CStr "method:4.5"] = Ok (Qred 4.5).
Proof.
  intros H.
  assert (Hagg : Dashboard.aggfunc (CStr s :: rest) = Py.float (before ":" (after ":" s))).
  { unfold Dashboard.aggfunc. simpl. rewrite H, split_second_field by exact H.
    reflexivity. }
  split; [exact Hagg|]. split; [|reflexivity].
  intros Hone. destruct (count_char_one ":" s Hone) as (_ & Hno & ->).
  now rewrite Hagg, (before_without _ _ Hno).
Qed.

Lemma elapsed_time_second_field_witness :
  Dashboard.aggfunc [CStr "method:4.5"] = Py.float "4.5" /\
  Dashboard.aggfunc [CStr "method:4.5"] = Py.float (after_last ":" "method:4.5").
Proof.
  destruct (elapsed_time_second_field "method:4.5" [] eq_refl) as (H1 & H2 & _).
  split; [exact H1 | exact (H2 eq_refl)].
Defined.

(** With two colons the extraction does not read the text after the last
    one: "method:0:4.5" gives 0.0 where the text after the last colon is
    "4.5". *)
Lemma elapsed_time_last_colon_counterexample :
  Py.contains ":" "method:0:4.5" = true /\
  Dashboard.aggfunc [CStr "method:0:4.5"] = Ok 0%Q /\
  Py.float (after_last ":" "method:0:4.5") = Ok (Qred 4.5) /\
  Dashboard.aggfunc [CStr "method:0:4.5"] <> Py.float (after_last ":" "method:0:4.5").
Proof. repeat split. discriminate. Qed.

(** ** The metrics sampler *)

(** C4 (as amended). In the dashboard the disk and the network readings are
    each taken on their own: when the CPU and memory readings succeed the
    sample is returned with these two values, and a disk or network reading
    that failed is 0.0 in it; a CPU or a memory reading that fails makes the
    whole sample unavailable.  The simple monitor reads CPU and memory only:
    a command that printed nothing counts as 0.0, and a reading that raises
    makes the whole collection fail with nothing recorded. *)
Theorem sampler_optional_metrics_default_to_zero (sh : shell) (now : datetime) :
  (forall cpu memory,
     Dashboard.read_metric (cpu_cmd sh) = Ok cpu ->
     Dashboard.read_metric (mem_cmd sh) = Ok memory ->
     Dashboard.collect_system_metrics sh now =
       Some {| timestamp := now; cpu_usage := cpu; memory_usage := memory;
               disk_io := or_zero (Dashboard.read_metric (disk_cmd sh));
               network_io := or_zero (Dashboard.read_metric (net_cmd sh)) |}) /\
  (is_ok (Dashboard.read_metric (cpu_cmd sh)) = false \/
   is_ok (Dashboard.read_metric (mem_cmd sh)) = false ->
   Dashboard.collect_system_metrics sh now = None) /\
  (forall (s : Simple.self) cpu memory,
     Simple.read_metric (cpu_cmd sh) = Ok cpu ->
     Simple.read_metric (mem_cmd sh) = Ok memory ->
     let '(s', ok) := Simple.collect_system_metrics s sh now in
     ok = true /\
     Simple.cpu_usage (Simple.data s') = Simple.cpu_usage (Simple.data s) ++ [cpu] /\
     Simple.memory_usage (Simple.data s') = Simple.memory_usage (Simple.data s) ++ [memory] /\
     Simple.timestamps (Simple.data s') =
       Simple.timestamps (Simple.data s) ++ [strftime_human now]) /\
  (forall (s : Simple.self),
     is_ok (Simple.read_metric (cpu_cmd sh)) = false \/
     is_ok (Simple.read_metric (mem_cmd sh)) = false ->
     Simple.collect_system_metrics s sh now = (s, false)) /\
  (forall text, Py.strip text = EmptyString -> Simple.read_metric (Ok text) = Ok 0%Q).
Proof.
  split; [|split; [|split; [|split]]].
  - intros cpu memory Hc Hm. unfold Dashboard.collect_system_metrics.
    rewrite Hc, Hm. simpl.
    destruct (Dashboard.read_metric (disk_cmd sh)), (Dashboard.read_metric (net_cmd sh));
      reflexivity.
  - unfold Dashboard.collect_system_metrics.
    destruct (Dashboard.read_metric (cpu_cmd sh)) as [cpu|e]; simpl; [|reflexivity].
    destruct (Dashboard.read_metric (mem_cmd sh)) as [memory|e]; simpl; [|reflexivity].
    intros [H|H]; discriminate.
  - intros s cpu memory Hc Hm. unfold Simple.collect_system_metrics.
    rewrite Hc, Hm. simpl. auto.
  - intros s. unfold Simple.collect_system_metrics.
    destruct (Simple.read_metric (cpu_cmd sh)) as [cpu|e]; simpl; [|reflexivity].
    destruct (Simple.read_metric (mem_cmd sh)) as [memory|e]; simpl; [|reflexivity].
    intros [H|H]; discriminate.
  - intros text H. unfold Simple.read_metric. simpl. now rewrite H.
Qed.

(** When the CPU pipeline prints nothing, the dashboard gets no sample at
    all, although memory, disk and network were readable: the CPU reading is
    not replaced by 0.0 and the other readings are lost. *)
Lemma sampler_cpu_failure_counterexample :
  let sh := {| cpu_cmd := Ok ""%string; mem_cmd := Ok "41.5"%string;
               disk_cmd := Ok "0.3"%string; net_cmd := Ok "1024"%string |} in
  let now := {| year := 2026; month := 1; day := 9; hour := 3; minute := 4;
                second := 5; microsecond := 0 |} in
  is_ok (Dashboard.read_metric (cpu_cmd sh)) = false /\
  Dashboard.read_metric (mem_cmd sh) = Ok (Qred 41.5) /\
  Dashboard.read_metric (disk_cmd sh) = Ok (Qred 0.3) /\
  Dashboard.read_metric (net_cmd sh) = Ok 1024%Q /\
  Dashboard.collect_system_metrics sh now = None /\
  Dashboard.collect_system_metrics sh now <>
    Some {| timestamp := now; cpu_usage := 0%Q; memory_usage := Qred 41.5;
            disk_io := Qred 0.3; network_io := 1024%Q |}.
Proof. repeat split. discriminate. Qed.

(** ** Report file names *)

Lemma length_append a b : String.length (a +:+ b) = String.length a + String.length b.
Proof. induction a as [|c a IH]; simpl; [reflexivity | now rewrite IH]. Qed.

(** Two concatenations agree piecewise when their first pieces have the same
    length. *)
Lemma append_inj_length a a' b b' :
  String.length a = String.length a' -> a +:+ b = a' +:+ b' -> a = a' /\ b = b'.
Proof.
  revert a'. induction a as [|c a IH]; intros [|c' a']; simpl; try discriminate.
  - auto.
  - intros [= Hlen] [= -> Happ]. destruct (IH a' Hlen Happ) as [-> ->]. auto.
Qed.

Lemma zfill_length w n : String.length (zfill w n) = w.
Proof.
  revert n. induction w as [|w IH]; intros n; simpl; [reflexivity|].
  rewrite length_append, IH. simpl. lia.
Qed.

Lemma digit_inj d d' : (d < 10)%N -> (d' < 10)%N -> digit d = digit d' -> d = d'.
Proof.
  intros Hd Hd' H. apply (f_equal N_of_ascii) in H. unfold digit in H.
  rewrite !N_ascii_embedding in H by lia. lia.
Qed.

Lemma zfill_inj w n m :
  (n < 10 ^ N.of_nat w)%N -> (m < 10 ^ N.of_nat w)%N ->
  zfill w n = zfill w m -> n = m.
Proof.
  revert n m. induction w as [|w IH]; intros n m Hn Hm.
  - simpl in Hn, Hm. lia.
  - rewrite Nat2N.inj_succ, N.pow_succ_r' in Hn, Hm. simpl.
    intros H. apply append_inj_length in H; [|now rewrite !zfill_length].
    destruct H as [Hhigh [= Hlow]].
    apply IH in Hhigh; try (apply N.Div0.div_lt_upper_bound; lia).
    apply digit_inj in Hlow; try (apply N.mod_lt; lia).
    rewrite (N.Div0.div_mod n 10), (N.Div0.div_mod m 10). congruence.
Qed.

Lemma strftime_compact_length t : String.length (strftime_compact t) = 15.
Proof.
  unfold strftime_compact. rewrite !length_append, !zfill_length. reflexivity.
Qed.

Lemma strftime_compact_to_second t : strftime_compact (to_second t) = strftime_compact t.
Proof. reflexivity. Qed.

(** Split an equation between two stamps at a field of fixed width. *)
Ltac split_field H Hfield :=
  apply append_inj_length in H;
  [destruct H as [Hfield H] | now rewrite ?zfill_length].

(** The stamp determines the date-time to the second. *)
Lemma strftime_compact_inj t1 t2 :
  valid_datetime t1 -> valid_datetime t2 ->
  strftime_compact t1 = strftime_compact t2 -> to_second t1 = to_second t2.
Proof.
  intros (Hy1 & Hm1 & Hd1 & HH1 & HM1 & HS1 & _) (Hy2 & Hm2 & Hd2 & HH2 & HM2 & HS2 & _).
  unfold strftime_compact. intros HS.
  split_field HS Hy. split_field HS Hm. split_field HS Hd. split_field HS Hsep.
  split_field HS HH. split_field HS HM.
  apply zfill_inj in Hy, Hm, Hd, HH, HM, HS; simpl; try lia.
  unfold to_second. congruence.
Qed.

Lemma stamped_name_inj (prefix : string) t1 t2 :
  valid_datetime t1 -> valid_datetime t2 ->
  prefix +:+ strftime_compact t1 +:+ ".json" = prefix +:+ strftime_compact t2 +:+ ".json" ->
  to_second t1 = to_second t2.
Proof.
  intros H1 H2 H. apply String.app_inj in H.
  apply append_inj_length in H; [|now rewrite !strftime_compact_length].
  destruct H as [H _]. now apply strftime_compact_inj.
Qed.

Lemma dashboard_filename_inj (s : Dashboard.self) t1 t2 :
  valid_datetime t1 -> valid_datetime t2 ->
  Dashboard.default_filename s t1 = Dashboard.default_filename s t2 ->
  to_second t1 = to_second t2.
Proof.
  intros H1 H2 H. unfold Dashboard.default_filename in H.
  apply String.app_inj in H. now apply (stamped_name_inj "/analysis_report_").
Qed.

Lemma simple_filename_inj (s : Simple.self) t1 t2 :
  valid_datetime t1 -> valid_datetime t2 ->
  Simple.report_file s t1 = Simple.report_file s t2 ->
  to_second t1 = to_second t2.
Proof.
  intros H1 H2 H. unfold Simple.report_file in H.
  apply String.app_inj in H. now apply (stamped_name_inj "/monitor_report_").
Qed.

Lemma write_json_files path v d d' :
  write_json path v d = Ok d' ->
  files d' = <[path := v]> (files d) /\ writable d' = writable d.
Proof.
  unfold write_json. destruct (writable d path); [|discriminate].
  intros [= <-]. auto.
Qed.

Lemma dashboard_export_files np_std s now_name now_stamp d r d' :
  Dashboard.export_report np_std s None now_name now_stamp d = Ok (r, d') ->
  files d' = <[Dashboard.default_filename s now_name := r]> (files d) /\
  writable d' = writable d.
Proof.
  unfold Dashboard.export_report.
  destruct (Dashboard.build_report np_std s now_stamp) as [report|e]; simpl; [|discriminate].
  destruct (write_json _ report d) as [d1|e] eqn:Hw; simpl; [|discriminate].
  intros [= <- <-]. now apply write_json_files.
Qed.

Lemma simple_save_files s now_stamp now_name d path d' :
  Simple.save_report s now_stamp now_name d = Ok (path, d') ->
  path = Simple.report_file s now_name /\
  exists r, Simple.build_report s now_stamp = Ok r /\
            files d' = <[path := r]> (files d) /\ writable d' = writable d.
Proof.
  unfold Simple.save_report.
  destruct (Simple.build_report s now_stamp) as [report|e]; simpl; [|discriminate].
  destruct (write_json _ report d) as [d1|e] eqn:Hw; simpl; [|discriminate].
  intros [= <- <-]. split; [reflexivity|]. exists report. split; [reflexivity|].
  now apply write_json_files.
Qed.

(** C5 (as amended). A report goes to the file named after the current
    date-time to second precision: [analysis_report_<stamp>.json] for the
    dashboard, [monitor_report_<stamp>.json] for the simple monitor, where the
    stamp does not show the microseconds.  Two calls name the same file
    exactly when they fall in the same second.  So of two calls in a row, the
    later one at a different second writes a new file and leaves the earlier
    report in place; within the same second it writes the same path again and
    the file then holds the later report only. *)
Theorem report_file_stamped_to_the_second
    (np_std : list Q -> Q) (ds ds' : Dashboard.self) (ss ss' : Simple.self)
    (t1 t2 : datetime) :
  valid_datetime t1 -> valid_datetime t2 ->
  Dashboard.results_dir ds' = Dashboard.results_dir ds ->
  Simple.results_dir ss' = Simple.results_dir ss ->
  (Dashboard.default_filename ds t1 = Dashboard.default_filename ds (to_second t1) /\
   Simple.report_file ss t1 = Simple.report_file ss (to_second t1)) /\
  (Dashboard.default_filename ds t1 = Dashboard.default_filename ds' t2 <->
   to_second t1 = to_second t2) /\
  (Simple.report_file ss t1 = Simple.report_file ss' t2 <->
   to_second t1 = to_second t2) /\
  (forall stamp1 stamp2 d r1 d1 r2 d2,
     Dashboard.export_report np_std ds None t1 stamp1 d = Ok (r1, d1) ->
     Dashboard.export_report np_std ds' None t2 stamp2 d1 = Ok (r2, d2) ->
     files d2 !! Dashboard.default_filename ds' t2 = Some r2 /\
     (to_second t1 <> to_second t2 ->
      files d2 !! Dashboard.default_filename ds t1 = Some r1) /\
     (to_second t1 = to_second t2 ->
      files d2 = <[Dashboard.default_filename ds t1 := r2]> (files d))) /\
  (forall stamp1 stamp2 d p1 d1 p2 d2,
     Simple.save_report ss stamp1 t1 d = Ok (p1, d1) ->
     Simple.save_report ss' stamp2 t2 d1 = Ok (p2, d2) ->
     p1 = Simple.report_file ss t1 /\ p2 = Simple.report_file ss' t2 /\
     exists r1 r2,
       Simple.build_report ss stamp1 = Ok r1 /\
       Simple.build_report ss' stamp2 = Ok r2 /\
       files d2 !! p2 = Some r2 /\
       (to_second t1 <> to_second t2 -> files d2 !! p1 = Some r1) /\
       (to_second t1 = to_second t2 -> files d2 = <[p1 := r2]> (files d))).
Proof.
  intros Hv1 Hv2 Hdir Hdir'.
  assert (Hd : Dashboard.default_filename ds t1 = Dashboard.default_filename ds' t2 <->
               to_second t1 = to_second t2).
  { split.
    - intros H. apply (dashboard_filename_inj ds); auto.
      rewrite H. unfold Dashboard.default_filename. now rewrite Hdir.
    - intros H. unfold Dashboard.default_filename.
      rewrite Hdir, <- (strftime_compact_to_second t1), H.
      now rewrite strftime_compact_to_second. }
  assert (Hs : Simple.report_file ss t1 = Simple.report_file ss' t2 <->
               to_second t1 = to_second t2).
  { split.
    - intros H. apply (simple_filename_inj ss); auto.
      rewrite H. unfold Simple.report_file. now rewrite Hdir'.
    - intros H. unfold Simple.report_file.
      rewrite Hdir', <- (strftime_compact_to_second t1), H.
      now rewrite strftime_compact_to_second. }
  split; [split; reflexivity|]. split; [exact Hd|]. split; [exact Hs|]. split.
  - intros stamp1 stamp2 d r1 d1 r2 d2 H1 H2.
    apply dashboard_export_files in H1. destruct H1 as [H1 _].
    apply dashboard_export_files in H2. destruct H2 as [H2 _].
    rewrite H2, H1. split; [apply lookup_insert_eq|]. split.
    + intros Hne. rewrite lookup_insert_ne by (intros E; apply Hne, Hd; congruence).
      apply lookup_insert_eq.
    + intros Heq. apply Hd in Heq. rewrite <- Heq. apply insert_insert_eq.
  - intros stamp1 stamp2 d p1 d1 p2 d2 H1 H2.
    apply simple_save_files in H1. destruct H1 as (-> & r1 & Hr1 & H1 & _).
    apply simple_save_files in H2. destruct H2 as (-> & r2 & Hr2 & H2 & _).
    split; [reflexivity|]. split; [reflexivity|].
    exists r1, r2. split; [exact Hr1|]. split; [exact Hr2|].
    rewrite H2, H1. split; [apply lookup_insert_eq|]. split.
    + intros Hne. rewrite lookup_insert_ne by (intros E; apply Hne, Hs; congruence).
      apply lookup_insert_eq.
    + intros Heq. apply Hs in Heq. rewrite <- Heq. apply insert_insert_eq.
Qed.

Lemma report_file_stamped_to_the_second_witness :
  let t1 := {| year := 2026; month := 1; day := 9; hour := 3; minute := 4;
               second := 5; microsecond := 100 |} in
  let t2 := {| year := 2026; month := 1; day := 9; hour := 3; minute := 4;
               second := 6; microsecond := 0 |} in
  Dashboard.default_filename (Dashboard.init "/r") t1 = "/r/analysis_report_20260109_030405.json"%string /\
  (Dashboard.default_filename (Dashboard.init "/r") t1 =
   Dashboard.default_filename (Dashboard.init "/r") t2 <-> to_second t1 = to_second t2) /\
  (Simple.report_file (Simple.init "/r") t1 =
   Simple.report_file (Simple.init "/r") t2 <-> to_second t1 = to_second t2).
Proof.
  intros t1 t2.
  assert (Hv1 : valid_datetime t1) by (unfold valid_datetime; simpl; lia).
  assert (Hv2 : valid_datetime t2) by (unfold valid_datetime; simpl; lia).
  destruct (report_file_stamped_to_the_second (fun _ => 0%Q)
              (Dashboard.init "/r") (Dashboard.init "/r")
              (Simple.init "/r") (Simple.init "/r") t1 t2 Hv1 Hv2 eq_refl eq_refl)
    as (_ & Hd & Hs & _).
  split; [reflexivity|]. split; [exact Hd | exact Hs].
Defined.

(** Two dashboard reports exported within one second go to the same path:
    the second call replaces the report the first one wrote, and no new file
    appears. *)
Lemma report_same_second_overwritten_counterexample :
  let t1 := {| year := 2026; month := 1; day := 9; hour := 3; minute := 4;
               second := 5; microsecond := 100 |} in
  let t2 := {| year := 2026; month := 1; day := 9; hour := 3; minute := 4;
               second := 5; microsecond := 900000 |} in
  let s := Dashboard.init "/r" in
  let d0 := {| files := ∅; writable := fun _ => true |} in
  let path := "/r/analysis_report_20260109_030405.json"%string in
  exists r1 d1 r2 d2,
    Dashboard.export_report (fun _ => 0%Q) s None t1 t1 d0 = Ok (r1, d1) /\
    Dashboard.export_report (fun _ => 0%Q) s None t2 t2 d1 = Ok (r2, d2) /\
    files d1 !! path = Some r1 /\
    files d2 !! path = Some r2 /\
    r1 <> r2 /\
    files d2 = {[ path := r2 ]}.
Proof.
  intros t1 t2 s d0 path.
  eexists _, _, _, _.
  split; [reflexivity|]. split; [reflexivity|].
  split; [reflexivity|]. split; [reflexivity|].
  split; [discriminate|]. reflexivity.
Qed.

(** ** The rolling windows *)

Section Windows.
Context {A : Type}.
Implicit Types l r : list A.

Lemma lastn_length n l : length (Py.lastn n l) = Nat.min n (length l).
Proof. unfold Py.lastn. rewrite length_drop. lia. Qed.

Lemma lastn_all n l : length l <= n -> Py.lastn n l = l.
Proof.
  intros H. unfold Py.lastn.
  replace (length l - n) with 0 by lia. reflexivity.
Qed.

Lemma lastn_suffix n l : exists old, l = old ++ Py.lastn n l.
Proof. exists (take (length l - n) l). unfold Py.lastn. now rewrite take_drop. Qed.

Lemma lastn_app_lastn n l r : Py.lastn n (Py.lastn n l ++ r) = Py.lastn n (l ++ r).
Proof.
  destruct (decide (length l <= n)) as [Hle|Hgt].
  - now rewrite (lastn_all n l).
  - unfold Py.lastn at 1 3.
    rewrite !length_app, lastn_length.
    replace (Nat.min n (length l)) with n by lia.
    replace (n + length r - n) with (length r) by lia.
    replace (length l + length r - n) with ((length l - n) + length r) by lia.
    rewrite <- drop_drop. f_equal.
    unfold Py.lastn. now rewrite drop_app_le by lia.
Qed.

Lemma keep_last_100_lastn l : Dashboard.keep_last_100 l = Py.lastn 100 l.
Proof.
  unfold Dashboard.keep_last_100.
  destruct (100 <? length l) eqn:E; [reflexivity|].
  apply Nat.ltb_ge in E. now rewrite lastn_all.
Qed.

Lemma keep_last_100_length l : length (Dashboard.keep_last_100 l) <= 100.
Proof. rewrite keep_last_100_lastn, lastn_length. lia. Qed.

End Windows.

Lemma process_bounded s msg :
  windows_bounded (Dashboard.system_metrics s) ->
  windows_bounded (Dashboard.system_metrics (Dashboard.process s msg)).
Proof.
  intros Hb. destruct msg as [data|data]; simpl; [|exact Hb].
  repeat split; apply keep_last_100_length.
Qed.

Lemma process_all_bounded msgs s :
  windows_bounded (Dashboard.system_metrics s) ->
  windows_bounded (Dashboard.system_metrics (fold_left Dashboard.process msgs s)).
Proof.
  revert s. induction msgs as [|msg msgs IH]; intros s Hb; simpl; [exact Hb|].
  apply IH, process_bounded, Hb.
Qed.

Lemma step_bounded s ev :
  windows_bounded (Dashboard.system_metrics s) ->
  windows_bounded (Dashboard.system_metrics (Dashboard.step s ev)).
Proof.
  intros Hb. destruct ev as [sh now|logs|]; simpl; try exact Hb.
  unfold Dashboard.update_plots. apply process_all_bounded. exact Hb.
Qed.

Lemma run_bounded dir evs :
  windows_bounded (Dashboard.system_metrics (Dashboard.run dir evs)).
Proof.
  unfold Dashboard.run.
  assert (Hinit : windows_bounded (Dashboard.system_metrics (Dashboard.init dir))).
  { repeat split; simpl; lia. }
  revert Hinit. generalize (Dashboard.init dir) as s.
  induction evs as [|ev evs IH]; intros s Hb; simpl; [exact Hb|].
  apply IH, step_bounded, Hb.
Qed.

Section WindowHistory.
Context {X : Type} (stored : Dashboard.windows -> list X) (taken : Dashboard.sample -> X).
Hypothesis on_system : forall s data,
  stored (Dashboard.system_metrics (Dashboard.process s (Dashboard.System data))) =
  Dashboard.keep_last_100 (stored (Dashboard.system_metrics s) ++ [taken data]).
Hypothesis on_timing : forall s d,
  stored (Dashboard.system_metrics (Dashboard.process s (Dashboard.Timing d))) =
  stored (Dashboard.system_metrics s).

Lemma process_all_history msgs s :
  Py.lastn 100 (stored (Dashboard.system_metrics (fold_left Dashboard.process msgs s))) =
  Py.lastn 100 (stored (Dashboard.system_metrics s) ++ map taken (samples_of msgs)).
Proof.
  revert s. induction msgs as [|[data|d] msgs IH]; intros s.
  - simpl. now rewrite app_nil_r.
  - change (fold_left Dashboard.process (Dashboard.System data :: msgs) s)
      with (fold_left Dashboard.process msgs (Dashboard.process s (Dashboard.System data))).
    change (samples_of (Dashboard.System data :: msgs)) with (data :: samples_of msgs).
    rewrite IH, on_system, keep_last_100_lastn, lastn_app_lastn.
    now rewrite <- app_assoc.
  - change (fold_left Dashboard.process (Dashboard.Timing d :: msgs) s)
      with (fold_left Dashboard.process msgs (Dashboard.process s (Dashboard.Timing d))).
    change (samples_of (Dashboard.Timing d :: msgs)) with (samples_of msgs).
    now rewrite IH, on_timing.
Qed.

Lemma process_all_stored msgs s :
  (forall s', windows_bounded (Dashboard.system_metrics s') ->
              length (stored (Dashboard.system_metrics s')) <= 100) ->
  windows_bounded (Dashboard.system_metrics s) ->
  stored (Dashboard.system_metrics (fold_left Dashboard.process msgs s)) =
  Py.lastn 100 (stored (Dashboard.system_metrics s) ++ map taken (samples_of msgs)).
Proof.
  intros Hlen Hb. rewrite <- process_all_history.
  symmetry. apply lastn_all, Hlen, process_all_bounded, Hb.
Qed.

End WindowHistory.

Lemma init_bounded dir : windows_bounded (Dashboard.system_metrics (Dashboard.init dir)).
Proof. repeat split; simpl; lia. Qed.

(** C6. In the dashboard every stored window holds at most 100 points after
    any sequence of sampling rounds, log reads and [update_plots] calls.
    Under each of the five keys the window is exactly the last 100 of the
    points taken off the queue since the start, in their order; and taking
    one more sample leaves the last 100 of the old points followed by the new
    one, so what is dropped is the oldest points. *)
Theorem window_at_most_100_oldest_evicted :
  (forall dir evs,
     windows_bounded (Dashboard.system_metrics (Dashboard.run dir evs))) /\
  (forall dir msgs,
     let w := Dashboard.system_metrics (fold_left Dashboard.process msgs (Dashboard.init dir)) in
     let h := samples_of msgs in
     timestamp w = Py.lastn 100 (map timestamp h) /\
     cpu_usage w = Py.lastn 100 (map cpu_usage h) /\
     memory_usage w = Py.lastn 100 (map memory_usage h) /\
     disk_io w = Py.lastn 100 (map disk_io h) /\
     network_io w = Py.lastn 100 (map network_io h)) /\
  (forall s data,
     let w := Dashboard.system_metrics s in
     let w' := Dashboard.system_metrics (Dashboard.process s (Dashboard.System data)) in
     timestamp w' = Py.lastn 100 (timestamp w ++ [timestamp data]) /\
     cpu_usage w' = Py.lastn 100 (cpu_usage w ++ [cpu_usage data]) /\
     memory_usage w' = Py.lastn 100 (memory_usage w ++ [memory_usage data]) /\
     disk_io w' = Py.lastn 100 (disk_io w ++ [disk_io data]) /\
     network_io w' = Py.lastn 100 (network_io w ++ [network_io data])) /\
  (forall (A : Type) (l : list A),
     length (Py.lastn 100 l) = Nat.min 100 (length l) /\
     exists evicted, l = evicted ++ Py.lastn 100 l).
Proof.
  split; [exact run_bounded|]. split; [|split].
  - intros dir msgs. simpl.
    pose proof (init_bounded dir) as Hb.
    repeat split.
    + apply (process_all_stored timestamp timestamp); auto; intros s' H; apply H.
    + apply (process_all_stored cpu_usage cpu_usage); auto; intros s' H; apply H.
    + apply (process_all_stored memory_usage memory_usage); auto; intros s' H; apply H.
    + apply (process_all_stored disk_io disk_io); auto; intros s' H; apply H.
    + apply (process_all_stored network_io network_io); auto; intros s' H; apply H.
  - intros s data. simpl. rewrite !keep_last_100_lastn. repeat split.
  - intros A l. split; [apply lastn_length | apply lastn_suffix].
Qed.

(** ** The least item by key *)

Lemma lt_spec x y : Py.lt x y = true <-> (x < y)%Q.
Proof.
  unfold Py.lt. rewrite negb_true_iff. split.
  - intros H. apply Qnot_le_lt. intros Hle.
    apply Qle_bool_iff in Hle. congruence.
  - intros H. destruct (Qle_bool y x) eqn:E; [|reflexivity].
    apply Qle_bool_iff in E. exfalso. now apply (Qlt_not_le x y).
Qed.

Lemma lt_false x y : Py.lt x y = false <-> (y <= x)%Q.
Proof.
  unfold Py.lt. rewrite negb_false_iff. apply Qle_bool_iff.
Qed.

Section MinBy.
Context {A : Type} (key : A -> result Q) (keyf : A -> Q).

(** The scan keeps [best] unless a later item has a smaller key; the item it
    ends on is smaller than all before it and no greater than all after. *)
Lemma min_from_spec l best :
  (forall x, In x l -> key x = Ok (keyf x)) ->
  exists r,
    Py.min_from key best (keyf best) l = Ok r /\
    ((r = best /\ Forall (fun y => (keyf best <= keyf y)%Q) l) \/
     (exists pre post,
        l = pre ++ r :: post /\ (keyf r < keyf best)%Q /\
        Forall (fun y => (keyf r < keyf y)%Q) pre /\
        Forall (fun y => (keyf r <= keyf y)%Q) post)).
Proof.
  revert best. induction l as [|x l IH]; intros best Hkey; simpl.
  - exists best. split; [reflexivity|]. left. auto.
  - rewrite (Hkey x) by (now left). simpl.
    assert (Hkey' : forall y, In y l -> key y = Ok (keyf y)) by (intros y Hy; apply Hkey; now right).
    destruct (Py.lt (keyf x) (keyf best)) eqn:E.
    + apply lt_spec in E.
      destruct (IH x Hkey') as (r & Hr & [[-> Hall]|(pre & post & -> & Hlt & Hpre & Hpost)]).
      * exists x. split; [exact Hr|]. right. exists [], l. auto.
      * exists r. split; [exact Hr|]. right. exists (x :: pre), post.
        repeat split; auto.
        now apply Qlt_trans with (keyf x).
    + apply lt_false in E.
      destruct (IH best Hkey') as (r & Hr & [[-> Hall]|(pre & post & -> & Hlt & Hpre & Hpost)]).
      * exists best. split; [exact Hr|]. left. auto.
      * exists r. split; [exact Hr|]. right. exists (x :: pre), post.
        repeat split; auto.
        constructor; [|exact Hpre]. now apply Qlt_le_trans with (keyf best).
Qed.

Lemma min_by_spec l :
  l <> [] ->
  (forall x, In x l -> key x = Ok (keyf x)) ->
  exists pre r post,
    l = pre ++ r :: post /\ Py.min_by key l = Ok r /\
    Forall (fun y => (keyf r < keyf y)%Q) pre /\
    Forall (fun y => (keyf r <= keyf y)%Q) post.
Proof.
  destruct l as [|x l]; [congruence|]. intros _ Hkey. simpl.
  rewrite (Hkey x) by (now left). simpl.
  destruct (min_from_spec l x) as (r & Hr & [[-> Hall]|(pre & post & -> & Hlt & Hpre & Hpost)]).
  - intros y Hy. apply Hkey. now right.
  - exists [], x, l. auto.
  - exists (x :: pre), r, post. repeat split; auto.
Qed.

End MinBy.

Lemma min_nonempty l : l <> [] -> exists v, Py.min l = Ok v.
Proof.
  intros Hl. destruct (min_by_spec Ok (fun x => x) l Hl) as (pre & r & post & _ & Hr & _).
  - reflexivity.
  - now exists r.
Qed.

Lemma max_nonempty l : l <> [] -> exists v, Py.max l = Ok v.
Proof. destruct l as [|x l]; [congruence|]. intros _. simpl. eauto. Qed.

Lemma first_least_unique means m a m' a' :
  first_least means m a -> first_least means m' a' -> m = m' /\ a = a'.
Proof.
  intros (pre & post & -> & Hpre & Hpost) (pre' & post' & Heq & Hpre' & Hpost').
  revert pre' Heq Hpre'. induction pre as [|x pre IH]; intros [|x' pre'] Heq Hpre'; simpl in Heq.
  - injection Heq as -> -> _. auto.
  - injection Heq as <- ->.
    apply Forall_cons in Hpre' as [Hlt _]. simpl in Hlt.
    apply Forall_app in Hpost as [_ Hpost].
    apply Forall_cons in Hpost as [Hle _]. simpl in Hle.
    exfalso. now apply (Qlt_not_le a' a).
  - injection Heq as -> <-.
    apply Forall_cons in Hpre as [Hlt _]. simpl in Hlt.
    apply Forall_app in Hpost' as [_ Hpost'].
    apply Forall_cons in Hpost' as [Hle _]. simpl in Hle.
    exfalso. now apply (Qlt_not_le a a').
  - injection Heq as -> Heq.
    apply Forall_cons in Hpre as [_ Hpre].
    apply Forall_cons in Hpre' as [_ Hpre'].
    now apply (IH Hpre pre').
Qed.

(** ** Building the ['patch_performance'] mapping *)

Section DictSet.
Context {V : Type}.
Implicit Types d : dict V.

Lemma keys_dict_set m k v d : In m (keys (dict_set k v d)) <-> m = k \/ In m (keys d).
Proof.
  induction d as [|[k' v'] d IH]; simpl.
  - intuition.
  - destruct (String.eqb k' k) eqn:E; simpl.
    + apply String.eqb_eq in E. subst. intuition.
    + unfold keys in IH. rewrite IH. intuition.
Qed.

Lemma NoDup_dict_set k v d : NoDup (keys d) -> NoDup (keys (dict_set k v d)).
Proof.
  induction d as [|[k' v'] d IH]; simpl; intros Hnd.
  - constructor; [|constructor]. intros H. inversion H.
  - apply NoDup_cons in Hnd as [Hnotin Hnd].
    destruct (String.eqb k' k) eqn:E; simpl.
    + apply String.eqb_eq in E. subst. now apply NoDup_cons.
    + apply String.eqb_neq in E. apply NoDup_cons. split; [|now apply IH].
      rewrite list_elem_of_In in *. rewrite keys_dict_set. intuition.
Qed.

Lemma Forall_dict_set (P : string * V -> Prop) k v d :
  Forall P d -> P (k, v) -> Forall P (dict_set k v d).
Proof.
  intros Hd Hp. induction d as [|[k' v'] d IH]; simpl.
  - auto.
  - apply Forall_cons in Hd as [Hx Hd].
    destruct (String.eqb k' k); constructor; auto.
Qed.

Lemma dict_get_NoDup k v d : NoDup (keys d) -> In (k, v) d -> dict_get k d = Some v.
Proof.
  induction d as [|[k' v'] d IH]; simpl; intros Hnd Hin; [tauto|].
  apply NoDup_cons in Hnd as [Hnotin Hnd].
  destruct Hin as [[= -> ->]|Hin].
  - now rewrite String.eqb_refl.
  - destruct (String.eqb k' k) eqn:E; [|now apply IH].
    apply String.eqb_eq in E. subst k'. exfalso. apply Hnotin.
    apply list_elem_of_In. change k with (fst (k, v)). now apply in_map.
Qed.

End DictSet.

Lemma dashboard_method_summary np_std times :
  times <> [] ->
  exists entry, Dashboard.method_summary np_std times = Ok entry /\
                entry_of (Np.mean_of times) entry.
Proof.
  intros Hne. unfold Dashboard.method_summary, Np.min, Np.max.
  destruct (min_nonempty times Hne) as [mn ->].
  destruct (max_nonempty times Hne) as [mx ->].
  destruct times as [|x times]; [congruence|]. simpl.
  eexists. split; [reflexivity|]. eexists. reflexivity.
Qed.

Lemma simple_method_summary times :
  times <> [] ->
  exists entry, Simple.method_summary times = Ok entry /\
                entry_of (Np.mean_of times) entry.
Proof.
  intros Hne. unfold Simple.method_summary.
  destruct (min_nonempty times Hne) as [mn ->].
  destruct (max_nonempty times Hne) as [mx ->].
  destruct times as [|x times]; [congruence|]. simpl.
  eexists. split; [reflexivity|]. eexists. reflexivity.
Qed.

Lemma nonempty_true {A : Type} (l : list A) : nonempty l = true <-> l <> [].
Proof. destruct l; simpl; split; congruence. Qed.

Section Performance.
Variable summary : list Q -> result pyval.
Hypothesis summary_ok : forall times,
  times <> [] ->
  exists entry, summary times = Ok entry /\ entry_of (Np.mean_of times) entry.

(** The loop never raises; it yields a well-formed mapping that has a key
    for a method exactly when a non-empty series is stored under it. *)
Lemma performance_from_ok items perf :
  Forall has_average perf -> NoDup (keys perf) ->
  exists perf',
    performance_from summary items perf = Ok perf' /\
    Forall has_average perf' /\ NoDup (keys perf') /\
    (forall m, In m (keys perf') <->
               In m (keys perf) \/ exists t, In (m, t) items /\ t <> []).
Proof.
  revert perf. induction items as [|[m t] items IH]; intros perf Hwf Hnd; simpl.
  - exists perf. repeat split; auto. intros [H|(t & [] & _)]. exact H.
  - destruct (nonempty t) eqn:Ht.
    + apply nonempty_true in Ht.
      destruct (summary_ok t Ht) as (entry & -> & Hentry). simpl.
      destruct (IH (dict_set m entry perf)) as (perf' & Hr & Hwf' & Hnd' & Hkeys).
      { apply Forall_dict_set; [exact Hwf|]. now exists (Np.mean_of t). }
      { now apply NoDup_dict_set. }
      exists perf'. repeat split; auto.
      * intros H. apply Hkeys in H. rewrite keys_dict_set in H.
        destruct H as [[->|H]|(t' & Hin & Hne)]; [right|left|right]; eauto.
      * intros H. apply Hkeys. rewrite keys_dict_set.
        destruct H as [H|(t' & [[= -> ->]|Hin] & Hne)]; eauto.
    + destruct (IH perf Hwf Hnd) as (perf' & Hr & Hwf' & Hnd' & Hkeys).
      exists perf'. repeat split; auto.
      * intros H. apply Hkeys in H.
        destruct H as [H|(t' & Hin & Hne)]; [now left|right].
        exists t'. split; [now right | exact Hne].
      * intros H. apply Hkeys.
        destruct H as [H|(t' & [[= -> ->]|Hin] & Hne)]; eauto.
        destruct t'; [congruence | discriminate].
Qed.

Lemma method_means_cons m t items :
  method_means ((m, t) :: items) =
  if nonempty t then (m, Np.mean_of t) :: method_means items else method_means items.
Proof. unfold method_means. simpl. now destruct (nonempty t). Qed.

Lemma performance_means_app perf perf' :
  performance_means (perf ++ perf') = performance_means perf ++ performance_means perf'.
Proof. unfold performance_means. apply omap_app. Qed.

(** With distinct method names the averages of the mapping are the means of
    the non-empty series, in the order of the series. *)
Lemma performance_from_means items perf :
  NoDup (keys items) ->
  (forall m, In m (keys items) -> ~ In m (keys perf)) ->
  exists perf',
    performance_from summary items perf = Ok perf' /\
    performance_means perf' = performance_means perf ++ method_means items.
Proof.
  revert perf. induction items as [|[m t] items IH]; intros perf Hnd Hfresh.
  - exists perf. split; [reflexivity|]. now rewrite app_nil_r.
  - rewrite method_means_cons. cbn [performance_from].
    simpl in Hnd, Hfresh.
    apply NoDup_cons in Hnd as [Hnotin Hnd].
    rewrite list_elem_of_In in Hnotin.
    destruct (nonempty t) eqn:Ht.
    + pose proof Ht as Hne. apply nonempty_true in Hne.
      destruct (summary_ok t Hne) as (entry & -> & others & ->). cbn [bind].
      rewrite dict_set_fresh by (apply Hfresh; now left).
      destruct (IH (perf ++ [(m, PDict (("average"%string, PFloat (Np.mean_of t)) :: others))]) Hnd)
        as (perf' & Hr & Hmeans).
      { intros m' Hin Hin'. unfold keys in Hin'. rewrite map_app in Hin'.
        apply in_app_or in Hin' as [Hin'|[<-|[]]]; [|tauto].
        apply (Hfresh m'); [now right | exact Hin']. }
      exists perf'. split; [exact Hr|].
      rewrite Hmeans, performance_means_app. now rewrite <- app_assoc.
    + destruct (IH perf Hnd) as (perf' & Hr & Hmeans).
      { intros m' Hin. apply Hfresh. now right. }
      exists perf'. split; [exact Hr | exact Hmeans].
Qed.

End Performance.

(** ** The best method *)

Lemma has_average_item x :
  has_average x -> Dashboard.average_of_item x = Ok (item_average x).
Proof.
  intros (a & others & H). unfold item_average, Dashboard.average_of_item.
  now rewrite H.
Qed.

Lemma performance_means_cons m entry perf a :
  entry_of a entry ->
  performance_means ((m, entry) :: perf) = (m, a) :: performance_means perf.
Proof. intros (others & ->). reflexivity. Qed.

Lemma item_average_entry m entry a : entry_of a entry -> item_average (m, entry) = a.
Proof. intros (others & ->). reflexivity. Qed.

Lemma performance_means_Forall (P : Q -> Prop) perf :
  Forall has_average perf ->
  Forall (fun x => P (item_average x)) perf ->
  Forall (fun y => P (snd y)) (performance_means perf).
Proof.
  induction perf as [|[m entry] perf IH]; intros Hwf HP.
  - constructor.
  - apply Forall_cons in Hwf as [(a & Ha) Hwf].
    apply Forall_cons in HP as [Hx HP].
    rewrite (performance_means_cons m entry perf a Ha).
    constructor; [|now apply IH].
    simpl. now rewrite <- (item_average_entry m entry a Ha).
Qed.

(** [recommendations] never raises on a mapping built by the report: it is
    empty for an empty mapping, and else it holds one text, naming the first
    method of least average. *)
Lemma recommendations_spec perf :
  Forall has_average perf -> NoDup (keys perf) ->
  (perf = [] -> Dashboard.recommendations perf = Ok []) /\
  (perf <> [] ->
   exists best a,
     Dashboard.recommendations perf = Ok [recommendation best a] /\
     first_least (performance_means perf) best a).
Proof.
  intros Hwf Hnd. split; [now intros ->|].
  intros Hne. unfold Dashboard.recommendations.
  replace (nonempty perf) with true by (symmetry; now apply nonempty_true).
  destruct (min_by_spec Dashboard.average_of_item item_average perf Hne)
    as (pre & [best entry] & post & Hperf & -> & Hpre & Hpost).
  { intros x Hx. apply has_average_item.
    rewrite Forall_forall in Hwf. apply Hwf. now apply list_elem_of_In. }
  assert (Hentry : has_average (best, entry)).
  { rewrite Forall_forall in Hwf. apply Hwf. rewrite Hperf.
    apply list_elem_of_In, in_or_app. right. now left. }
  destruct Hentry as (a & Ha). simpl in Ha.
  exists best, a. split.
  - cbn [bind fst]. unfold py_getitem at 1.
    rewrite (dict_get_NoDup best entry perf Hnd)
      by (rewrite Hperf; apply in_or_app; right; now left).
    destruct Ha as (others & ->). reflexivity.
  - exists (performance_means pre), (performance_means post).
    rewrite Hperf in Hwf. apply Forall_app in Hwf as [Hwf1 Hwf2].
    apply Forall_cons in Hwf2 as [_ Hwf2].
    rewrite (item_average_entry best entry a Ha) in Hpre, Hpost.
    split; [|split].
    + rewrite Hperf, performance_means_app.
      now rewrite (performance_means_cons best entry post a Ha).
    + now apply (performance_means_Forall (fun v => (a < v)%Q)).
    + now apply (performance_means_Forall (fun v => (a <= v)%Q)).
Qed.

Lemma mean_nonempty t : t <> [] -> Np.mean t = Ok (Np.mean_of t).
Proof. destruct t; [congruence | reflexivity]. Qed.

Lemma avg_times_from_means items acc :
  NoDup (keys items) ->
  (forall m, In m (keys items) -> ~ In m (keys acc)) ->
  Dashboard.avg_times_from items acc = Ok (acc ++ method_means items).
Proof.
  revert acc. induction items as [|[m t] items IH]; intros acc Hnd Hfresh.
  - simpl. now rewrite app_nil_r.
  - rewrite method_means_cons. cbn [Dashboard.avg_times_from].
    simpl in Hnd, Hfresh.
    apply NoDup_cons in Hnd as [Hnotin Hnd].
    rewrite list_elem_of_In in Hnotin.
    destruct (nonempty t) eqn:Ht.
    + apply nonempty_true in Ht. rewrite (mean_nonempty t Ht). cbn [bind].
      rewrite dict_set_fresh by (apply Hfresh; now left).
      rewrite IH; [now rewrite <- app_assoc | exact Hnd |].
      intros m' Hin Hin'. unfold keys in Hin'. rewrite map_app in Hin'.
      apply in_app_or in Hin' as [Hin'|[<-|[]]]; [|tauto].
      apply (Hfresh m'); [now right | exact Hin'].
    + apply IH; [exact Hnd|]. intros m' Hin. apply Hfresh. now right.
Qed.

Lemma keys_method_means m pm : In m (keys (method_means pm)) -> In m (keys pm).
Proof.
  induction pm as [|[k t] pm IH]; [tauto|].
  rewrite method_means_cons. destruct (nonempty t); simpl; intuition.
Qed.

Lemma NoDup_method_means pm : NoDup (keys pm) -> NoDup (keys (method_means pm)).
Proof.
  induction pm as [|[k t] pm IH]; intros Hnd; [constructor|].
  simpl in Hnd. apply NoDup_cons in Hnd as [Hnotin Hnd].
  rewrite method_means_cons. destruct (nonempty t); [|now apply IH].
  simpl. apply NoDup_cons. split; [|now apply IH].
  rewrite list_elem_of_In in *. intros H. apply Hnotin. now apply keys_method_means.
Qed.

(** [min(d, key=d.get)] on a non-empty dict of floats: the first key of least
    value. *)
Lemma min_key_first_least (d : dict Q) :
  NoDup (keys d) -> d <> [] ->
  exists best a,
    Py.min_by (fun m => match dict_get m d with
                        | Some a => Ok a
                        | None => Raise TypeError
                        end) (keys d) = Ok best /\
    first_least d best a.
Proof.
  intros Hnd Hne.
  set (keyf := fun m => default 0%Q (dict_get m d)).
  assert (Hget : forall x, In x d -> dict_get (fst x) d = Some (snd x)).
  { intros [k v] Hx. now apply dict_get_NoDup. }
  destruct (min_by_spec (fun m => match dict_get m d with
                                  | Some a => Ok a
                                  | None => Raise TypeError
                                  end) keyf (keys d))
    as (pre & best & post & Hkeys & Hmin & Hpre & Hpost).
  { destruct d; [congruence | discriminate]. }
  { intros m Hm. unfold keys in Hm. apply in_map_iff in Hm as (x & <- & Hx).
    unfold keyf. now rewrite (Hget x Hx). }
  unfold keys in Hkeys.
  apply List.map_eq_app in Hkeys as (pre' & rest & Hd & Hpre' & Hrest).
  apply List.map_eq_cons in Hrest as ([best' a] & post' & -> & Hbest & Hpost').
  simpl in Hbest. subst best'.
  exists best, a. split; [exact Hmin|].
  assert (Hbest : keyf best = a).
  { unfold keyf. change best with (fst (best, a)). rewrite Hget; [reflexivity|].
    rewrite Hd. apply in_or_app. right. now left. }
  exists pre', post'. split; [exact Hd|].
  rewrite Hbest in Hpre, Hpost. subst pre post.
  rewrite Forall_map in Hpre, Hpost. split.
  - rewrite Forall_forall in *. intros x Hx. specialize (Hpre x Hx).
    unfold keyf in Hpre. rewrite Hget in Hpre; [exact Hpre|].
    rewrite Hd. apply in_or_app. left. now apply list_elem_of_In.
  - rewrite Forall_forall in *. intros x Hx. specialize (Hpost x Hx).
    unfold keyf in Hpost. rewrite Hget in Hpost; [exact Hpost|].
    rewrite Hd. apply in_or_app. right. right. now apply list_elem_of_In.
Qed.

Lemma best_method_spec s :
  NoDup (keys (Dashboard.patch_metrics s)) ->
  method_means (Dashboard.patch_metrics s) <> [] ->
  exists best a,
    Dashboard.best_method s = Ok (Some best) /\
    first_least (method_means (Dashboard.patch_metrics s)) best a.
Proof.
  intros Hnd Hne. unfold Dashboard.best_method.
  destruct (Dashboard.patch_metrics s) as [|x pm] eqn:Hpm; [now destruct Hne|].
  cbn [nonempty]. rewrite avg_times_from_means by (auto; intros m _ []).
  cbn [bind app].
  replace (nonempty (method_means (x :: pm))) with true
    by (symmetry; now apply nonempty_true).
  destruct (min_key_first_least (method_means (x :: pm))) as (best & a & -> & Hfirst).
  - now apply NoDup_method_means.
  - exact Hne.
  - exists best, a. split; [reflexivity | exact Hfirst].
Qed.

(** ** The reports *)

Lemma process_aligned s msg :
  windows_aligned (Dashboard.system_metrics s) ->
  windows_aligned (Dashboard.system_metrics (Dashboard.process s msg)).
Proof.
  unfold windows_aligned. intros H. destruct msg as [data|data]; simpl; [|exact H].
  rewrite !keep_last_100_lastn, !lastn_length, !length_app, H. reflexivity.
Qed.

Lemma run_aligned dir evs :
  windows_aligned (Dashboard.system_metrics (Dashboard.run dir evs)).
Proof.
  unfold Dashboard.run.
  assert (Hinit : windows_aligned (Dashboard.system_metrics (Dashboard.init dir)))
    by reflexivity.
  revert Hinit. generalize (Dashboard.init dir) as s.
  induction evs as [|ev evs IH]; intros s Hs; simpl; [exact Hs|].
  apply IH. destruct ev as [sh now|logs|]; simpl; try exact Hs.
  unfold Dashboard.update_plots.
  generalize (Dashboard.data_queue s) as msgs.
  change (Dashboard.system_metrics s)
    with (Dashboard.system_metrics
            {| Dashboard.results_dir := Dashboard.results_dir s;
               Dashboard.data_queue := [];
               Dashboard.system_metrics := Dashboard.system_metrics s;
               Dashboard.patch_metrics := Dashboard.patch_metrics s |}) in Hs.
  revert Hs.
  generalize ({| Dashboard.results_dir := Dashboard.results_dir s;
                 Dashboard.data_queue := [];
                 Dashboard.system_metrics := Dashboard.system_metrics s;
                 Dashboard.patch_metrics := Dashboard.patch_metrics s |}) as s0.
  intros s0 Hs0 msgs. revert s0 Hs0.
  induction msgs as [|msg msgs IHm]; intros s0 Hs0; simpl; [exact Hs0|].
  apply IHm, process_aligned, Hs0.
Qed.

Lemma window_summary_ok l :
  l <> [] -> exists v, Dashboard.window_summary l = Ok v.
Proof.
  intros Hne. unfold Dashboard.window_summary, Np.min, Np.max.
  rewrite (mean_nonempty l Hne).
  destruct (max_nonempty l Hne) as [mx ->].
  destruct (min_nonempty l Hne) as [mn ->].
  simpl. eauto.
Qed.

Lemma system_metrics_summary_ok s :
  windows_aligned (Dashboard.system_metrics s) ->
  exists summary,
    Dashboard.system_metrics_summary s = Ok summary /\
    (cpu_usage (Dashboard.system_metrics s) = [] -> summary = PDict []) /\
    (cpu_usage (Dashboard.system_metrics s) <> [] ->
     exists cpu memory, summary = PDict [("cpu"%string, cpu); ("memory"%string, memory)]).
Proof.
  unfold windows_aligned, Dashboard.system_metrics_summary. intros Hlen.
  destruct (cpu_usage (Dashboard.system_metrics s)) as [|c cpu] eqn:Hcpu; simpl.
  - exists (PDict []). split; [reflexivity|]. split; [reflexivity | congruence].
  - destruct (window_summary_ok (c :: cpu)) as [vc Hvc]; [discriminate|].
    destruct (window_summary_ok (memory_usage (Dashboard.system_metrics s))) as [vm Hvm].
    { intros E. rewrite E in Hlen. discriminate. }
    simpl in Hvc. rewrite Hvc, Hvm. simpl.
    eexists. split; [reflexivity|]. split; [discriminate | eauto].
Qed.

Lemma dashboard_patch_performance_ok np_std s :
  exists perf,
    Dashboard.patch_performance np_std s = Ok perf /\
    Forall has_average perf /\ NoDup (keys perf) /\
    (forall m, In m (keys perf) <->
               exists t, In (m, t) (Dashboard.patch_metrics s) /\ t <> []).
Proof.
  destruct (performance_from_ok (Dashboard.method_summary np_std)
              (dashboard_method_summary np_std) (Dashboard.patch_metrics s) [])
    as (perf & Hr & Hwf & Hnd & Hkeys); [constructor | constructor |].
  exists perf. repeat split; auto.
  - intros H. apply Hkeys in H as [[]|H]. exact H.
  - intros H. apply Hkeys. now right.
Qed.

Lemma simple_patch_performance_ok s :
  exists perf,
    Simple.patch_performance s = Ok perf /\
    (forall m, In m (keys perf) <->
               exists t, In (m, t) (Simple.patch_times (Simple.data s)) /\ t <> []).
Proof.
  destruct (performance_from_ok Simple.method_summary simple_method_summary
              (Simple.patch_times (Simple.data s)) [])
    as (perf & Hr & Hwf & Hnd & Hkeys); [constructor | constructor |].
  exists perf. repeat split; auto.
  - intros H. apply Hkeys in H as [[]|H]. exact H.
  - intros H. apply Hkeys. now right.
Qed.

Lemma simple_average_or_zero_ok l :
  exists v, Simple.average_or_zero l = Ok v /\ (l = [] -> v = PInt 0).
Proof.
  destruct l as [|x l]; simpl.
  - exists (PInt 0). auto.
  - eexists. split; [reflexivity | discriminate].
Qed.

(** The shape of every dashboard report. *)
Lemma dashboard_build_report_ok np_std s now :
  windows_aligned (Dashboard.system_metrics s) ->
  exists summary perf recs,
    Dashboard.build_report np_std s now =
      Ok (PDict [("timestamp"%string, PStr (isoformat now));
                 ("system_metrics_summary"%string, summary);
                 ("patch_performance"%string, PDict perf);
                 ("recommendations"%string, PList recs)]) /\
    Dashboard.system_metrics_summary s = Ok summary /\
    Dashboard.patch_performance np_std s = Ok perf /\
    Dashboard.recommendations perf = Ok recs.
Proof.
  intros Hal. unfold Dashboard.build_report.
  destruct (system_metrics_summary_ok s Hal) as (summary & Hs & _).
  destruct (dashboard_patch_performance_ok np_std s) as (perf & Hp & Hwf & Hnd & _).
  destruct (recommendations_spec perf Hwf Hnd) as [Hempty Hsome].
  exists summary, perf. rewrite Hs, Hp. cbn [bind].
  destruct perf as [|x perf].
  - exists []. rewrite (Hempty eq_refl). auto.
  - destruct Hsome as (best & a & Hr & _); [discriminate|].
    exists [recommendation best a]. rewrite Hr. auto.
Qed.

Lemma In_method_means m a pm :
  In (m, a) (method_means pm) <->
  exists t, In (m, t) pm /\ t <> [] /\ a = Np.mean_of t.
Proof.
  induction pm as [|[k t] pm IH].
  - simpl. split; [tauto | intros (t & [] & _)].
  - rewrite method_means_cons. destruct (nonempty t) eqn:Ht.
    + apply nonempty_true in Ht. simpl. rewrite IH. split.
      * intros [[= -> <-]|(t' & Hin & Hne & Ha)]; eauto 6.
      * intros (t' & [[= -> ->]|Hin] & Hne & Ha); [left; congruence | right; eauto].
    + simpl. rewrite IH. split.
      * intros (t' & Hin & Hne & Ha). eauto 6.
      * intros (t' & [[= -> ->]|Hin] & Hne & Ha); [|eauto].
        destruct t'; [congruence | discriminate].
Qed.

(** C7. With the series quilt = [1.0, 2.0, 3.0], git = [5.0] and script = [],
    the dashboard report has the average 2.0 for quilt and 5.0 for git, has
    no entry for script, and recommends quilt; the summary also names quilt as
    the best performing method. *)
Theorem quilt_git_script_report
    (np_std : list Q -> Q) (dir : string) (queue : list Dashboard.message)
    (now : datetime) :
  let s := {| Dashboard.results_dir := dir;
              Dashboard.data_queue := queue;
              Dashboard.system_metrics := Dashboard.system_metrics (Dashboard.init dir);
              Dashboard.patch_metrics :=
                [("quilt"%string, [1; 2; 3]%Q); ("git"%string, [5%Q]);
                 ("script"%string, [])] |} in
  exists quilt git,
    Dashboard.build_report np_std s now =
      Ok (PDict [("timestamp"%string, PStr (isoformat now));
                 ("system_metrics_summary"%string, PDict []);
                 ("patch_performance"%string,
                  PDict [("quilt"%string, quilt); ("git"%string, git)]);
                 ("recommendations"%string,
                  PList [PStr "Use quilt method for optimal performance (avg: 2.00s)"])]) /\
    py_getitem quilt "average" = Ok (PFloat 2) /\
    py_getitem git "average" = Ok (PFloat 5) /\
    Dashboard.best_method s = Ok (Some "quilt"%string).
Proof.
  intros s. eexists _, _. split; [reflexivity|].
  split; [reflexivity|]. split; reflexivity.
Qed.

(** C2 (as amended). Neither report raises, whatever was collected, so no
    division by zero happens.  A method whose stored series is empty has no
    entry in ['patch_performance'] of either report, hence no average,
    minimum, maximum or standard deviation.  With no CPU sample the dashboard
    report has an empty ['system_metrics_summary'], while the simple report
    still has ['cpu_average'] and ['memory_average'], with the value 0. *)
Theorem empty_series_in_reports
    (np_std : list Q -> Q) (dir : string) (evs : list Dashboard.event)
    (ss : Simple.self) (now : datetime) :
  let ds := Dashboard.run dir evs in
  (exists summary perf recs,
     Dashboard.build_report np_std ds now =
       Ok (PDict [("timestamp"%string, PStr (isoformat now));
                  ("system_metrics_summary"%string, summary);
                  ("patch_performance"%string, PDict perf);
                  ("recommendations"%string, PList recs)]) /\
     (cpu_usage (Dashboard.system_metrics ds) = [] -> summary = PDict []) /\
     (forall m,
        (forall t, In (m, t) (Dashboard.patch_metrics ds) -> t = []) ->
        dict_get m perf = None)) /\
  (exists cpu_average memory_average perf,
     Simple.build_report ss now =
       Ok (PDict [("timestamp"%string, PStr (isoformat now));
                  ("system_metrics"%string,
                   PDict [("samples"%string,
                           PInt (Z.of_nat (length (Simple.timestamps (Simple.data ss)))));
                          ("cpu_average"%string, cpu_average);
                          ("memory_average"%string, memory_average)]);
                  ("patch_performance"%string, PDict perf)]) /\
     (Simple.cpu_usage (Simple.data ss) = [] -> cpu_average = PInt 0) /\
     (Simple.memory_usage (Simple.data ss) = [] -> memory_average = PInt 0) /\
     (forall m,
        (forall t, In (m, t) (Simple.patch_times (Simple.data ss)) -> t = []) ->
        dict_get m perf = None)).
Proof.
  intros ds. split.
  - destruct (dashboard_build_report_ok np_std ds now (run_aligned dir evs))
      as (summary & perf & recs & Hr & Hs & Hp & _).
    exists summary, perf, recs. split; [exact Hr|]. split.
    + destruct (system_metrics_summary_ok ds (run_aligned dir evs)) as (summary' & Hs' & He & _).
      rewrite Hs in Hs'. injection Hs' as <-. exact He.
    + intros m Hm. apply dict_get_None. intros Hin.
      destruct (dashboard_patch_performance_ok np_std ds) as (perf' & Hp' & _ & _ & Hkeys).
      rewrite Hp in Hp'. injection Hp' as <-.
      apply Hkeys in Hin as (t & Hin & Hne). apply Hne, (Hm t Hin).
  - unfold Simple.build_report.
    destruct (simple_average_or_zero_ok (Simple.cpu_usage (Simple.data ss))) as (c & -> & Hc).
    destruct (simple_average_or_zero_ok (Simple.memory_usage (Simple.data ss))) as (mm & -> & Hm).
    destruct (simple_patch_performance_ok ss) as (perf & -> & Hkeys).
    exists c, mm, perf. cbn [bind]. split; [reflexivity|]. split; [exact Hc|].
    split; [exact Hm|].
    intros m Hall. apply dict_get_None. intros Hin.
    apply Hkeys in Hin as (t & Hin & Hne). apply Hne, (Hall t Hin).
Qed.

(** The simple report of a monitor that has no CPU sample still carries a
    CPU average, and a memory average: 0. *)
Lemma simple_report_empty_cpu_counterexample :
  let s := Simple.init "/r" in
  let now := {| year := 2026; month := 1; day := 9; hour := 3; minute := 4;
                second := 5; microsecond := 0 |} in
  Simple.cpu_usage (Simple.data s) = [] /\
  exists report metrics,
    Simple.build_report s now = Ok report /\
    py_getitem report "system_metrics" = Ok metrics /\
    py_getitem metrics "cpu_average" = Ok (PInt 0) /\
    py_getitem metrics "memory_average" = Ok (PInt 0).
Proof.
  intros s now. split; [reflexivity|].
  eexists _, _. split; [reflexivity|]. split; [reflexivity|]. split; reflexivity.
Qed.


(** * Further properties *)

(** ** Reading a timing log *)

Lemma read_times_app l1 l2 :
  read_times (l1 ++ l2) =
  let* a := read_times l1 in let* b := read_times l2 in Ok (a ++ b).
Proof.
  induction l1 as [|line l1 IH]; simpl.
  - now destruct (read_times l2).
  - destruct (Py.truthy (Py.strip line)); [|exact IH].
    destruct (Py.float (Py.strip line)) as [x|e]; simpl; [|reflexivity].
    rewrite IH. destruct (read_times l1) as [a|e]; simpl; [|reflexivity].
    now destruct (read_times l2).
Qed.

(** X3. Reading the lines of a timing log fails exactly when some line is
    neither blank nor a float.  When it succeeds, the durations are the floats
    of the lines that are not blank, one per line and in their order; blank
    lines make no difference, and the durations of two pieces of a log read
    one after the other are the durations of the whole. *)
Theorem read_times_one_float_per_line (ls : list string) :
  is_ok (read_times ls) = negb (has_malformed_line ls) /\
  (forall xs, read_times ls = Ok xs ->
              Forall2 (fun line x => Py.float (Py.strip line) = Ok x)
                      (List.filter (fun line => negb (blank line)) ls) xs) /\
  read_times (List.filter (fun line => negb (blank line)) ls) = read_times ls /\
  (forall l1 l2 a b, read_times l1 = Ok a -> read_times l2 = Ok b ->
                     read_times (l1 ++ l2) = Ok (a ++ b)).
Proof.
  split; [|split; [|split]].
  - induction ls as [|line ls IH]; simpl; [reflexivity|].
    unfold malformed_line at 1.
    destruct (Py.truthy (Py.strip line)); simpl; [|exact IH].
    destruct (Py.float (Py.strip line)) as [x|e]; simpl; [|reflexivity].
    rewrite <- IH. now destruct (read_times ls).
  - induction ls as [|line ls IH]; simpl; intros xs H.
    + injection H as <-. constructor.
    + unfold blank at 1. destruct (Py.truthy (Py.strip line)); simpl; [|now apply IH].
      destruct (Py.float (Py.strip line)) as [x|e] eqn:Hx; simpl in H; [|discriminate].
      destruct (read_times ls) as [xs'|e]; simpl in H; [|discriminate].
      injection H as <-. constructor; [exact Hx | now apply IH].
  - induction ls as [|line ls IH]; simpl; [reflexivity|].
    unfold blank at 1. destruct (Py.truthy (Py.strip line)) eqn:Ht; simpl; [|exact IH].
    now rewrite Ht, IH.
  - intros l1 l2 a b Ha Hb. now rewrite read_times_app, Ha, Hb.
Qed.

(** ** The dashboard's timing logs *)

Lemma dashboard_parse_exact dir (logs : gmap string logfile) :
  Dashboard.parse_timing_logs dir logs =
  omap (fun '(m, path) => (fun times => (m, times)) <$> log_series logs path)
       (Dashboard.timing_files dir).
Proof.
  unfold Dashboard.parse_timing_logs, Dashboard.timing_files, log_series. simpl.
  destruct (logs !! (dir +:+ "/patch_timing_quilt.log")) as [f1|];
    [destruct (read_log f1)|];
    (destruct (logs !! (dir +:+ "/patch_timing_git.log")) as [f2|];
       [destruct (read_log f2)|]);
    (destruct (logs !! (dir +:+ "/patch_timing_script.log")) as [f3|];
       [destruct (read_log f3)|]);
    reflexivity.
Qed.

Lemma dashboard_parse_NoDup dir (logs : gmap string logfile) :
  NoDup (keys (Dashboard.parse_timing_logs dir logs)).
Proof.
  rewrite dashboard_parse_exact. unfold Dashboard.timing_files. simpl.
  destruct (log_series logs _), (log_series logs _), (log_series logs _); simpl;
    apply (bool_decide_unpack (NoDup _)); vm_compute; exact I.
Qed.

Lemma dashboard_parse_keys dir (logs : gmap string logfile) m :
  In m (keys (Dashboard.parse_timing_logs dir logs)) ->
  In m ["quilt"; "git"; "script"]%string.
Proof.
  rewrite dashboard_parse_exact. unfold Dashboard.timing_files. simpl.
  destruct (log_series logs _), (log_series logs _), (log_series logs _); simpl; tauto.
Qed.

Lemma dashboard_parse_get dir (logs : gmap string logfile) m path :
  In (m, path) (Dashboard.timing_files dir) ->
  dict_get m (Dashboard.parse_timing_logs dir logs) = log_series logs path.
Proof.
  intros Hin. rewrite dashboard_parse_exact.
  unfold Dashboard.timing_files in *. simpl in Hin.
  destruct Hin as [[= <- <-]|[[= <- <-]|[[= <- <-]|[]]]]; simpl;
    destruct (log_series logs (dir +:+ "/patch_timing_quilt.log")),
             (log_series logs (dir +:+ "/patch_timing_git.log")),
             (log_series logs (dir +:+ "/patch_timing_script.log")); reflexivity.
Qed.

(** X1. The mapping [parse_timing_logs] returns in the dashboard holds
    exactly the methods whose log exists and was read in full, each with the
    series read, in the order quilt, git, script.  The entry of a method
    depends on its own log only: a log that is missing or fails to parse
    costs that method its entry and no other. *)
Theorem dashboard_parse_timing_logs_entries (dir : string) (logs : gmap string logfile) :
  Dashboard.parse_timing_logs dir logs =
    omap (fun '(m, path) => (fun times => (m, times)) <$> log_series logs path)
         (Dashboard.timing_files dir) /\
  (forall m path,
     In (m, path) (Dashboard.timing_files dir) ->
     dict_get m (Dashboard.parse_timing_logs dir logs) = log_series logs path) /\
  (forall m, ~ In m ["quilt"; "git"; "script"]%string ->
             dict_get m (Dashboard.parse_timing_logs dir logs) = None).
Proof.
  split; [apply dashboard_parse_exact|]. split.
  - apply dashboard_parse_get.
  - intros m Hm. apply dict_get_None. intros Hin. apply Hm.
    now apply (dashboard_parse_keys dir logs).
Qed.

Section DictUpdate.
Context {V : Type}.
Implicit Types d : dict V.

Lemma dict_set_same k v d : dict_get k d = Some v -> dict_set k v d = d.
Proof.
  induction d as [|[k' v'] d IH]; simpl; [discriminate|].
  destruct (String.eqb k' k) eqn:E.
  - apply String.eqb_eq in E. now intros [= ->]; subst.
  - intros H. now rewrite (IH H).
Qed.

(** [for k, v in data.items(): d[k] = v] on distinct keys. *)
Lemma dict_update_get (data d : dict V) m :
  NoDup (keys data) ->
  dict_get m (fold_left (fun pm '(k, v) => dict_set k v pm) data d) =
  match dict_get m data with
  | Some v => Some v
  | None => dict_get m d
  end.
Proof.
  revert d. induction data as [|[k v] data IH]; intros d Hnd; simpl; [reflexivity|].
  simpl in Hnd. apply NoDup_cons in Hnd as [Hnotin Hnd].
  rewrite (IH _ Hnd). rewrite dict_get_set.
  destruct (String.eqb k m) eqn:E; [|reflexivity].
  apply String.eqb_eq in E. subst k.
  rewrite list_elem_of_In in Hnotin. apply dict_get_None in Hnotin. now rewrite Hnotin.
Qed.

(** Storing again what is already stored changes nothing. *)
Lemma dict_update_same (data d : dict V) :
  (forall k v, In (k, v) data -> dict_get k d = Some v) ->
  fold_left (fun pm '(k, v) => dict_set k v pm) data d = d.
Proof.
  induction data as [|[k v] data IH]; intros H; simpl; [reflexivity|].
  rewrite dict_set_same by (apply H; now left).
  apply IH. intros k' v' Hin. apply H. now right.
Qed.

End DictUpdate.

Lemma timing_messages_get dir (logs : gmap string logfile) s m :
  dict_get m (Dashboard.patch_metrics
                (fold_left Dashboard.process (Dashboard.timing_messages dir logs) s)) =
  match dict_get m (Dashboard.parse_timing_logs dir logs) with
  | Some times => Some times
  | None => dict_get m (Dashboard.patch_metrics s)
  end.
Proof.
  unfold Dashboard.timing_messages.
  destruct (nonempty (Dashboard.parse_timing_logs dir logs)) eqn:Hne; simpl.
  - apply dict_update_get, dashboard_parse_NoDup.
  - destruct (Dashboard.parse_timing_logs dir logs); [reflexivity | discriminate].
Qed.

(** X2. When the dashboard re-reads the logs and takes what it queued, the
    stored series of a method whose log was read in full is replaced by the
    series read, nothing of the old series being kept.  In particular a log
    that exists but has only blank lines, or no line, leaves the method with
    the empty series. *)
Theorem dashboard_series_replaced_by_full_read
    (s : Dashboard.self) (logs : gmap string logfile) (m path : string)
    (times : list Q) :
  In (m, path) (Dashboard.timing_files (Dashboard.results_dir s)) ->
  log_series logs path = Some times ->
  dict_get m (Dashboard.patch_metrics
                (fold_left Dashboard.process
                   (Dashboard.timing_messages (Dashboard.results_dir s) logs) s))
  = Some times /\
  (forall ls, logs !! path = Some (Lines ls) -> all_blank ls = true -> times = []).
Proof.
  intros Hin Hlog. split.
  - now rewrite timing_messages_get, (dashboard_parse_get _ logs m path Hin), Hlog.
  - intros ls Hl Hblank. unfold log_series in Hlog. rewrite Hl in Hlog. simpl in Hlog.
    rewrite (read_times_blank ls Hblank) in Hlog. congruence.
Qed.

Lemma dashboard_series_replaced_by_full_read_witness :
  let logs : gmap string logfile :=
    <["/r/patch_timing_git.log"%string := Lines [""; "  "]%string]> ∅ in
  let s := {| Dashboard.results_dir := "/r";
              Dashboard.data_queue := [];
              Dashboard.system_metrics := Dashboard.system_metrics (Dashboard.init "/r");
              Dashboard.patch_metrics := [("git"%string, [7%Q])] |} in
  dict_get "git" (Dashboard.patch_metrics
                    (fold_left Dashboard.process (Dashboard.timing_messages "/r" logs) s))
  = Some [].
Proof.
  intros logs s.
  refine (proj1 (dashboard_series_replaced_by_full_read s logs "git"
                   "/r/patch_timing_git.log" [] _ _)).
  - simpl. tauto.
  - reflexivity.
Defined.

(** X11. Reading unchanged logs again changes nothing in the dashboard:
    taking the [Timing] message of the same logs a second time leaves the
    state the first one gave. *)
Theorem dashboard_reread_unchanged_logs
    (s : Dashboard.self) (dir : string) (logs : gmap string logfile) :
  let msgs := Dashboard.timing_messages dir logs in
  fold_left Dashboard.process (msgs ++ msgs) s = fold_left Dashboard.process msgs s.
Proof.
  intros msgs. rewrite fold_left_app.
  unfold msgs, Dashboard.timing_messages.
  destruct (nonempty (Dashboard.parse_timing_logs dir logs)) eqn:Hne; [|reflexivity].
  simpl. f_equal. apply dict_update_same.
  intros k v Hin. rewrite dict_update_get by apply dashboard_parse_NoDup.
  now rewrite (dict_get_NoDup k v _ (dashboard_parse_NoDup dir logs) Hin).
Qed.

(** ** Frames and the queue *)

Lemma process_keeps s msg :
  Dashboard.results_dir (Dashboard.process s msg) = Dashboard.results_dir s /\
  Dashboard.data_queue (Dashboard.process s msg) = Dashboard.data_queue s.
Proof. destruct msg; auto. Qed.

Lemma process_all_keeps msgs s :
  Dashboard.results_dir (fold_left Dashboard.process msgs s) = Dashboard.results_dir s /\
  Dashboard.data_queue (fold_left Dashboard.process msgs s) = Dashboard.data_queue s.
Proof.
  revert s. induction msgs as [|msg msgs IH]; intros s; simpl; [auto|].
  destruct (IH (Dashboard.process s msg)) as [-> ->]. apply process_keeps.
Qed.

Lemma update_plots_queue s : Dashboard.data_queue (Dashboard.update_plots s) = [].
Proof. unfold Dashboard.update_plots. now rewrite (proj2 (process_all_keeps _ _)). Qed.

Lemma update_plots_dir s :
  Dashboard.results_dir (Dashboard.update_plots s) = Dashboard.results_dir s.
Proof. unfold Dashboard.update_plots. now rewrite (proj1 (process_all_keeps _ _)). Qed.

Lemma update_plots_empty_queue s :
  Dashboard.data_queue s = [] -> Dashboard.update_plots s = s.
Proof. destruct s as [dir q w pm]. simpl. intros ->. reflexivity. Qed.

Lemma update_plots_put msgs s :
  Dashboard.update_plots (Dashboard.put msgs s) =
  fold_left Dashboard.process msgs (Dashboard.update_plots s).
Proof. unfold Dashboard.update_plots, Dashboard.put. simpl. apply fold_left_app. Qed.

Lemma step_dir s ev :
  Dashboard.results_dir (Dashboard.step s ev) = Dashboard.results_dir s.
Proof. destruct ev; simpl; auto using update_plots_dir. Qed.

Lemma frames_do_not_matter evs s :
  Dashboard.update_plots (fold_left Dashboard.step evs s) =
  fold_left Dashboard.process
    (concat (map (Dashboard.queued (Dashboard.results_dir s)) evs))
    (Dashboard.update_plots s).
Proof.
  revert s. induction evs as [|ev evs IH]; intros s; simpl; [reflexivity|].
  rewrite IH, step_dir, fold_left_app. f_equal.
  destruct ev as [sh now|logs|]; simpl.
  - apply update_plots_put.
  - apply update_plots_put.
  - apply update_plots_empty_queue, update_plots_queue.
Qed.

(** X4. Where the frames fall among the rounds of the monitor thread makes
    no difference to the data: after a call of [update_plots] the dashboard is
    in the state that taking all the messages queued since the start, one by
    one in the order they were queued, gives; its queue is empty. *)
Theorem update_plots_takes_all_messages_in_order (dir : string) (evs : list Dashboard.event) :
  Dashboard.update_plots (Dashboard.run dir evs) =
    fold_left Dashboard.process (concat (map (Dashboard.queued dir) evs))
              (Dashboard.init dir) /\
  Dashboard.data_queue (Dashboard.update_plots (Dashboard.run dir evs)) = [].
Proof.
  split; [|apply update_plots_queue].
  unfold Dashboard.run. rewrite frames_do_not_matter. reflexivity.
Qed.

(** X5. A call of [update_plots] with nothing new on the queue changes
    nothing: calling it twice in a row gives what calling it once gives, and
    what a round queues after a frame is taken by the next frame as if the
    first frame had not happened. *)
Theorem update_plots_twice (s : Dashboard.self) (msgs : list Dashboard.message) :
  Dashboard.update_plots (Dashboard.update_plots s) = Dashboard.update_plots s /\
  Dashboard.update_plots (Dashboard.put msgs (Dashboard.update_plots s)) =
    Dashboard.update_plots (Dashboard.put msgs s).
Proof.
  assert (H : Dashboard.update_plots (Dashboard.update_plots s) = Dashboard.update_plots s)
    by apply update_plots_empty_queue, update_plots_queue.
  split; [exact H|]. now rewrite !update_plots_put, H.
Qed.

Lemma samples_of_queued dir evs :
  samples_of (concat (map (Dashboard.queued dir) evs)) = collected evs.
Proof.
  induction evs as [|ev evs IH]; [reflexivity|].
  simpl. unfold samples_of in *. rewrite omap_app, IH.
  destruct ev as [sh now|logs|]; simpl.
  - unfold Dashboard.system_messages.
    now destruct (Dashboard.collect_system_metrics sh now).
  - unfold Dashboard.timing_messages. now destruct (nonempty _).
  - reflexivity.
Qed.

(** X7. After a call of [update_plots] each of the five windows holds the
    last 100 of the samples that were collected during the run, in the order
    of collection, however the frames fell; so the five windows have the same
    length, the number of samples collected or 100 if that is less. *)
Theorem windows_hold_last_100_collected (dir : string) (evs : list Dashboard.event) :
  let w := Dashboard.system_metrics (Dashboard.update_plots (Dashboard.run dir evs)) in
  let h := collected evs in
  (timestamp w = Py.lastn 100 (map timestamp h) /\
   cpu_usage w = Py.lastn 100 (map cpu_usage h) /\
   memory_usage w = Py.lastn 100 (map memory_usage h) /\
   disk_io w = Py.lastn 100 (map disk_io h) /\
   network_io w = Py.lastn 100 (map network_io h)) /\
  (length (timestamp w) = Nat.min 100 (length h) /\
   length (cpu_usage w) = Nat.min 100 (length h) /\
   length (memory_usage w) = Nat.min 100 (length h) /\
   length (disk_io w) = Nat.min 100 (length h) /\
   length (network_io w) = Nat.min 100 (length h)).
Proof.
  intros w h.
  assert (H : timestamp w = Py.lastn 100 (map timestamp h) /\
              cpu_usage w = Py.lastn 100 (map cpu_usage h) /\
              memory_usage w = Py.lastn 100 (map memory_usage h) /\
              disk_io w = Py.lastn 100 (map disk_io h) /\
              network_io w = Py.lastn 100 (map network_io h)).
  { unfold w, h, Dashboard.run. rewrite frames_do_not_matter.
    change (Dashboard.update_plots (Dashboard.init dir)) with (Dashboard.init dir).
    change (Dashboard.results_dir (Dashboard.init dir)) with dir.
    rewrite <- (samples_of_queued dir evs).
    pose proof (init_bounded dir) as Hb.
    repeat split.
    - apply (process_all_stored timestamp timestamp); auto; intros s' Hs; apply Hs.
    - apply (process_all_stored cpu_usage cpu_usage); auto; intros s' Hs; apply Hs.
    - apply (process_all_stored memory_usage memory_usage); auto; intros s' Hs; apply Hs.
    - apply (process_all_stored disk_io disk_io); auto; intros s' Hs; apply Hs.
    - apply (process_all_stored network_io network_io); auto; intros s' Hs; apply Hs. }
  split; [exact H|].
  destruct H as (-> & -> & -> & -> & ->).
  rewrite !lastn_length, !length_map. auto.
Qed.

(** ** The stored series over a run *)

Section DictKeys.
Context {V : Type}.
Implicit Types d : dict V.

Lemma keys_dict_set_grow k v d : exists new, keys (dict_set k v d) = keys d ++ new.
Proof.
  unfold keys. induction d as [|[k' v'] d [new IH]]; simpl.
  - now exists [k].
  - destruct (String.eqb k' k) eqn:E; simpl.
    + apply String.eqb_eq in E. subst. exists []. now rewrite app_nil_r.
    + exists new. now rewrite IH.
Qed.

Lemma dict_update_keys (data d : dict V) :
  NoDup (keys d) ->
  NoDup (keys (fold_left (fun pm '(k, v) => dict_set k v pm) data d)) /\
  (forall m, In m (keys (fold_left (fun pm '(k, v) => dict_set k v pm) data d)) ->
             In m (keys d) \/ In m (keys data)) /\
  exists new, keys (fold_left (fun pm '(k, v) => dict_set k v pm) data d) = keys d ++ new.
Proof.
  revert d. induction data as [|[k v] data IH]; intros d Hnd; simpl.
  - split; [exact Hnd|]. split; [auto|]. exists []. now rewrite app_nil_r.
  - destruct (IH (dict_set k v d) (NoDup_dict_set k v d Hnd)) as (H1 & H2 & new & H3).
    split; [exact H1|]. split.
    + intros m Hm. apply H2 in Hm as [Hm|Hm]; [|auto].
      apply keys_dict_set in Hm as [->|Hm]; auto.
    + destruct (keys_dict_set_grow k v d) as [new' Hnew].
      exists (new' ++ new). now rewrite H3, Hnew, app_assoc.
Qed.

End DictKeys.

Lemma process_series s msg :
  NoDup (keys (Dashboard.patch_metrics s)) ->
  NoDup (keys (Dashboard.patch_metrics (Dashboard.process s msg))) /\
  (forall m, In m (keys (Dashboard.patch_metrics (Dashboard.process s msg))) ->
             In m (keys (Dashboard.patch_metrics s)) \/
             match msg with
             | Dashboard.Timing d => In m (keys d)
             | Dashboard.System _ => False
             end) /\
  exists new, keys (Dashboard.patch_metrics (Dashboard.process s msg)) =
              keys (Dashboard.patch_metrics s) ++ new.
Proof.
  intros Hnd. destruct msg as [data|data]; simpl.
  - split; [exact Hnd|]. split; [auto|]. exists []. now rewrite app_nil_r.
  - now apply dict_update_keys.
Qed.

Lemma process_all_series msgs s :
  Forall (fun msg => match msg with
                     | Dashboard.Timing d =>
                         forall m, In m (keys d) -> In m ["quilt"; "git"; "script"]%string
                     | Dashboard.System _ => True
                     end) msgs ->
  NoDup (keys (Dashboard.patch_metrics s)) ->
  (forall m, In m (keys (Dashboard.patch_metrics s)) ->
             In m ["quilt"; "git"; "script"]%string) ->
  NoDup (keys (Dashboard.patch_metrics (fold_left Dashboard.process msgs s))) /\
  (forall m, In m (keys (Dashboard.patch_metrics (fold_left Dashboard.process msgs s))) ->
             In m ["quilt"; "git"; "script"]%string) /\
  exists new, keys (Dashboard.patch_metrics (fold_left Dashboard.process msgs s)) =
              keys (Dashboard.patch_metrics s) ++ new.
Proof.
  revert s. induction msgs as [|msg msgs IH]; intros s Hok Hnd Hsub.
  - simpl. split; [exact Hnd|]. split; [exact Hsub|]. exists []. now rewrite app_nil_r.
  - apply Forall_cons in Hok as [Hmsg Hok].
    destruct (process_series s msg Hnd) as (Hnd1 & Hsub1 & new1 & Hnew1).
    destruct (IH (Dashboard.process s msg) Hok Hnd1) as (H1 & H2 & new & H3).
    { intros m Hm. apply Hsub1 in Hm as [Hm|Hm]; [now apply Hsub|].
      destruct msg as [data|data]; [destruct Hm | now apply Hmsg]. }
    simpl. split; [exact H1|]. split; [exact H2|].
    exists (new1 ++ new). now rewrite H3, Hnew1, app_assoc.
Qed.

Lemma step_series s ev :
  Forall (fun msg => match msg with
                     | Dashboard.Timing d =>
                         forall m, In m (keys d) -> In m ["quilt"; "git"; "script"]%string
                     | Dashboard.System _ => True
                     end) (Dashboard.data_queue s) ->
  NoDup (keys (Dashboard.patch_metrics s)) ->
  (forall m, In m (keys (Dashboard.patch_metrics s)) ->
             In m ["quilt"; "git"; "script"]%string) ->
  Forall (fun msg => match msg with
                     | Dashboard.Timing d =>
                         forall m, In m (keys d) -> In m ["quilt"; "git"; "script"]%string
                     | Dashboard.System _ => True
                     end) (Dashboard.data_queue (Dashboard.step s ev)) /\
  NoDup (keys (Dashboard.patch_metrics (Dashboard.step s ev))) /\
  (forall m, In m (keys (Dashboard.patch_metrics (Dashboard.step s ev))) ->
             In m ["quilt"; "git"; "script"]%string) /\
  exists new, keys (Dashboard.patch_metrics (Dashboard.step s ev)) =
              keys (Dashboard.patch_metrics s) ++ new.
Proof.
  intros Hq Hnd Hsub. destruct ev as [sh now|logs|]; simpl.
  - split; [|split; [exact Hnd|split; [exact Hsub|exists []; now rewrite app_nil_r]]].
    apply Forall_app. split; [exact Hq|].
    unfold Dashboard.system_messages.
    destruct (Dashboard.collect_system_metrics sh now); [|constructor].
    constructor; [exact I | constructor].
  - split; [|split; [exact Hnd|split; [exact Hsub|exists []; now rewrite app_nil_r]]].
    apply Forall_app. split; [exact Hq|].
    unfold Dashboard.timing_messages. destruct (nonempty _); [|constructor].
    constructor; [|constructor].
    intros m Hm. now apply (dashboard_parse_keys (Dashboard.results_dir s) logs).
  - rewrite update_plots_queue. split; [constructor|].
    unfold Dashboard.update_plots.
    exact (process_all_series (Dashboard.data_queue s)
             {| Dashboard.results_dir := Dashboard.results_dir s;
                Dashboard.data_queue := [];
                Dashboard.system_metrics := Dashboard.system_metrics s;
                Dashboard.patch_metrics := Dashboard.patch_metrics s |} Hq Hnd Hsub).
Qed.

Lemma steps_series evs s :
  Forall (fun msg => match msg with
                     | Dashboard.Timing d =>
                         forall m, In m (keys d) -> In m ["quilt"; "git"; "script"]%string
                     | Dashboard.System _ => True
                     end) (Dashboard.data_queue s) ->
  NoDup (keys (Dashboard.patch_metrics s)) ->
  (forall m, In m (keys (Dashboard.patch_metrics s)) ->
             In m ["quilt"; "git"; "script"]%string) ->
  let s' := fold_left Dashboard.step evs s in
  Forall (fun msg => match msg with
                     | Dashboard.Timing d =>
                         forall m, In m (keys d) -> In m ["quilt"; "git"; "script"]%string
                     | Dashboard.System _ => True
                     end) (Dashboard.data_queue s') /\
  NoDup (keys (Dashboard.patch_metrics s')) /\
  (forall m, In m (keys (Dashboard.patch_metrics s')) ->
             In m ["quilt"; "git"; "script"]%string) /\
  exists new, keys (Dashboard.patch_metrics s') = keys (Dashboard.patch_metrics s) ++ new.
Proof.
  revert s. induction evs as [|ev evs IH]; intros s Hq Hnd Hsub; simpl.
  - repeat split; auto. exists []. now rewrite app_nil_r.
  - destruct (step_series s ev Hq Hnd Hsub) as (Hq1 & Hnd1 & Hsub1 & new1 & Hnew1).
    destruct (IH _ Hq1 Hnd1 Hsub1) as (Hq2 & Hnd2 & Hsub2 & new & Hnew).
    repeat split; auto. exists (new1 ++ new). now rewrite Hnew, Hnew1, app_assoc.
Qed.

Lemma run_series dir evs :
  NoDup (keys (Dashboard.patch_metrics (Dashboard.run dir evs))) /\
  (forall m, In m (keys (Dashboard.patch_metrics (Dashboard.run dir evs))) ->
             In m ["quilt"; "git"; "script"]%string).
Proof.
  destruct (steps_series evs (Dashboard.init dir)) as (_ & H1 & H2 & _).
  - constructor.
  - constructor.
  - intros m [].
  - split; [exact H1 | exact H2].
Qed.

(** X6. In every state a dashboard run can reach, the stored timing series
    have distinct method names, all among quilt, git and script.  A method
    that got a stored series keeps its place in the iteration order for the
    rest of the run: going on with the run only adds methods after those
    already there. *)
Theorem stored_methods_distinct_and_stable
    (dir : string) (evs more : list Dashboard.event) :
  NoDup (keys (Dashboard.patch_metrics (Dashboard.run dir evs))) /\
  (forall m, In m (keys (Dashboard.patch_metrics (Dashboard.run dir evs))) ->
             In m ["quilt"; "git"; "script"]%string) /\
  exists new,
    keys (Dashboard.patch_metrics (Dashboard.run dir (evs ++ more))) =
    keys (Dashboard.patch_metrics (Dashboard.run dir evs)) ++ new.
Proof.
  destruct (run_series dir evs) as [Hnd Hsub].
  split; [exact Hnd|]. split; [exact Hsub|].
  unfold Dashboard.run. rewrite fold_left_app.
  destruct (steps_series evs (Dashboard.init dir)) as (Hq & _ & _ & _);
    [constructor | constructor | intros m [] |].
  destruct (steps_series more (fold_left Dashboard.step evs (Dashboard.init dir)) Hq Hnd Hsub)
    as (_ & _ & _ & Hnew).
  exact Hnew.
Qed.

(** ** The summary text *)

Lemma method_means_nil pm :
  method_means pm = [] <-> (forall m t, In (m, t) pm -> t = []).
Proof.
  split.
  - intros E m t Hin. destruct t as [|x t]; [reflexivity|].
    assert (H : In (m, Np.mean_of (x :: t)) (method_means pm)).
    { apply In_method_means. exists (x :: t). repeat split; auto; discriminate. }
    rewrite E in H. destruct H.
  - intros H. destruct (method_means pm) as [|[m a] l] eqn:E; [reflexivity|].
    assert (Hin : In (m, a) (method_means pm)) by (rewrite E; now left).
    apply In_method_means in Hin as (t & Hin & Hne & _).
    now destruct (Hne (H m t Hin)).
Qed.

Lemma system_lines_ok s :
  windows_aligned (Dashboard.system_metrics s) ->
  exists lines, Dashboard.system_lines s = Ok lines.
Proof.
  unfold windows_aligned, Dashboard.system_lines. intros Hlen.
  destruct (cpu_usage (Dashboard.system_metrics s)) as [|c cpu] eqn:Hcpu; simpl; [eauto|].
  destruct (memory_usage (Dashboard.system_metrics s)) as [|m mem] eqn:Hmem;
    [discriminate|].
  simpl. eauto.
Qed.

Lemma method_lines_ok items : exists lines, Dashboard.method_lines items = Ok lines.
Proof.
  induction items as [|[m t] items [lines IH]]; simpl; [eauto|].
  destruct (nonempty t) eqn:Ht; [|eauto].
  apply nonempty_true in Ht. unfold Dashboard.method_line, Np.min, Np.max.
  rewrite (mean_nonempty t Ht).
  destruct (min_nonempty t Ht) as [mn ->].
  destruct (max_nonempty t Ht) as [mx ->].
  simpl. rewrite IH. simpl. eauto.
Qed.

(** The summary and the report agree on the best method. *)
Lemma best_method_and_recommendation np_std s :
  NoDup (keys (Dashboard.patch_metrics s)) ->
  (method_means (Dashboard.patch_metrics s) = [] ->
   Dashboard.best_method s = Ok None /\
   Dashboard.patch_performance np_std s = Ok [] ) /\
  (method_means (Dashboard.patch_metrics s) <> [] ->
   exists best a perf,
     Dashboard.best_method s = Ok (Some best) /\
     Dashboard.patch_performance np_std s = Ok perf /\
     Dashboard.recommendations perf = Ok [recommendation best a] /\
     first_least (method_means (Dashboard.patch_metrics s)) best a).
Proof.
  intros Hnd.
  destruct (dashboard_patch_performance_ok np_std s) as (perf & Hperf & Hwf & Hndp & Hkeys).
  destruct (performance_from_means (Dashboard.method_summary np_std)
              (dashboard_method_summary np_std) (Dashboard.patch_metrics s) [] Hnd)
    as (perf' & Hperf' & Hpm); [intros m _ []|].
  unfold Dashboard.patch_performance in Hperf. rewrite Hperf in Hperf'.
  injection Hperf' as <-. simpl in Hpm.
  split.
  - intros E. split.
    + unfold Dashboard.best_method.
      destruct (nonempty (Dashboard.patch_metrics s)); [|reflexivity].
      rewrite avg_times_from_means by (auto; intros m _ []).
      simpl. now rewrite E.
    + unfold Dashboard.patch_performance. rewrite Hperf. f_equal.
      destruct perf as [|[m e] perf]; [reflexivity|].
      assert (Hin : In m (keys ((m, e) :: perf))) by now left.
      apply Hkeys in Hin as (t & Hin & Hne).
      apply method_means_nil with (m := m) (t := t) in E; [contradiction | exact Hin].
  - intros Hne.
    destruct (best_method_spec s Hnd Hne) as (best & a & Hbest & Hfirst).
    destruct (recommendations_spec perf Hwf Hndp) as [_ Hsome].
    destruct Hsome as (best' & a' & Hrec & Hfirst').
    { intros E. rewrite E in Hpm. simpl in Hpm. congruence. }
    rewrite Hpm in Hfirst'.
    destruct (first_least_unique _ _ _ _ _ Hfirst Hfirst') as [<- <-].
    exists best, a, perf. unfold Dashboard.patch_performance. auto.
Qed.

(** X12. In every state a dashboard run can reach, the summary text is
    produced without an exception.  When no method has a sample the summary
    names no best method and the report has no recommendation; when some
    method has one, the last line of the summary names a best method, and it
    is the method the report recommends. *)
Theorem summary_and_report_name_the_same_method
    (np_std : list Q -> Q) (dir : string) (evs : list Dashboard.event)
    (now : datetime) :
  let s := Dashboard.run dir evs in
  exists lines,
    Dashboard.summary_lines s now = Ok lines /\
    ((forall m t, In (m, t) (Dashboard.patch_metrics s) -> t = []) ->
     Dashboard.best_method s = Ok None /\
     exists perf, Dashboard.patch_performance np_std s = Ok perf /\
                  Dashboard.recommendations perf = Ok []) /\
    ((exists m t, In (m, t) (Dashboard.patch_metrics s) /\ t <> []) ->
     exists best a perf,
       last lines = Some (nl +:+ "Best performing method: " +:+ best) /\
       Dashboard.patch_performance np_std s = Ok perf /\
       Dashboard.recommendations perf = Ok [recommendation best a]).
Proof.
  intros s.
  destruct (run_series dir evs) as [Hnd _]. fold s in Hnd.
  destruct (best_method_and_recommendation np_std s Hnd) as [Hnone Hsome].
  destruct (system_lines_ok s (run_aligned dir evs)) as [sys Hsys].
  destruct (method_lines_ok (Dashboard.patch_metrics s)) as [mls Hmls].
  destruct (method_means (Dashboard.patch_metrics s)) as [|x means] eqn:Hmeans.
  - destruct (Hnone eq_refl) as [Hbest Hperf].
    exists ([("=== prplOS Patch Management Summary ===" +:+ nl)%string;
             "Dashboard Update: " +:+ strftime_human now +:+ nl] ++ sys ++
            if nonempty (Dashboard.patch_metrics s)
            then [nl +:+ "Patch Application Performance:"] ++ mls ++ []
            else []).
    split; [|split].
    + unfold Dashboard.summary_lines, Dashboard.patch_lines.
      rewrite Hsys, Hmls, Hbest. simpl.
      now destruct (nonempty (Dashboard.patch_metrics s)).
    + intros _. split; [exact Hbest|]. exists []. split; [exact Hperf | reflexivity].
    + intros (m & t & Hin & Hne).
      now destruct (Hne (proj1 (method_means_nil _) Hmeans m t Hin)).
  - destruct Hsome as (best & a & perf & Hbest & Hperf & Hrec & _); [discriminate|].
    assert (Hpm : nonempty (Dashboard.patch_metrics s) = true).
    { destruct (Dashboard.patch_metrics s); [discriminate | reflexivity]. }
    exists (([("=== prplOS Patch Management Summary ===" +:+ nl)%string;
              "Dashboard Update: " +:+ strftime_human now +:+ nl] ++ sys ++
             [nl +:+ "Patch Application Performance:"] ++ mls) ++
            [nl +:+ "Best performing method: " +:+ best]).
    split; [|split].
    + unfold Dashboard.summary_lines, Dashboard.patch_lines.
      rewrite Hsys, Hmls, Hbest, Hpm. simpl. f_equal. f_equal. f_equal.
      now rewrite <- !app_assoc.
    + intros Hall. assert (E : method_means (Dashboard.patch_metrics s) = [])
        by now apply method_means_nil.
      congruence.
    + intros _. exists best, a, perf. split; [apply last_snoc|]. auto.
Qed.

(** ** The simple monitor *)

Lemma simple_parse_method_eq dir (logs : gmap string logfile) pt m :
  Simple.parse_method dir logs pt m =
  match fresh_series logs (Simple.log_file dir m) with
  | Some times => dict_set m times pt
  | None => pt
  end.
Proof.
  unfold Simple.parse_method, fresh_series, log_series.
  destruct (logs !! Simple.log_file dir m) as [f|]; [|reflexivity].
  destruct (read_log f) as [[|x t]|e]; reflexivity.
Qed.

Lemma simple_parse_fold_other dir (logs : gmap string logfile) ms pt m :
  ~ In m ms ->
  dict_get m (fold_left (Simple.parse_method dir logs) ms pt) = dict_get m pt.
Proof.
  revert pt. induction ms as [|m' ms IH]; intros pt Hn; simpl; [reflexivity|].
  rewrite IH by (intros H; apply Hn; now right).
  rewrite simple_parse_method_eq.
  destruct (fresh_series logs _); [|reflexivity].
  apply dict_get_set_ne. intros ->. apply Hn. now left.
Qed.

Lemma simple_parse_fold_get dir (logs : gmap string logfile) ms pt m :
  NoDup ms -> In m ms ->
  dict_get m (fold_left (Simple.parse_method dir logs) ms pt) =
  match fresh_series logs (Simple.log_file dir m) with
  | Some times => Some times
  | None => dict_get m pt
  end.
Proof.
  revert pt. induction ms as [|m' ms IH]; intros pt Hnd Hin; simpl; [destruct Hin|].
  apply NoDup_cons in Hnd as [Hnotin Hnd]. rewrite list_elem_of_In in Hnotin.
  destruct Hin as [->|Hin].
  - rewrite simple_parse_fold_other by exact Hnotin.
    rewrite simple_parse_method_eq.
    destruct (fresh_series logs _); [apply dict_get_set_eq | reflexivity].
  - rewrite (IH _ Hnd Hin).
    destruct (fresh_series logs (Simple.log_file dir m)); [reflexivity|].
    rewrite simple_parse_method_eq.
    destruct (fresh_series logs _); [|reflexivity].
    apply dict_get_set_ne. intros ->. contradiction.
Qed.

Lemma simple_parse_fold_same dir (logs : gmap string logfile) ms pt :
  (forall m times, In m ms -> fresh_series logs (Simple.log_file dir m) = Some times ->
                   dict_get m pt = Some times) ->
  fold_left (Simple.parse_method dir logs) ms pt = pt.
Proof.
  induction ms as [|m ms IH]; intros H; simpl; [reflexivity|].
  rewrite simple_parse_method_eq.
  destruct (fresh_series logs (Simple.log_file dir m)) as [times|] eqn:E.
  - rewrite dict_set_same by (apply H; [now left | exact E]).
    apply IH. intros m' t' Hin. apply H. now right.
  - apply IH. intros m' t' Hin. apply H. now right.
Qed.

Lemma simple_methods_NoDup : NoDup Simple.methods.
Proof. apply (bool_decide_unpack (NoDup _)). vm_compute. exact I. Qed.

(** X10. In the simple monitor [parse_timing_logs] gives each of quilt, git
    and script the series of its own log when that log was read in full and
    is not empty, and leaves every other stored series as it was; nothing but
    the timing series changes.  Reading the same logs a second time changes
    nothing. *)
Theorem simple_parse_timing_logs_effect (s : Simple.self) (logs : gmap string logfile) :
  let s' := Simple.parse_timing_logs s logs in
  (forall m, In m Simple.methods ->
     dict_get m (Simple.patch_times (Simple.data s')) =
     match fresh_series logs (Simple.log_file (Simple.results_dir s) m) with
     | Some times => Some times
     | None => dict_get m (Simple.patch_times (Simple.data s))
     end) /\
  (forall m, ~ In m Simple.methods ->
     dict_get m (Simple.patch_times (Simple.data s')) =
     dict_get m (Simple.patch_times (Simple.data s))) /\
  (Simple.timestamps (Simple.data s') = Simple.timestamps (Simple.data s) /\
   Simple.cpu_usage (Simple.data s') = Simple.cpu_usage (Simple.data s) /\
   Simple.memory_usage (Simple.data s') = Simple.memory_usage (Simple.data s)) /\
  Simple.parse_timing_logs s' logs = s'.
Proof.
  intros s'. split; [|split; [|split]].
  - intros m Hin. apply simple_parse_fold_get; [apply simple_methods_NoDup | exact Hin].
  - intros m Hn. now apply simple_parse_fold_other.
  - auto.
  - unfold s', Simple.parse_timing_logs.
    cbn [Simple.results_dir Simple.data Simple.timestamps Simple.cpu_usage
         Simple.memory_usage Simple.patch_times Simple.compile_times].
    f_equal. f_equal.
    apply simple_parse_fold_same. intros m times Hin E.
    rewrite simple_parse_fold_get by (auto using simple_methods_NoDup).
    now rewrite E.
Qed.

Lemma simple_collect_reading s sh now :
  Simple.collect_system_metrics s sh now =
  match simple_reading sh with
  | Some (cpu, memory) =>
      ({| Simple.results_dir := Simple.results_dir s;
          Simple.data :=
            {| Simple.timestamps := Simple.timestamps (Simple.data s) ++ [strftime_human now];
               Simple.cpu_usage := Simple.cpu_usage (Simple.data s) ++ [cpu];
               Simple.memory_usage := Simple.memory_usage (Simple.data s) ++ [memory];
               Simple.patch_times := Simple.patch_times (Simple.data s);
               Simple.compile_times := Simple.compile_times (Simple.data s) |} |}, true)
  | None => (s, false)
  end.
Proof.
  unfold Simple.collect_system_metrics, simple_reading.
  destruct (Simple.read_metric (cpu_cmd sh)) as [cpu|e]; simpl; [|reflexivity].
  destruct (Simple.read_metric (mem_cmd sh)) as [memory|e]; reflexivity.
Qed.






(** X13. The pivot's extraction yields a number exactly for a group whose
    first cell is a string that parses: the whole string when it has no
    colon, its second colon-separated field when it has one; the other
    cells of the group are not looked at.  An empty group raises
    [IndexError], a first cell that is a number raises [TypeError], and a
    string that does not parse raises [ValueError]. *)
Theorem aggfunc_result (x : list cell) :
  (forall q,
     Dashboard.aggfunc x = Ok q <->
     exists s rest,
       x = CStr s :: rest /\
       Py.float (if Py.contains ":" s then before ":" (after ":" s) else s) = Ok q) /\
  (forall e,
     Dashboard.aggfunc x = Raise e <->
     (x = [] /\ e = IndexError) \/
     (exists v rest, x = CFloat v :: rest /\ e = TypeError) \/
     (exists s rest,
        x = CStr s :: rest /\ e = ValueError /\
        is_ok (Py.float (if Py.contains ":" s then before ":" (after ":" s) else s))
        = false)).
Proof.
  assert (Hstr : forall s rest,
            Dashboard.aggfunc (CStr s :: rest) =
            Py.float (if Py.contains ":" s then before ":" (after ":" s) else s)).
  { intros s rest. unfold Dashboard.aggfunc. simpl.
    destruct (Py.contains ":" s) eqn:E; [|reflexivity].
    now rewrite split_second_field by exact E. }
  destruct x as [|[s|v] rest].
  - split.
    + intros q. split; [discriminate | intros (s & rest & [=] & _)].
    + intros e. split.
      * intros [= <-]. left. auto.
      * intros [[_ ->]|[(v & rest & [=] & _)|(s & rest & [=] & _)]]. reflexivity.
  - rewrite Hstr. split.
    + intros q. split.
      * intros H. exists s, rest. auto.
      * intros (s' & rest' & [= <- <-] & H). exact H.
    + intros e. split.
      * intros H. right. right. exists s, rest. split; [reflexivity|].
        split; [now apply (float_raises_ValueError _ _ H) | now rewrite H].
      * intros [[[=] _]|[(v & rest' & [=] & _)|(s' & rest' & [= <- <-] & -> & H)]].
        destruct (Py.float _) as [q|e] eqn:E; [discriminate|].
        now rewrite (float_raises_ValueError _ _ E).
  - split.
    + intros q. split; [discriminate | intros (s & rest' & [=] & _)].
    + intros e. split.
      * intros [= <-]. right. left. eauto.
      * intros [[[=] _]|[(v' & rest' & _ & ->)|(s & rest' & [=] & _)]]. reflexivity.
Qed.

(** ** The entries of the report *)

Section Entries.
Variable summary : list Q -> result pyval.

Lemma performance_from_other items perf perf' m :
  ~ In m (keys items) ->
  performance_from summary items perf = Ok perf' ->
  dict_get m perf' = dict_get m perf.
Proof.
  revert perf. induction items as [|[k t] items IH]; intros perf Hn; simpl.
  - now intros [= <-].
  - assert (Hn' : ~ In m (keys items)) by (intros H; apply Hn; now right).
    destruct (nonempty t); [|now apply IH].
    destruct (summary t) as [e|err]; simpl; [|discriminate].
    intros H. rewrite (IH _ Hn' H). apply dict_get_set_ne.
    intros ->. apply Hn. now left.
Qed.

(** With distinct names, the entry of a method is what [summary] makes of
    the series of that method. *)
Lemma performance_from_entry items perf perf' m t :
  NoDup (keys items) ->
  performance_from summary items perf = Ok perf' ->
  In (m, t) items -> t <> [] ->
  exists entry, summary t = Ok entry /\ dict_get m perf' = Some entry.
Proof.
  revert perf. induction items as [|[k t0] items IH]; intros perf Hnd Hr Hin Hne;
    [destruct Hin|].
  simpl in Hnd. apply NoDup_cons in Hnd as [Hnotin Hnd].
  rewrite list_elem_of_In in Hnotin. simpl in Hr.
  destruct Hin as [[= -> ->]|Hin].
  - replace (nonempty t) with true in Hr by (symmetry; now apply nonempty_true).
    destruct (summary t) as [e|err]; simpl in Hr; [|discriminate].
    exists e. split; [reflexivity|].
    rewrite (performance_from_other _ _ _ _ Hnotin Hr). apply dict_get_set_eq.
  - destruct (nonempty t0).
    + destruct (summary t0) as [e|err]; simpl in Hr; [|discriminate].
      now apply (IH _ Hnd Hr).
    + now apply (IH _ Hnd Hr).
Qed.

End Entries.

(** X8. In every state a dashboard run can reach, ['patch_performance'] of
    the report lists the methods that have a sample, in the iteration order
    of the stored series, and the entry of each is computed from the series
    of that method alone: its average is the mean of the series and its
    number of samples the length of the series. *)
Theorem patch_performance_entries
    (np_std : list Q -> Q) (dir : string) (evs : list Dashboard.event) :
  let s := Dashboard.run dir evs in
  exists perf,
    Dashboard.patch_performance np_std s = Ok perf /\
    performance_means perf = method_means (Dashboard.patch_metrics s) /\
    keys perf = keys (method_means (Dashboard.patch_metrics s)) /\
    (forall m t,
       dict_get m (Dashboard.patch_metrics s) = Some t -> t <> [] ->
       exists entry,
         dict_get m perf = Some entry /\
         py_getitem entry "average" = Ok (PFloat (Np.mean_of t)) /\
         py_getitem entry "std_dev" = Ok (PFloat (np_std t)) /\
         py_getitem entry "samples" = Ok (PInt (Z.of_nat (length t)))).
Proof.
  intros s. destruct (run_series dir evs) as [Hnd _]. fold s in Hnd.
  destruct (performance_from_means (Dashboard.method_summary np_std)
              (dashboard_method_summary np_std) (Dashboard.patch_metrics s) [] Hnd)
    as (perf & Hperf & Hpm); [intros m _ []|].
  simpl in Hpm.
  destruct (dashboard_patch_performance_ok np_std s) as (perf' & Hperf' & Hwf & _).
  unfold Dashboard.patch_performance in *. rewrite Hperf in Hperf'. injection Hperf' as <-.
  exists perf. split; [exact Hperf|]. split; [exact Hpm|]. split.
  - rewrite <- Hpm. clear -Hwf. induction perf as [|[m e] perf IH]; [reflexivity|].
    apply Forall_cons in Hwf as [(a & Ha) Hwf]. simpl in Ha.
    rewrite (performance_means_cons m e perf a Ha). simpl. f_equal. now apply IH.
  - intros m t Hget Hne.
    destruct (performance_from_entry _ _ _ _ m t Hnd Hperf (dict_get_In _ _ _ Hget) Hne)
      as (entry & Hentry & Hlookup).
    exists entry. split; [exact Hlookup|].
    unfold Dashboard.method_summary, Np.min, Np.max in Hentry.
    rewrite (mean_nonempty t Hne) in Hentry.
    destruct (min_nonempty t Hne) as [mn Hmn]. rewrite Hmn in Hentry.
    destruct (max_nonempty t Hne) as [mx Hmx]. rewrite Hmx in Hentry.
    simpl in Hentry. injection Hentry as <-. auto.
Qed.

Lemma In_dict_set {V : Type} (k k' : string) (v v' : V) (d : dict V) :
  In (k', v') (dict_set k v d) -> (k' = k /\ v' = v) \/ In (k', v') d.
Proof.
  induction d as [|[k0 v0] d IH]; simpl.
  - intros [[= <- <-]|[]]. auto.
  - destruct (String.eqb k0 k); simpl.
    + intros [[= <- <-]|H]; auto.
    + intros [H|H]; [auto|]. destruct (IH H); auto.
Qed.

Lemma keys_performance_means perf :
  Forall has_average perf -> keys (performance_means perf) = keys perf.
Proof.
  induction perf as [|[m e] perf IH]; intros Hwf; [reflexivity|].
  apply Forall_cons in Hwf as [(a & Ha) Hwf]. simpl in Ha.
  rewrite (performance_means_cons m e perf a Ha). simpl. f_equal. now apply IH.
Qed.

Lemma keys_method_means_all pm :
  (forall m t, In (m, t) pm -> t <> []) -> keys (method_means pm) = keys pm.
Proof.
  induction pm as [|[m t] pm IH]; intros H; [reflexivity|].
  rewrite method_means_cons.
  replace (nonempty t) with true
    by (symmetry; apply nonempty_true, (H m t); now left).
  simpl. f_equal. apply IH. intros m' t' Hin. apply (H m' t'). now right.
Qed.

Lemma simple_iteration_series s tick :
  NoDup (keys (Simple.patch_times (Simple.data s))) ->
  (forall m t, In (m, t) (Simple.patch_times (Simple.data s)) -> t <> []) ->
  let s' := Simple.iteration s tick in
  NoDup (keys (Simple.patch_times (Simple.data s'))) /\
  (forall m t, In (m, t) (Simple.patch_times (Simple.data s')) -> t <> []) /\
  (forall m, In m (keys (Simple.patch_times (Simple.data s))) ->
             In m (keys (Simple.patch_times (Simple.data s')))).
Proof.
  destruct tick as [[sh now] logs]. intros Hnd Hne. unfold Simple.iteration.
  rewrite simple_collect_reading.
  set (s1 := fst (match simple_reading sh with
                  | Some (cpu, memory) => _
                  | None => (s, false)
                  end)).
  assert (Hpt : Simple.patch_times (Simple.data s1) = Simple.patch_times (Simple.data s))
    by (unfold s1; now destruct (simple_reading sh) as [[c m]|]).
  unfold Simple.parse_timing_logs.
  cbn [Simple.results_dir Simple.data Simple.patch_times]. rewrite Hpt.
  generalize (Simple.results_dir s1) as dir. intros dir.
  revert Hnd Hne. generalize (Simple.patch_times (Simple.data s)) as pt.
  induction Simple.methods as [|m0 ms IH]; intros pt Hnd Hne; simpl; [auto|].
  rewrite simple_parse_method_eq.
  destruct (fresh_series logs (Simple.log_file dir m0)) as [times|] eqn:E; [|now apply IH].
  destruct (IH (dict_set m0 times pt)) as (H1 & H2 & H3).
  - now apply NoDup_dict_set.
  - intros m t Hin. apply In_dict_set in Hin as [[_ ->]|Hin]; [|now apply (Hne m t)].
    unfold fresh_series in E. destruct (log_series logs _) as [[|x l]|]; congruence.
  - split; [exact H1|]. split; [exact H2|].
    intros m Hin. apply H3, keys_dict_set. now right.
Qed.

Lemma simple_iterations_series ticks s :
  NoDup (keys (Simple.patch_times (Simple.data s))) ->
  (forall m t, In (m, t) (Simple.patch_times (Simple.data s)) -> t <> []) ->
  let s' := fold_left Simple.iteration ticks s in
  NoDup (keys (Simple.patch_times (Simple.data s'))) /\
  (forall m t, In (m, t) (Simple.patch_times (Simple.data s')) -> t <> []) /\
  (forall m, In m (keys (Simple.patch_times (Simple.data s))) ->
             In m (keys (Simple.patch_times (Simple.data s')))).
Proof.
  revert s. induction ticks as [|tick ticks IH]; intros s Hnd Hne; simpl; [auto|].
  destruct (simple_iteration_series s tick Hnd Hne) as (H1 & H2 & H3).
  destruct (IH _ H1 H2) as (H4 & H5 & H6). auto.
Qed.

(** X15. In the simple monitor a stored timing series is never empty and a
    method that has one keeps it: over any turns of [run_interactive] the
    methods stored only grow, with distinct names, and every report lists
    all of them, in their stored order, each with the mean of its series. *)
Theorem simple_stored_series_persist
    (dir : string) (ticks more : list (shell * datetime * gmap string logfile)) :
  let s := fold_left Simple.iteration ticks (Simple.init dir) in
  let s' := fold_left Simple.iteration (ticks ++ more) (Simple.init dir) in
  NoDup (keys (Simple.patch_times (Simple.data s))) /\
  (forall m t, In (m, t) (Simple.patch_times (Simple.data s)) -> t <> []) /\
  (forall m, In m (keys (Simple.patch_times (Simple.data s))) ->
             In m (keys (Simple.patch_times (Simple.data s')))) /\
  exists perf,
    Simple.patch_performance s = Ok perf /\
    keys perf = keys (Simple.patch_times (Simple.data s)) /\
    performance_means perf = method_means (Simple.patch_times (Simple.data s)).
Proof.
  intros s s'.
  destruct (simple_iterations_series ticks (Simple.init dir)) as (Hnd & Hne & _);
    [constructor | intros m t [] |]. fold s in Hnd, Hne.
  split; [exact Hnd|]. split; [exact Hne|]. split.
  - unfold s'. rewrite fold_left_app. fold s.
    now destruct (simple_iterations_series more s Hnd Hne) as (_ & _ & H).
  - destruct (performance_from_means Simple.method_summary simple_method_summary
                (Simple.patch_times (Simple.data s)) [] Hnd)
      as (perf & Hperf & Hpm); [intros m _ []|].
    simpl in Hpm.
    destruct (performance_from_ok Simple.method_summary simple_method_summary
                (Simple.patch_times (Simple.data s)) [])
      as (perf' & Hperf' & Hwf & _); [constructor | constructor |].
    rewrite Hperf in Hperf'. injection Hperf' as <-.
    exists perf. split; [exact Hperf|]. split; [|exact Hpm].
    now rewrite <- (keys_performance_means perf Hwf), Hpm, keys_method_means_all.
Qed.

(** ** The order of doubles *)

Lemma SFltb_trans a b c : SFltb a b = true -> SFltb b c = true -> SFltb a c = true.
Proof.
  unfold SFltb.
  destruct a as [sa|sa| |sa ma ea], b as [sb|sb| |sb mb eb], c as [sc|sc| |sc mc ec];
    try destruct sa; try destruct sb; try destruct sc; cbn; try congruence.
  all: destruct (Z.compare_spec ea eb), (Z.compare_spec eb ec), (Z.compare_spec ea ec);
    try congruence; try lia; subst;
    rewrite ?Pos.compare_cont_spec; cbn;
    destruct (Pos.compare_spec ma mb), (Pos.compare_spec mb mc), (Pos.compare_spec ma mc);
    cbn; try congruence; try lia.
Qed.

(** What is less than [b] is less than everything not less than [b], nan
    apart. *)
Lemma SFltb_neg_trans a b c :
  c <> S754_nan -> SFltb a b = true -> SFltb c b = false -> SFltb a c = true.
Proof.
  unfold SFltb.
  destruct a as [sa|sa| |sa ma ea], b as [sb|sb| |sb mb eb], c as [sc|sc| |sc mc ec];
    try destruct sa; try destruct sb; try destruct sc; cbn; try congruence.
  all: intros _;
    destruct (Z.compare_spec ea eb), (Z.compare_spec ec eb), (Z.compare_spec ea ec);
    try congruence; try lia; subst;
    rewrite ?Pos.compare_cont_spec; cbn;
    destruct (Pos.compare_spec ma mb), (Pos.compare_spec mc mb), (Pos.compare_spec ma mc);
    cbn; try congruence; try lia.
Qed.

Lemma SFleb_total a c :
  a <> S754_nan -> c <> S754_nan -> SFltb c a = false -> SFleb a c = true.
Proof.
  unfold SFltb, SFleb.
  destruct a as [sa|sa| |sa ma ea], c as [sc|sc| |sc mc ec];
    try destruct sa; try destruct sc; cbn; try congruence.
  all: intros _ _; rewrite (Z.compare_antisym ea ec);
    destruct (Z.compare_spec ea ec); cbn; try congruence;
    rewrite !Pos.compare_cont_spec; cbn; rewrite (Pos.compare_antisym ma mc);
    destruct (Pos.compare_spec ma mc); cbn; congruence.
Qed.

Lemma SFltb_leb a c : SFltb a c = true -> SFleb a c = true.
Proof. unfold SFltb, SFleb. now destruct (SFcompare a c) as [[| |]|]. Qed.

Lemma SFleb_refl a : a <> S754_nan -> SFleb a a = true.
Proof.
  unfold SFleb.
  destruct a as [sa|sa| |sa ma ea]; try destruct sa; cbn; try congruence.
  all: intros _; rewrite Z.compare_refl, Pos.compare_cont_spec, Pos.compare_refl;
    reflexivity.
Qed.

Lemma is_nan_Prim2SF x : is_nan x = false -> Prim2SF x <> S754_nan.
Proof.
  unfold is_nan. rewrite FloatAxioms.eqb_spec. intros H E.
  rewrite E in H. discriminate.
Qed.

Lemma dbl_lt_is_nan x y : Doubles.lt x y = true -> is_nan x = false /\ is_nan y = false.
Proof.
  unfold Doubles.lt, is_nan. rewrite !FloatAxioms.eqb_spec, ltb_spec.
  unfold SFltb, SFeqb.
  destruct (Prim2SF x) as [sa|sa| |sa ma ea], (Prim2SF y) as [sb|sb| |sb mb eb];
    try destruct sa; try destruct sb; cbn; try congruence; intros _; split;
    rewrite ?Z.compare_refl, ?Pos.compare_cont_spec, ?Pos.compare_refl; reflexivity.
Qed.

Lemma dbl_lt_trans x y z :
  Doubles.lt x y = true -> Doubles.lt y z = true -> Doubles.lt x z = true.
Proof. unfold Doubles.lt. rewrite !ltb_spec. apply SFltb_trans. Qed.

Lemma dbl_lt_neg_trans x y z :
  is_nan z = false ->
  Doubles.lt x y = true -> Doubles.lt z y = false -> Doubles.lt x z = true.
Proof.
  unfold Doubles.lt. rewrite !ltb_spec. intros Hz.
  apply SFltb_neg_trans. now apply is_nan_Prim2SF.
Qed.

Lemma dbl_not_lt_leb x y :
  is_nan x = false -> is_nan y = false ->
  Doubles.lt y x = false -> (x <=? y)%float = true.
Proof.
  unfold Doubles.lt. rewrite ltb_spec, leb_spec. intros Hx Hy.
  apply SFleb_total; now apply is_nan_Prim2SF.
Qed.

Lemma dbl_lt_leb x y : Doubles.lt x y = true -> (x <=? y)%float = true.
Proof. unfold Doubles.lt. rewrite ltb_spec, leb_spec. apply SFltb_leb. Qed.

Lemma dbl_leb_refl x : is_nan x = false -> (x <=? x)%float = true.
Proof. rewrite leb_spec. intros Hx. now apply SFleb_refl, is_nan_Prim2SF. Qed.

(** ** The scan of [min] over doubles *)

Section MinScan.
Context {A : Type} (key : A -> result float) (keyf : A -> float).

(** The scan never raises when the keys are floats.  The item it ends on is
    less than the candidate it started from, unless it is that candidate;
    no later item is less than it, and it is less than every earlier item
    whose key is no nan. *)
Lemma dbl_min_from_scan l best :
  (forall x, In x l -> key x = Ok (keyf x)) ->
  exists r,
    Doubles.min_from key best (keyf best) l = Ok r /\
    ((r = best /\ Forall (fun y => Doubles.lt (keyf y) (keyf best) = false) l) \/
     (exists pre post,
        l = pre ++ r :: post /\ Doubles.lt (keyf r) (keyf best) = true /\
        Forall (fun y => is_nan (keyf y) = false ->
                         Doubles.lt (keyf r) (keyf y) = true) pre /\
        Forall (fun y => Doubles.lt (keyf y) (keyf r) = false) post)).
Proof.
  revert best. induction l as [|x l IH]; intros best Hkey; simpl.
  - exists best. split; [reflexivity|]. left. auto.
  - rewrite (Hkey x) by (now left). simpl.
    assert (Hkey' : forall y, In y l -> key y = Ok (keyf y))
      by (intros y Hy; apply Hkey; now right).
    destruct (Doubles.lt (keyf x) (keyf best)) eqn:E.
    + destruct (IH x Hkey')
        as (r & Hr & [[-> Hall]|(pre & post & -> & Hlt & Hpre & Hpost)]).
      * exists x. split; [exact Hr|]. right. exists [], l. auto.
      * exists r. split; [exact Hr|]. right. exists (x :: pre), post.
        repeat split; auto.
        now apply dbl_lt_trans with (keyf x).
    + destruct (IH best Hkey')
        as (r & Hr & [[-> Hall]|(pre & post & -> & Hlt & Hpre & Hpost)]).
      * exists best. split; [exact Hr|]. left. auto.
      * exists r. split; [exact Hr|]. right. exists (x :: pre), post.
        repeat split; auto.
        constructor; [|exact Hpre]. intros Hx.
        now apply dbl_lt_neg_trans with (keyf best).
Qed.

Lemma dbl_min_by_scan l :
  l <> [] ->
  (forall x, In x l -> key x = Ok (keyf x)) ->
  exists pre r post,
    l = pre ++ r :: post /\ Doubles.min_by key l = Ok r /\
    Forall (fun y => is_nan (keyf y) = false ->
                     Doubles.lt (keyf r) (keyf y) = true) pre /\
    Forall (fun y => Doubles.lt (keyf y) (keyf r) = false) post.
Proof.
  destruct l as [|x l]; [congruence|]. intros _ Hkey. simpl.
  rewrite (Hkey x) by (now left). simpl.
  destruct (dbl_min_from_scan l x)
    as (r & Hr & [[-> Hall]|(pre & post & -> & Hlt & Hpre & Hpost)]).
  - intros y Hy. apply Hkey. now right.
  - exists [], x, l. auto.
  - exists (x :: pre), r, post. repeat split; auto.
Qed.

(** Only the keys of the items scanned matter. *)
Lemma dbl_min_from_ext (key' : A -> result float) l best v :
  (forall x, In x l -> key x = key' x) ->
  Doubles.min_from key best v l = Doubles.min_from key' best v l.
Proof.
  revert best v. induction l as [|x l IH]; intros best v Hkey; simpl; [reflexivity|].
  rewrite (Hkey x) by (now left).
  assert (Hkey' : forall y, In y l -> key y = key' y)
    by (intros y Hy; apply Hkey; now right).
  destruct (key' x) as [w|e]; simpl; [|reflexivity].
  destruct (Doubles.lt w v); now apply IH.
Qed.

Lemma dbl_min_by_ext (key' : A -> result float) l :
  (forall x, In x l -> key x = key' x) ->
  Doubles.min_by key l = Doubles.min_by key' l.
Proof.
  destruct l as [|x l]; intros Hkey; simpl; [reflexivity|].
  rewrite (Hkey x) by (now left).
  destruct (key' x) as [w|e]; simpl; [|reflexivity].
  apply dbl_min_from_ext. intros y Hy. apply Hkey. now right.
Qed.

End MinScan.

Section MinMap.
Context {A B : Type} (f : A -> B) (key : B -> result float).

Lemma dbl_min_from_map l best v :
  Doubles.min_from key (f best) v (map f l) =
  match Doubles.min_from (fun x => key (f x)) best v l with
  | Ok r => Ok (f r)
  | Raise e => Raise e
  end.
Proof.
  revert best v. induction l as [|x l IH]; intros best v; simpl; [reflexivity|].
  destruct (key (f x)) as [w|e]; simpl; [|reflexivity].
  destruct (Doubles.lt w v); apply IH.
Qed.

(** [min] over the images is the image of [min] by the composed key. *)
Lemma dbl_min_by_map l :
  Doubles.min_by key (map f l) =
  match Doubles.min_by (fun x => key (f x)) l with
  | Ok r => Ok (f r)
  | Raise e => Raise e
  end.
Proof.
  destruct l as [|x l]; simpl; [reflexivity|].
  destruct (key (f x)) as [w|e]; simpl; [|reflexivity].
  apply dbl_min_from_map.
Qed.

End MinMap.

(** ** The means and the entries of the stored series *)

Section DoubleMeans.
Variable mean_of min_of max_of std_of : list float -> float.

Lemma dbl_method_means_cons m t items :
  Doubles.method_means mean_of ((m, t) :: items) =
  if nonempty t then (m, mean_of t) :: Doubles.method_means mean_of items
  else Doubles.method_means mean_of items.
Proof. unfold Doubles.method_means. simpl. now destruct (nonempty t). Qed.

Lemma dbl_entries_of_cons m t items :
  Doubles.entries_of mean_of min_of max_of std_of ((m, t) :: items) =
  if nonempty t
  then (m, Doubles.entry_of mean_of min_of max_of std_of t)
       :: Doubles.entries_of mean_of min_of max_of std_of items
  else Doubles.entries_of mean_of min_of max_of std_of items.
Proof. unfold Doubles.entries_of. simpl. now destruct (nonempty t). Qed.

(** The averages of the entries are the means of the series. *)
Lemma dbl_performance_means_entries pm :
  Doubles.performance_means (Doubles.entries_of mean_of min_of max_of std_of pm) =
  Doubles.method_means mean_of pm.
Proof.
  induction pm as [|[m t] pm IH]; [reflexivity|].
  rewrite dbl_method_means_cons, dbl_entries_of_cons.
  destruct (nonempty t); simpl; now rewrite IH.
Qed.

Lemma dbl_keys_performance_means perf :
  keys (Doubles.performance_means perf) = keys perf.
Proof.
  unfold keys, Doubles.performance_means. rewrite List.map_map. reflexivity.
Qed.

Lemma dbl_keys_method_means m pm :
  In m (keys (Doubles.method_means mean_of pm)) -> In m (keys pm).
Proof.
  induction pm as [|[k t] pm IH]; [tauto|].
  rewrite dbl_method_means_cons. destruct (nonempty t); simpl; intuition.
Qed.

Lemma dbl_NoDup_method_means pm :
  NoDup (keys pm) -> NoDup (keys (Doubles.method_means mean_of pm)).
Proof.
  induction pm as [|[k t] pm IH]; intros Hnd; [constructor|].
  simpl in Hnd. apply NoDup_cons in Hnd as [Hnotin Hnd].
  rewrite dbl_method_means_cons. destruct (nonempty t); [|now apply IH].
  simpl. apply NoDup_cons. split; [|now apply IH].
  rewrite list_elem_of_In in *. intros H. apply Hnotin. now apply dbl_keys_method_means.
Qed.

Lemma dbl_NoDup_entries_of pm :
  NoDup (keys pm) ->
  NoDup (keys (Doubles.entries_of mean_of min_of max_of std_of pm)).
Proof.
  intros Hnd. rewrite <- dbl_keys_performance_means, dbl_performance_means_entries.
  now apply dbl_NoDup_method_means.
Qed.

Lemma dbl_In_method_means m a pm :
  In (m, a) (Doubles.method_means mean_of pm) <->
  exists t, In (m, t) pm /\ t <> [] /\ a = mean_of t.
Proof.
  induction pm as [|[k t] pm IH].
  - simpl. split; [tauto | intros (t & [] & _)].
  - rewrite dbl_method_means_cons. destruct (nonempty t) eqn:Ht.
    + apply nonempty_true in Ht. simpl. rewrite IH. split.
      * intros [[= -> <-]|(t' & Hin & Hne & Ha)]; eauto 6.
      * intros (t' & [[= -> ->]|Hin] & Hne & Ha); [left; congruence | right; eauto].
    + simpl. rewrite IH. split.
      * intros (t' & Hin & Hne & Ha). eauto 6.
      * intros (t' & [[= -> ->]|Hin] & Hne & Ha); [|eauto].
        destruct t'; [congruence | discriminate].
Qed.

(** With distinct method names [avg_times] lists the means of the non-empty
    series, in the order of the stored series. *)
Lemma dbl_avg_times_from_means items acc :
  NoDup (keys items) ->
  (forall m, In m (keys items) -> ~ In m (keys acc)) ->
  Doubles.avg_times_from mean_of items acc = acc ++ Doubles.method_means mean_of items.
Proof.
  revert acc. induction items as [|[m t] items IH]; intros acc Hnd Hfresh.
  - simpl. now rewrite app_nil_r.
  - rewrite dbl_method_means_cons. cbn [Doubles.avg_times_from].
    simpl in Hnd, Hfresh.
    apply NoDup_cons in Hnd as [Hnotin Hnd].
    rewrite list_elem_of_In in Hnotin.
    destruct (nonempty t) eqn:Ht.
    + rewrite dict_set_fresh by (apply Hfresh; now left).
      rewrite IH; [now rewrite <- app_assoc | exact Hnd |].
      intros m' Hin Hin'. unfold keys in Hin'. rewrite map_app in Hin'.
      apply in_app_or in Hin' as [Hin'|[<-|[]]]; [|tauto].
      apply (Hfresh m'); [now right | exact Hin'].
    + apply IH; [exact Hnd|]. intros m' Hin. apply Hfresh. now right.
Qed.

Lemma dbl_method_summary_entry t :
  t <> [] ->
  Doubles.method_summary mean_of min_of max_of std_of t =
  Ok (Doubles.entry_of mean_of min_of max_of std_of t).
Proof. destruct t; [congruence | reflexivity]. Qed.

(** The loop of the report never raises; with distinct method names it lists
    the entries of the non-empty series, in the order of the stored
    series. *)
Lemma dbl_performance_from_entries items perf :
  NoDup (keys items) ->
  (forall m, In m (keys items) -> ~ In m (keys perf)) ->
  Doubles.performance_from mean_of min_of max_of std_of items perf =
  Ok (perf ++ Doubles.entries_of mean_of min_of max_of std_of items).
Proof.
  revert perf. induction items as [|[m t] items IH]; intros perf Hnd Hfresh.
  - simpl. now rewrite app_nil_r.
  - rewrite dbl_entries_of_cons. cbn [Doubles.performance_from].
    simpl in Hnd, Hfresh.
    apply NoDup_cons in Hnd as [Hnotin Hnd].
    rewrite list_elem_of_In in Hnotin.
    destruct (nonempty t) eqn:Ht.
    + pose proof Ht as Hne. apply nonempty_true in Hne.
      rewrite (dbl_method_summary_entry t Hne). cbn [bind].
      rewrite dict_set_fresh by (apply Hfresh; now left).
      rewrite IH; [now rewrite <- app_assoc | exact Hnd |].
      intros m' Hin Hin'. unfold keys in Hin'. rewrite map_app in Hin'.
      apply in_app_or in Hin' as [Hin'|[<-|[]]]; [|tauto].
      apply (Hfresh m'); [now right | exact Hin'].
    + apply IH; [exact Hnd|]. intros m' Hin. apply Hfresh. now right.
Qed.

Lemma dbl_patch_performance s :
  NoDup (keys (Doubles.patch_metrics s)) ->
  Doubles.patch_performance mean_of min_of max_of std_of s =
  Ok (Doubles.entries_of mean_of min_of max_of std_of (Doubles.patch_metrics s)).
Proof.
  intros Hnd. unfold Doubles.patch_performance.
  rewrite dbl_performance_from_entries; [reflexivity | exact Hnd | intros m _ []].
Qed.

End DoubleMeans.

(** ** The method [min] selects *)

(** [min] over the items of a dict of floats by their values ends on an
    entry that no later entry beats. *)
Lemma dbl_min_first_unbeaten (d : dict float) :
  d <> [] ->
  exists best a,
    Doubles.min_by (fun x => Ok (snd x)) d = Ok (best, a) /\
    Doubles.first_unbeaten d best a.
Proof.
  intros Hne.
  destruct (dbl_min_by_scan (fun x : string * float => Ok (snd x)) snd d Hne)
    as (pre & [best a] & post & Hd & Hmin & Hpre & Hpost); [reflexivity|].
  exists best, a. split; [exact Hmin|].
  exists pre, post. auto.
Qed.

(** Without a nan the entry that no later entry beats is the first of least
    value. *)
Lemma dbl_first_unbeaten_least d best a :
  Doubles.no_nan d -> Doubles.first_unbeaten d best a -> Doubles.first_least d best a.
Proof.
  intros Hnn (pre & post & -> & Hpre & Hpost).
  unfold Doubles.no_nan in Hnn.
  apply Forall_app in Hnn as [Hnpre Hnn].
  apply Forall_cons in Hnn as [Ha Hnpost]. simpl in Ha.
  exists pre, post. split; [reflexivity|]. split.
  - rewrite Forall_forall in *. intros x Hx. apply (Hpre x Hx), (Hnpre x Hx).
  - rewrite Forall_forall in *. intros x Hx.
    apply dbl_not_lt_leb; [exact Ha | apply (Hnpost x Hx) | apply (Hpost x Hx)].
Qed.

(** The first of least value is no greater than any value of the dict. *)
Lemma dbl_first_least_le d best a :
  is_nan a = false -> Doubles.first_least d best a ->
  forall m x, In (m, x) d -> (a <=? x)%float = true.
Proof.
  intros Ha (pre & post & -> & Hpre & Hpost) m x Hin.
  apply in_app_or in Hin as [Hin|[Hin|Hin]].
  - rewrite Forall_forall in Hpre. apply dbl_lt_leb.
    apply (Hpre (m, x)). now apply list_elem_of_In.
  - injection Hin as _ <-. now apply dbl_leb_refl.
  - rewrite Forall_forall in Hpost. apply (Hpost (m, x)). now apply list_elem_of_In.
Qed.

(** [min(d, key=d.get)] names the method of the entry that [min] over the
    items selects. *)
Lemma dbl_min_keys (d : dict float) :
  NoDup (keys d) ->
  Doubles.min_by (fun m => match dict_get m d with
                           | Some a => Ok a
                           | None => Raise TypeError
                           end) (keys d) =
  match Doubles.min_by (fun x => Ok (snd x)) d with
  | Ok r => Ok (fst r)
  | Raise e => Raise e
  end.
Proof.
  intros Hnd. unfold keys. rewrite dbl_min_by_map.
  rewrite (dbl_min_by_ext _ (fun x : string * float => Ok (snd x))); [reflexivity|].
  intros [k v] Hx. simpl. now rewrite (dict_get_NoDup k v d Hnd Hx).
Qed.

Lemma dbl_best_method_pick mean_of s best a :
  NoDup (keys (Doubles.patch_metrics s)) ->
  Doubles.min_by (fun x => Ok (snd x))
                 (Doubles.method_means mean_of (Doubles.patch_metrics s)) = Ok (best, a) ->
  Doubles.best_method mean_of s = Ok (Some best).
Proof.
  intros Hnd Hmin. unfold Doubles.best_method.
  destruct (Doubles.patch_metrics s) as [|x pm] eqn:Hpm; [discriminate|].
  cbn [nonempty]. rewrite dbl_avg_times_from_means by (auto; intros m _ []).
  cbn [app].
  destruct (Doubles.method_means mean_of (x :: pm)) as [|y means] eqn:Hmeans;
    [discriminate|].
  cbn [nonempty]. rewrite dbl_min_keys.
  - rewrite Hmin. reflexivity.
  - rewrite <- Hmeans. now apply dbl_NoDup_method_means.
Qed.

Lemma dbl_recommendations_pick perf best a :
  NoDup (keys perf) ->
  Doubles.min_by (fun x => Ok (snd x)) (Doubles.performance_means perf) = Ok (best, a) ->
  Doubles.recommendations perf = Ok [Doubles.recommendation best a].
Proof.
  intros Hnd Hmin. unfold Doubles.recommendations.
  assert (Hne : perf <> []) by (intros ->; discriminate).
  replace (nonempty perf) with true by (symmetry; now apply nonempty_true).
  unfold Doubles.performance_means in Hmin. rewrite dbl_min_by_map in Hmin.
  cbn [snd] in Hmin.
  destruct (dbl_min_by_scan (fun x : string * Doubles.entry => Ok (Doubles.average (snd x)))
              (fun x => Doubles.average (snd x)) perf Hne)
    as (pre & [m e] & post & Hd & Hr & _); [reflexivity|].
  rewrite Hr in Hmin. rewrite Hr. cbn [bind fst snd] in *.
  injection Hmin as -> <-.
  rewrite (dict_get_NoDup best e perf Hnd); [reflexivity|].
  rewrite Hd. apply in_or_app. right. now left.
Qed.

(** ** The states a dashboard reaches *)

Lemma dbl_process_NoDup s msg :
  NoDup (keys (Doubles.patch_metrics s)) ->
  NoDup (keys (Doubles.patch_metrics (Doubles.process s msg))).
Proof.
  intros Hnd. destruct msg as [data|data]; simpl; [exact Hnd|].
  now apply dict_update_keys.
Qed.

Lemma dbl_process_aligned s msg :
  Doubles.windows_aligned (Doubles.system_metrics s) ->
  Doubles.windows_aligned (Doubles.system_metrics (Doubles.process s msg)).
Proof.
  unfold Doubles.windows_aligned. intros H. destruct msg as [data|data]; simpl; [|exact H].
  rewrite !keep_last_100_lastn, !lastn_length, !length_app, H. reflexivity.
Qed.

Lemma dbl_run_invariant dir msgs :
  NoDup (keys (Doubles.patch_metrics (Doubles.run dir msgs))) /\
  Doubles.windows_aligned (Doubles.system_metrics (Doubles.run dir msgs)).
Proof.
  unfold Doubles.run.
  assert (Hinit : NoDup (keys (Doubles.patch_metrics (Doubles.init dir))) /\
                  Doubles.windows_aligned (Doubles.system_metrics (Doubles.init dir))).
  { split; [constructor | reflexivity]. }
  revert Hinit. generalize (Doubles.init dir) as s.
  induction msgs as [|msg msgs IH]; intros s [Hnd Hal]; simpl; [now split|].
  apply IH. split; [now apply dbl_process_NoDup | now apply dbl_process_aligned].
Qed.

Section DoubleReports.
Variable mean_of min_of max_of std_of : list float -> float.

Lemma dbl_window_summary_ok l :
  l <> [] -> exists v, Doubles.window_summary mean_of min_of max_of l = Ok v.
Proof. destruct l; [congruence|]. intros _. simpl. eauto. Qed.

Lemma dbl_system_metrics_summary_ok s :
  Doubles.windows_aligned (Doubles.system_metrics s) ->
  exists summary,
    Doubles.system_metrics_summary mean_of min_of max_of s = Ok summary /\
    (cpu_usage (Doubles.system_metrics s) = [] -> summary = Doubles.PDict []).
Proof.
  unfold Doubles.windows_aligned, Doubles.system_metrics_summary. intros Hlen.
  destruct (cpu_usage (Doubles.system_metrics s)) as [|c cpu] eqn:Hcpu; cbn [nonempty].
  - exists (Doubles.PDict []). split; reflexivity.
  - destruct (dbl_window_summary_ok (c :: cpu)) as [vc Hvc]; [discriminate|].
    destruct (dbl_window_summary_ok (memory_usage (Doubles.system_metrics s))) as [vm Hvm].
    { intros E. rewrite E in Hlen. discriminate. }
    rewrite Hvc, Hvm. cbn [bind].
    eexists. split; [reflexivity | discriminate].
Qed.

End DoubleReports.

(** [recommendations] never raises on a mapping with distinct method names:
    it is empty for an empty mapping, and else it holds one text, naming the
    method [min] selects. *)
Lemma dbl_recommendations_spec perf :
  NoDup (keys perf) ->
  (perf = [] -> Doubles.recommendations perf = Ok []) /\
  (perf <> [] ->
   exists best a,
     Doubles.recommendations perf = Ok [Doubles.recommendation best a] /\
     Doubles.min_by (fun x => Ok (snd x)) (Doubles.performance_means perf) = Ok (best, a) /\
     Doubles.first_unbeaten (Doubles.performance_means perf) best a).
Proof.
  intros Hnd. split; [now intros ->|]. intros Hne.
  destruct (dbl_min_first_unbeaten (Doubles.performance_means perf))
    as (best & a & Hmin & Hun).
  { destruct perf; [congruence | discriminate]. }
  exists best, a. split; [|split; [exact Hmin | exact Hun]].
  now apply dbl_recommendations_pick.
Qed.

(** ** The best method and the exported report *)

(** C8 (as amended). When the method names are distinct and some method has
    a sample, the summary and the report name the same best method, and no
    later method has a computed mean below its own.  If no computed mean is
    nan, its mean is the least of the means of the methods that have a
    sample, and among the methods of that least mean it is the first in the
    iteration order of the stored series: every method before it has a
    greater mean. *)
Theorem best_method_least_mean_without_nan
    (mean_of min_of max_of std_of : list float -> float) (s : Doubles.self) :
  NoDup (keys (Doubles.patch_metrics s)) ->
  (exists m t, In (m, t) (Doubles.patch_metrics s) /\ t <> []) ->
  exists best a,
    Doubles.best_method mean_of s = Ok (Some best) /\
    (exists perf,
       Doubles.patch_performance mean_of min_of max_of std_of s = Ok perf /\
       Doubles.recommendations perf = Ok [Doubles.recommendation best a]) /\
    (exists t, dict_get best (Doubles.patch_metrics s) = Some t /\ t <> [] /\
               a = mean_of t) /\
    Doubles.first_unbeaten (Doubles.method_means mean_of (Doubles.patch_metrics s))
                           best a /\
    ((forall m t, In (m, t) (Doubles.patch_metrics s) -> t <> [] ->
                  is_nan (mean_of t) = false) ->
     (forall m t, In (m, t) (Doubles.patch_metrics s) -> t <> [] ->
                  (a <=? mean_of t)%float = true) /\
     Doubles.first_least (Doubles.method_means mean_of (Doubles.patch_metrics s))
                         best a).
Proof.
  intros Hnd (m0 & t0 & Hin0 & Hne0).
  assert (Hmeans : Doubles.method_means mean_of (Doubles.patch_metrics s) <> []).
  { intros E.
    assert (H : In (m0, mean_of t0)
                   (Doubles.method_means mean_of (Doubles.patch_metrics s)))
      by (apply dbl_In_method_means; eauto).
    rewrite E in H. destruct H. }
  destruct (dbl_min_first_unbeaten _ Hmeans) as (best & a & Hmin & Hun).
  exists best, a.
  assert (Hin : In (best, a) (Doubles.method_means mean_of (Doubles.patch_metrics s))).
  { destruct Hun as (pre & post & -> & _). apply in_or_app. right. now left. }
  split; [now apply (dbl_best_method_pick mean_of s best a)|].
  split; [|split; [|split; [exact Hun|]]].
  - exists (Doubles.entries_of mean_of min_of max_of std_of (Doubles.patch_metrics s)).
    split; [now apply dbl_patch_performance|].
    apply dbl_recommendations_pick; [now apply dbl_NoDup_entries_of|].
    now rewrite dbl_performance_means_entries.
  - apply dbl_In_method_means in Hin as (t & Hin & Hne & Ha).
    exists t. split; [now apply dict_get_NoDup | auto].
  - intros Hnn.
    assert (Hfirst : Doubles.first_least
                       (Doubles.method_means mean_of (Doubles.patch_metrics s)) best a).
    { apply dbl_first_unbeaten_least; [|exact Hun].
      apply Forall_forall. intros [m x] Hx. apply list_elem_of_In in Hx.
      apply dbl_In_method_means in Hx as (t & Ht & Hne & ->). now apply (Hnn m t). }
    split; [|exact Hfirst].
    intros m t Hm Hne.
    apply (dbl_first_least_le
             (Doubles.method_means mean_of (Doubles.patch_metrics s)) best a)
      with (m := m); [|exact Hfirst|].
    + apply dbl_In_method_means in Hin as (t' & Hin' & Hne' & ->). now apply (Hnn best t').
    + apply dbl_In_method_means. eauto.
Qed.

Lemma best_method_least_mean_without_nan_witness :
  let s := {| Doubles.results_dir := "/r";
              Doubles.system_metrics := Doubles.system_metrics (Doubles.init "/r");
              Doubles.patch_metrics :=
                [("script"%string, []); ("quilt"%string, [4%float]);
                 ("git"%string, [1; 3]%float); ("extra"%string, [2; 2]%float)] |} in
  exists best a,
    Doubles.best_method Doubles.mean_seq s = Ok (Some best) /\
    Doubles.first_least (Doubles.method_means Doubles.mean_seq (Doubles.patch_metrics s))
                        best a.
Proof.
  intros s.
  assert (Hnd : NoDup (keys (Doubles.patch_metrics s))).
  { simpl. apply (bool_decide_unpack (NoDup _)). vm_compute. exact I. }
  assert (Hex : exists m t, In (m, t) (Doubles.patch_metrics s) /\ t <> []).
  { exists "quilt"%string, [4%float]. split; [simpl; tauto | discriminate]. }
  destruct (best_method_least_mean_without_nan
              Doubles.mean_seq Doubles.min_seq Doubles.max_seq Doubles.std_seq s Hnd Hex)
    as (best & a & Hbest & _ & _ & _ & Hnn).
  exists best, a. split; [exact Hbest|]. apply Hnn.
  intros m t [H|[H|[H|[H|[]]]]] Hne; injection H as <- <-;
    [now destruct Hne | reflexivity | reflexivity | reflexivity].
Defined.

(** A series that holds a nan has a nan mean, and [min] keeps a nan it meets
    first: with the logs quilt = [nan] and git = [1.0] the summary and the
    report name quilt, whose mean is not the least: it is not less than or
    equal to the mean 1.0 of git. *)
Lemma best_method_nan_mean_counterexample :
  let s := Doubles.run "/tmp/patch_results"
             [Doubles.Timing [("quilt"%string, [nan]); ("git"%string, [1%float])]] in
  let means := Doubles.method_means Doubles.mean_seq (Doubles.patch_metrics s) in
  means = [("quilt"%string, nan); ("git"%string, 1%float)] /\
  Doubles.best_method Doubles.mean_seq s = Ok (Some "quilt"%string) /\
  (exists perf,
     Doubles.patch_performance Doubles.mean_seq Doubles.min_seq Doubles.max_seq
                               Doubles.std_seq s = Ok perf /\
     Doubles.recommendations perf =
       Ok ["Use quilt method for optimal performance (avg: nans)"%string]) /\
  (nan <=? 1)%float = false /\
  ~ Doubles.first_least means "quilt" nan.
Proof.
  intros s means.
  split; [reflexivity|]. split; [reflexivity|].
  split; [eexists; split; reflexivity|]. split; [reflexivity|].
  intros (pre & post & Heq & Hpre & Hpost).
  change means with [("quilt"%string, nan); ("git"%string, 1%float)] in Heq.
  destruct pre as [|x pre]; simpl in Heq.
  - injection Heq as <-.
    apply Forall_cons in Hpost as [Hle _]. simpl in Hle. discriminate.
  - injection Heq as _ Heq.
    destruct pre as [|y pre]; simpl in Heq; [discriminate|].
    injection Heq as _ Heq. destruct pre; discriminate.
Qed.

(** With equal means the method met first wins, in the summary and in the
    report: git = [1.0, 3.0] comes before extra = [2.0, 2.0]. *)
Example best_method_tie :
  let s := {| Doubles.results_dir := "/r";
              Doubles.system_metrics := Doubles.system_metrics (Doubles.init "/r");
              Doubles.patch_metrics :=
                [("script"%string, []); ("quilt"%string, [4%float]);
                 ("git"%string, [1; 3]%float); ("extra"%string, [2; 2]%float)] |} in
  Doubles.best_method Doubles.mean_seq s = Ok (Some "git"%string) /\
  exists perf,
    Doubles.patch_performance Doubles.mean_seq Doubles.min_seq Doubles.max_seq
                              Doubles.std_seq s = Ok perf /\
    Doubles.recommendations perf =
      Ok ["Use git method for optimal performance (avg: 2.00s)"%string].
Proof. intros s. split; [reflexivity|]. eexists. split; reflexivity. Qed.

(** The means compared are the computed ones.  The doubles nearest to 0.1,
    0.2 and 0.3, summed from left to right and divided by 3, give a mean just
    above the double nearest to 0.2: after quilt = [0.1, 0.2, 0.3] the method
    git = [0.2] is still selected. *)
Example best_method_rounded_means :
  let s := {| Doubles.results_dir := "/r";
              Doubles.system_metrics := Doubles.system_metrics (Doubles.init "/r");
              Doubles.patch_metrics :=
                [("quilt"%string,
                  [0x1.999999999999ap-4; 0x1.999999999999ap-3; 0x1.3333333333333p-2]%float);
                 ("git"%string, [0x1.999999999999ap-3%float])] |} in
  (0x1.999999999999ap-3 <? Doubles.mean_seq
     [0x1.999999999999ap-4; 0x1.999999999999ap-3; 0x1.3333333333333p-2])%float = true /\
  Doubles.best_method Doubles.mean_seq s = Ok (Some "git"%string).
Proof. intros s. split; reflexivity. Qed.

(** C9 (as amended). In every state a dashboard reaches, the report is built
    without an exception and is a mapping with exactly the keys timestamp,
    system_metrics_summary, patch_performance and recommendations.
    [export_report] returns it when the file can be opened for writing, and
    raises, returning nothing, when it cannot.  With no CPU sample the
    summary is the empty mapping; the list of recommendations is empty when
    ['patch_performance'] is, and else holds one text, naming a method that
    no later method beats on the average: the first method of least average
    when no average is nan.  Before any data is collected the three are
    empty. *)
Theorem export_report_returns_report_or_raises
    (mean_of min_of max_of std_of : list float -> float)
    (dir : string) (msgs : list Doubles.message) (now : datetime) :
  let s := Doubles.run dir msgs in
  (exists summary perf recs,
     let report :=
       Doubles.PDict
         [("timestamp"%string, Doubles.PStr (isoformat now));
          ("system_metrics_summary"%string, summary);
          ("patch_performance"%string,
           Doubles.PDict (map (fun x => (fst x, Doubles.entry_json (snd x))) perf));
          ("recommendations"%string, Doubles.PList (map Doubles.PStr recs))] in
     Doubles.build_report mean_of min_of max_of std_of s now = Ok report /\
     Doubles.patch_performance mean_of min_of max_of std_of s = Ok perf /\
     (forall filename now_name d,
        let path := match filename with
                    | Some f => f
                    | None => Doubles.default_filename s now_name
                    end in
        Doubles.export_report mean_of min_of max_of std_of s filename now_name now d =
          if Doubles.writable d path
          then Ok (report, {| Doubles.files := <[path := report]> (Doubles.files d);
                              Doubles.writable := Doubles.writable d |})
          else Raise OSError) /\
     (cpu_usage (Doubles.system_metrics s) = [] -> summary = Doubles.PDict []) /\
     (perf = [] -> recs = []) /\
     (perf <> [] ->
      exists best a,
        recs = [Doubles.recommendation best a] /\
        Doubles.first_unbeaten (Doubles.performance_means perf) best a /\
        (Doubles.no_nan (Doubles.performance_means perf) ->
         Doubles.first_least (Doubles.performance_means perf) best a))) /\
  Doubles.build_report mean_of min_of max_of std_of (Doubles.init dir) now =
    Ok (Doubles.PDict
          [("timestamp"%string, Doubles.PStr (isoformat now));
           ("system_metrics_summary"%string, Doubles.PDict []);
           ("patch_performance"%string, Doubles.PDict []);
           ("recommendations"%string, Doubles.PList [])]).
Proof.
  intros s. split; [|reflexivity].
  destruct (dbl_run_invariant dir msgs) as [Hnd Hal]. fold s in Hnd, Hal.
  destruct (dbl_system_metrics_summary_ok mean_of min_of max_of s Hal)
    as (summary & Hs & He).
  pose proof (dbl_patch_performance mean_of min_of max_of std_of s Hnd) as Hp.
  set (perf := Doubles.entries_of mean_of min_of max_of std_of (Doubles.patch_metrics s))
    in Hp.
  assert (Hndp : NoDup (keys perf)) by now apply dbl_NoDup_entries_of.
  destruct (dbl_recommendations_spec perf Hndp) as [Hempty Hsome].
  assert (Hrecs : exists recs,
            Doubles.recommendations perf = Ok recs /\
            (perf = [] -> recs = []) /\
            (perf <> [] ->
             exists best a,
               recs = [Doubles.recommendation best a] /\
               Doubles.first_unbeaten (Doubles.performance_means perf) best a /\
               (Doubles.no_nan (Doubles.performance_means perf) ->
                Doubles.first_least (Doubles.performance_means perf) best a))).
  { destruct perf as [|x perf'] eqn:Hperf.
    - exists []. split; [now apply Hempty|]. split; [reflexivity | congruence].
    - destruct Hsome as (best & a & Hr & _ & Hun); [discriminate|].
      exists [Doubles.recommendation best a]. split; [exact Hr|].
      split; [discriminate|]. intros _. exists best, a.
      split; [reflexivity|]. split; [exact Hun|].
      intros Hnn. now apply dbl_first_unbeaten_least. }
  destruct Hrecs as (recs & Hr & Hnil & Hone).
  exists summary, perf, recs. cbn zeta.
  assert (Hb : Doubles.build_report mean_of min_of max_of std_of s now =
               Ok (Doubles.PDict
                     [("timestamp"%string, Doubles.PStr (isoformat now));
                      ("system_metrics_summary"%string, summary);
                      ("patch_performance"%string,
                       Doubles.PDict
                         (map (fun x => (fst x, Doubles.entry_json (snd x))) perf));
                      ("recommendations"%string, Doubles.PList (map Doubles.PStr recs))])).
  { unfold Doubles.build_report. rewrite Hs, Hp. cbn [bind]. rewrite Hr. reflexivity. }
  split; [exact Hb|]. split; [exact Hp|]. split; [|auto].
  intros filename now_name d. unfold Doubles.export_report.
  rewrite Hb. cbn [bind]. unfold Doubles.write_json.
  destruct (Doubles.writable d _); reflexivity.
Qed.

(** A dashboard whose results directory does not exist (nothing creates it)
    cannot open the report file: [export_report] builds the report and then
    raises, so the call returns no report. *)
Lemma export_report_unwritable_counterexample :
  let s := Doubles.init "/tmp/patch_results" in
  let now := {| year := 2026; month := 1; day := 9; hour := 3; minute := 4;
                second := 5; microsecond := 0 |} in
  let d := {| Doubles.files := ∅; Doubles.writable := fun _ => false |} in
  is_ok (Doubles.build_report Doubles.mean_seq Doubles.min_seq Doubles.max_seq
                              Doubles.std_seq s now) = true /\
  Doubles.export_report Doubles.mean_seq Doubles.min_seq Doubles.max_seq
                        Doubles.std_seq s None now now d = Raise OSError.
Proof. intros s now d. split; reflexivity. Qed.
